(** * CashCanvas: CSV ingestion and analytics aggregation

    A shallow embedding of [app/parsers.py], of the validators of
    [app/schemas.py], of [app/crud/operations.py] ([compute_analytics], the
    filters, and the creation and deletion of transactions with their
    helpers), of the pagination of [app/api/transactions.py] and of the
    allowed origins of [app/config.py].

    Conventions of the embedding:
    - a Python [str] is a list of Unicode code points ([pystr]);
    - a Python [float] is an exact rational ([Q]); binary64 rounding,
      infinities and NaN are outside the model;
    - library calls whose behaviour is not fixed by this repository
      ([float(...)], [datetime.strptime], [date.strftime]) are parameters of
      the sections that use them;
    - a [dict] whose iteration order is observable is an insertion-ordered
      association list ([pydict]); a [dict] that is only looked up or
      sorted by its unique keys is a [gmap];
    - a raised exception is the [Err] branch of [result];
    - a table of the database is the list of its rows, oldest first, and a
      query is the list of rows that it yields; the id that the database
      assigns to a new row is a parameter. *)

From Stdlib Require Import QArith String Ascii Lqa.
From stdpp Require Import gmap list sorting.

#[local] Open Scope Z_scope.
#[local] Open Scope nat_scope.

(** ** Python strings *)

(** A code point, and a [str]. *)
Abbreviation char := N.
Abbreviation pystr := (list N).

Module PyStr.

(** String literals of the source, all of which are ASCII. *)
Definition lit (s : string) : pystr := map N_of_ascii (list_ascii_of_string s).

(** [str.isspace] for one code point: the characters on which [str.split()]
    and [str.strip()] act, and which [\s] matches in a [str] pattern. *)
Definition isspace (c : char) : bool :=
  ((9 <=? c) && (c <=? 13) || (28 <=? c) && (c <=? 32) ||
   (c =? 133) || (c =? 160) || (c =? 5760) ||
   (8192 <=? c) && (c <=? 8202) || (c =? 8232) || (c =? 8233) ||
   (c =? 8239) || (c =? 8287) || (c =? 12288))%N.

Fixpoint lstrip (s : pystr) : pystr :=
  match s with
  | c :: s' => if isspace c then lstrip s' else s
  | [] => []
  end.

Definition rstrip (s : pystr) : pystr := rev (lstrip (rev s)).

(** [s.strip()] *)
Definition strip (s : pystr) : pystr := rstrip (lstrip s).

(** [s.replace(c, '')] for a one-character [c]. *)
Definition remove_char (c : char) (s : pystr) : pystr :=
  filter (λ x, x ≠ c) s.

(** [s.split()]: the maximal runs of non-whitespace characters. *)
Fixpoint split_ws_aux (cur : pystr) (s : pystr) : list pystr :=
  match s with
  | [] => match cur with [] => [] | _ => [cur] end
  | c :: s' =>
      if isspace c
      then match cur with
           | [] => split_ws_aux [] s'
           | _ => cur :: split_ws_aux [] s'
           end
      else split_ws_aux (cur ++ [c]) s'
  end.

Definition split_ws (s : pystr) : list pystr := split_ws_aux [] s.

(** [s.split(sep)] for a one-character [sep]: always at least one field. *)
Fixpoint split_char_aux (sep : char) (cur : pystr) (s : pystr) : list pystr :=
  match s with
  | [] => [cur]
  | c :: s' =>
      if decide (c = sep)
      then cur :: split_char_aux sep [] s'
      else split_char_aux sep (cur ++ [c]) s'
  end.

Definition split_char (sep : char) (s : pystr) : list pystr :=
  split_char_aux sep [] s.

(** [''.join(parts)] *)
Definition join_empty (parts : list pystr) : pystr := List.concat parts.

(** [s.lower()], as far as the source observes it: the source only compares
    a lowered string with ASCII literals. The code points that lower to an
    ASCII letter are [A]..[Z] and the Kelvin sign U+212A; every other code
    point outside ASCII lowers to text outside ASCII, and is left as it is
    here. *)
Definition lower_char (c : char) : char :=
  if ((65 <=? c) && (c <=? 90))%N then (c + 32)%N
  else if (c =? 8490)%N then 107%N
  else c.

Definition lower (s : pystr) : pystr := map lower_char s.

(** Truthiness of a [str]. *)
Definition truthy (s : pystr) : bool :=
  match s with [] => false | _ => true end.

(** Code-point order, the order of [str.__lt__]. *)
Fixpoint ltb (a b : pystr) : bool :=
  match a, b with
  | _, [] => false
  | [], _ :: _ => true
  | x :: a', y :: b' => (x <? y)%N || ((x =? y)%N && ltb a' b')
  end.

End PyStr.

Abbreviation lit := PyStr.lit.

(** ** Results and insertion-ordered dictionaries *)

Inductive result (E A : Type) : Type :=
| Ok (a : A)
| Err (e : E).
Arguments Ok {E A} a.
Arguments Err {E A} e.

(** Sequencing: the first raised exception ends the computation.
    [x ← r; k] is stdpp's notation for [r ≫= (λ x, k)]. *)
#[global] Instance result_bind {E} : MBind (result E) := λ A B k r,
  match r with
  | Ok a => k a
  | Err e => Err e
  end.

#[global] Instance result_ret {E} : MRet (result E) := λ A a, Ok a.

(** A Python [dict]: keys in order of first insertion, one entry per key. *)
Abbreviation pydict K V := (list (K * V)).

Section pydict.
Context {K V : Type} `{EqDecision K}.

Fixpoint dict_get (d : pydict K V) (k : K) : option V :=
  match d with
  | [] => None
  | (k', v) :: d' => if decide (k' = k) then Some v else dict_get d' k
  end.

(** [k in d] *)
Definition dict_in (k : K) (d : pydict K V) : bool :=
  match dict_get d k with Some _ => true | None => false end.

(** [d[k] = v]: overwrite in place, or append a new key. *)
Fixpoint dict_set (d : pydict K V) (k : K) (v : V) : pydict K V :=
  match d with
  | [] => [(k, v)]
  | (k', v') :: d' =>
      if decide (k' = k) then (k', v) :: d' else (k', v') :: dict_set d' k v
  end.

(** [{key: value for ... }] and [dict(pairs)] *)
Definition dict_of_items (items : list (K * V)) : pydict K V :=
  foldl (λ d kv, dict_set d kv.1 kv.2) [] items.

Definition dict_keys (d : pydict K V) : list K := d.*1.
Definition dict_values (d : pydict K V) : list V := d.*2.
End pydict.

(** ** Dates and transaction dictionaries *)

Record date := Date { year : nat; month : nat; day : nat }.

#[global] Instance date_eq_dec : EqDecision date.
Proof. solve_decision. Defined.

(** The [txn_data] dictionary a parser builds for one row. *)
Record TxnData := {
  txn_date : date;
  txn_description : pystr;
  txn_cost_center_name : option pystr;
  txn_spend_category_names : list pystr;
  txn_amount : Q;
  txn_account : pystr;
  txn_notes : option pystr;
}.

(** ** schemas.py: [TransactionCreate] *)

Inductive field := f_description | f_account | f_notes.

Inductive field_msg :=
| FieldEmpty                        (* Field cannot be empty or whitespace *)
| StringTooShort (min_length : nat)
| StringTooLong (max_length : nat).

Record TransactionCreateModel := {
  tc_date : date;
  tc_description : pystr;
  tc_amount : Q;
  tc_account : pystr;
  tc_notes : option pystr;
  tc_cost_center_name : pystr;
  tc_spend_category_names : list pystr;
}.

Definition Uncategorized : pystr := lit "Uncategorized".

(** [if not v or not v.strip()] on an [Optional[str]] *)
Definition blank (v : option pystr) : bool :=
  match v with
  | None => true
  | Some s => negb (PyStr.truthy s) || negb (PyStr.truthy (PyStr.strip s))
  end.

Definition strip_and_validate (v : option pystr) : result field_msg pystr :=
  match v with
  | Some s => if blank v then Err FieldEmpty else Ok (PyStr.strip s)
  | None => Err FieldEmpty
  end.

Definition strip_notes (v : option pystr) : option pystr :=
  match v with
  | None => None
  | Some s => if negb (PyStr.truthy (PyStr.strip s)) then None
              else Some (PyStr.strip s)
  end.

Definition default_cost_center (v : option pystr) : pystr :=
  match v with
  | Some s => if blank v then Uncategorized else PyStr.strip s
  | None => Uncategorized
  end.

(** [any(name.strip() for name in v)] *)
Definition any_nonblank (v : list pystr) : bool :=
  existsb (λ name, PyStr.truthy (PyStr.strip name)) v.

(** [list(dict.fromkeys(cleaned))] *)
Definition dict_fromkeys (keys : list pystr) : pydict pystr unit :=
  dict_of_items ((λ k, (k, tt)) <$> keys).

Definition default_spend_categories (v : option (list pystr)) : list pystr :=
  match v with
  | None => [Uncategorized]
  | Some l =>
      if negb (bool_decide (l ≠ [])) || negb (any_nonblank l)
      then [Uncategorized]
      else
        let cleaned :=
          PyStr.strip <$> filter (λ name, PyStr.truthy (PyStr.strip name)) l in
        dict_keys (dict_fromkeys cleaned)
  end.

(** [Field(min_length=.., max_length=..)] on a [str]. *)
Definition check_length (min_length max_length : nat) (s : pystr)
  : result field_msg pystr :=
  if length s <? min_length then Err (StringTooShort min_length)
  else if max_length <? length s then Err (StringTooLong max_length)
  else Ok s.

Definition field_errors {A} (f : field) (r : result field_msg A)
  : list (field * field_msg) :=
  match r with
  | Ok _ => []
  | Err m => [(f, m)]
  end.

(** [schemas.TransactionCreate] built from [txn_data]: every field is
    validated, and the errors of all fields are reported together, in field
    order. *)
Definition TransactionCreate (d : TxnData)
  : result (list (field * field_msg)) TransactionCreateModel :=
  let description :=
    s ← strip_and_validate (Some (txn_description d)); check_length 1 200 s in
  let account :=
    s ← strip_and_validate (Some (txn_account d)); check_length 1 50 s in
  let notes : result field_msg (option pystr) :=
    match strip_notes (txn_notes d) with
    | None => Ok None
    | Some s => s' ← check_length 0 200 s; Ok (Some s')
    end in
  match description, account, notes with
  | Ok de, Ok ac, Ok no =>
      Ok {| tc_date := txn_date d;
            tc_description := de;
            tc_amount := txn_amount d;
            tc_account := ac;
            tc_notes := no;
            tc_cost_center_name := default_cost_center (txn_cost_center_name d);
            tc_spend_category_names :=
              default_spend_categories (Some (txn_spend_category_names d)) |}
  | _, _, _ =>
      Err (field_errors f_description description ++
           field_errors f_account account ++
           field_errors f_notes notes)
  end.

(** ** parsers.py *)

(** Exceptions raised while one row is processed; all of them are caught by
    the row's [except Exception]. *)
Inductive row_exn :=
| DateEmpty
| StrptimeError (date_string format : pystr)
| DescriptionEmpty
| AmountEmpty
| AccountEmpty
| BothEmpty                          (* Both Withdrawal and Deposit are empty *)
| EmptyCurrency (row : option nat) (value : pystr)
| InvalidCurrency (row : option nat) (value : pystr)
| RowValidationFailed (row_num : nat) (errors : list (field * field_msg))
| KeyError (key : pystr)
| AttributeError.                    (* None has no attribute strip *)

(** One entry of [errors]: the text [Row {row_num}: {str(e)}]. *)
Record row_error := { err_row : nat; err_exn : row_exn }.

(** Exceptions that leave a parser. *)
Inductive parse_exn :=
| EmptyFile                          (* CSV file appears to be empty *)
| HeaderMismatch (source_name : pystr) (missing found : list pystr)
| HeaderKeyError (key : pystr)
| CsvValidationFailed (count : nat) (shown : list row_error)
| UnknownInstitution (institution : pystr).

Definition BOM : char := 65279%N.      (* U+FEFF *)
Definition BOM_swapped : char := 65534%N.  (* U+FFFE *)

Definition clean_header (header : pystr) : pystr :=
  if negb (PyStr.truthy header) then []
  else
    let cleaned := PyStr.remove_char BOM_swapped (PyStr.remove_char BOM header) in
    PyStr.strip (PyStr.join_empty (PyStr.split_ws cleaned)).

(** [{clean_header(h): h for h in hs}] *)
Definition by_clean_header (hs : list pystr) : pydict pystr pystr :=
  dict_of_items ((λ h, (clean_header h, h)) <$> hs).

Definition validate_headers (expected_headers actual_headers : list pystr)
    (source_name : pystr) : result parse_exn unit :=
  let normalized_actual := by_clean_header (filter (λ h, PyStr.truthy h) actual_headers) in
  let normalized_expected := by_clean_header expected_headers in
  let missing :=
    (filter (λ item, negb (dict_in item.1 normalized_actual)) normalized_expected).*2 in
  match missing with
  | [] => Ok ()
  | _ => Err (HeaderMismatch source_name missing actual_headers)
  end.

(** The character class of [re.sub(r'[$,\s]', '', ...)]. *)
Definition currency_noise (c : char) : bool :=
  (c =? 36)%N || (c =? 44)%N || PyStr.isspace c.

(** [if row_num:] then the message starts with [Row {row_num}: ]. *)
Definition row_prefix (row_num : option nat) : option nat :=
  match row_num with
  | Some (S n) => Some (S n)
  | _ => None
  end.

(** The file as [csv.reader] yields it: one list of cells per record (the
    [utf-8-sig] decoder has already dropped a byte-order mark at the start
    of the file). *)
Abbreviation csv_file := (list (list pystr)).
Abbreviation csv_row := (pydict pystr (option pystr)).

(** [csv.DictReader]: the first record is [fieldnames]; empty records are
    skipped; a short record is padded with [None]. The surplus cells of a
    long record are stored under the key [None], which no lookup of the
    source can reach, and are left out. *)
Definition reader_fieldnames (file : csv_file) : option (list pystr) :=
  head file.

Definition dict_reader_row (fieldnames row : list pystr) : csv_row :=
  let d := dict_of_items (zip fieldnames (Some <$> row)) in
  foldl (λ d key, dict_set d key None) d (drop (length row) fieldnames).

Definition reader_rows (file : csv_file) : list csv_row :=
  match file with
  | [] => []
  | fieldnames :: records =>
      dict_reader_row fieldnames <$> filter (λ r, r ≠ []) records
  end.

Definition _parse_headers (fieldnames : option (list pystr))
    (expected_headers_map : pydict pystr pystr) (institution_name : pystr)
  : result parse_exn (pydict pystr pystr) :=
  match fieldnames with
  | None | Some [] => Err EmptyFile
  | Some fieldnames =>
      let original_headers := PyStr.strip <$> fieldnames in
      let header_mapping := by_clean_header original_headers in
      _ ← validate_headers (dict_values expected_headers_map) original_headers
            institution_name;
      items ← mapM (λ item : pystr * pystr,
                 match dict_get header_mapping (clean_header item.2) with
                 | Some h => Ok (item.1, h)
                 | None => Err (HeaderKeyError (clean_header item.2))
                 end) expected_headers_map;
      Ok (dict_of_items items)
  end.

Definition _validate_transaction_data (txn_data : TxnData) (row_num : nat)
  : result row_exn unit :=
  match TransactionCreate txn_data with
  | Ok _ => Ok ()
  | Err errors => Err (RowValidationFailed row_num errors)
  end.

(** [d[key]] *)
Definition getitem {V} (d : pydict pystr V) (key : pystr) : result row_exn V :=
  match dict_get d key with
  | Some v => Ok v
  | None => Err (KeyError key)
  end.

(** [v.strip()] on a cell, which is [None] in a short record. *)
Definition cell_strip (v : option pystr) : result row_exn pystr :=
  match v with
  | Some s => Ok (PyStr.strip s)
  | None => Err AttributeError
  end.

(** [row[headers[name]].strip()] *)
Definition cell (headers : pydict pystr pystr) (row : csv_row) (name : string)
  : result row_exn pystr :=
  key ← getitem headers (lit name);
  v ← getitem row key;
  cell_strip v.

(** [row.get(headers[name], "").strip()] *)
Definition cell_get (headers : pydict pystr pystr) (row : csv_row) (name : string)
  : result row_exn pystr :=
  key ← getitem headers (lit name);
  cell_strip (default (Some []) (dict_get row key)).

(** The loop [for row_num, row in enumerate(reader, start=2)] with its
    [try]/[except], for a row body [body]. *)
Fixpoint row_loop (body : nat → csv_row → result row_exn TxnData)
    (row_num : nat) (rows : list csv_row)
    (transactions : list TxnData) (errors : list row_error)
  : list TxnData * list row_error :=
  match rows with
  | [] => (transactions, errors)
  | row :: rest =>
      match body row_num row with
      | Ok txn_data =>
          row_loop body (S row_num) rest (transactions ++ [txn_data]) errors
      | Err e =>
          row_loop body (S row_num) rest transactions
            (errors ++ [{| err_row := row_num; err_exn := e |}])
      end
  end.

(** The end of every parser: [if errors: raise ValueError(...)]. *)
Definition finish (acc : list TxnData * list row_error)
  : result parse_exn (list TxnData) :=
  match acc.2 with
  | [] => Ok acc.1
  | errors => Err (CsvValidationFailed (length errors) (take 20 errors))
  end.

Definition load (expected_headers_map : pydict pystr pystr)
    (institution_name : pystr)
    (body : pydict pystr pystr → nat → csv_row → result row_exn TxnData)
    (file : csv_file) : result parse_exn (list TxnData) :=
  headers ← _parse_headers (reader_fieldnames file) expected_headers_map
              institution_name;
  finish (row_loop (body headers) 2 (reader_rows file) [] []).

Definition raise_if {E} (b : bool) (e : E) : result E unit :=
  if b then Err e else Ok ().

Section parsers.
(** [float(s)], [None] when it raises [ValueError]. *)
Variable py_float : pystr → option Q.
(** [datetime.strptime(s, format).date()], [None] when it raises. *)
Variable strptime : pystr → pystr → option date.

Definition strptime_date (date_str format : pystr) : result row_exn date :=
  match strptime date_str format with
  | Some d => Ok d
  | None => Err (StrptimeError date_str format)
  end.

Definition clean_currency_string (value : pystr) (row_num : option nat)
  : result row_exn Q :=
  if negb (PyStr.truthy value) || bool_decide (PyStr.strip value = [])
  then Err (EmptyCurrency (row_prefix row_num) value)
  else
    let cleaned := filter (λ c, negb (currency_noise c)) (PyStr.strip value) in
    if negb (PyStr.truthy cleaned)
    then Err (EmptyCurrency (row_prefix row_num) value)
    else match py_float cleaned with
         | Some x => Ok x
         | None => Err (InvalidCurrency (row_prefix row_num) value)
         end.

Definition discover_headers : pydict pystr pystr :=
  dict_of_items [(lit "date", lit "Trans. Date");
                 (lit "description", lit "Description");
                 (lit "amount", lit "Amount");
                 (lit "category", lit "Category")].

Definition discover_row (headers : pydict pystr pystr) (row_num : nat)
    (row : csv_row) : result row_exn TxnData :=
  date_str ← cell headers row "date";
  _ ← raise_if (negb (PyStr.truthy date_str)) DateEmpty;
  date_obj ← strptime_date date_str (lit "%m/%d/%Y");
  description ← cell headers row "description";
  _ ← raise_if (negb (PyStr.truthy description)) DescriptionEmpty;
  raw_amount_str ← cell headers row "amount";
  _ ← raise_if (negb (PyStr.truthy raw_amount_str)) AmountEmpty;
  raw_amount ← clean_currency_string raw_amount_str (Some row_num);
  category ← cell headers row "category";
  let cost_center := if PyStr.truthy category then category else Uncategorized in
  let amount := (- raw_amount)%Q in
  let txn_data :=
    {| txn_date := date_obj;
       txn_description := description;
       txn_cost_center_name := Some cost_center;
       txn_spend_category_names := [];
       txn_amount := amount;
       txn_account := lit "Discover";
       txn_notes := None |} in
  _ ← _validate_transaction_data txn_data row_num;
  Ok txn_data.

Definition load_discover_csv : csv_file → result parse_exn (list TxnData) :=
  load discover_headers (lit "Discover") discover_row.

Definition schwab_headers : pydict pystr pystr :=
  dict_of_items [(lit "date", lit "Date");
                 (lit "description", lit "Description");
                 (lit "withdrawal", lit "Withdrawal");
                 (lit "deposit", lit "Deposit")].

Definition schwab_row (headers : pydict pystr pystr) (row_num : nat)
    (row : csv_row) : result row_exn TxnData :=
  date_str ← cell headers row "date";
  _ ← raise_if (negb (PyStr.truthy date_str)) DateEmpty;
  date_obj ← strptime_date date_str (lit "%m/%d/%Y");
  description ← cell headers row "description";
  _ ← raise_if (negb (PyStr.truthy description)) DescriptionEmpty;
  withdrawal_str ← cell_get headers row "withdrawal";
  deposit_str ← cell_get headers row "deposit";
  amount ←
    (if PyStr.truthy withdrawal_str && bool_decide (withdrawal_str ≠ [])
     then x ← clean_currency_string withdrawal_str (Some row_num); Ok (- x)%Q
     else if PyStr.truthy deposit_str && bool_decide (deposit_str ≠ [])
     then clean_currency_string deposit_str (Some row_num)
     else Err BothEmpty);
  let txn_data :=
    {| txn_date := date_obj;
       txn_description := description;
       txn_amount := amount;
       txn_account := lit "Schwab Checking";
       txn_cost_center_name := None;
       txn_spend_category_names := [];
       txn_notes := None |} in
  _ ← _validate_transaction_data txn_data row_num;
  Ok txn_data.

Definition load_schwab_csv : csv_file → result parse_exn (list TxnData) :=
  load schwab_headers (lit "Schwab Checking") schwab_row.

Definition cashcanvas_headers : pydict pystr pystr :=
  dict_of_items [(lit "date", lit "Date");
                 (lit "description", lit "Description");
                 (lit "amount", lit "Amount");
                 (lit "account", lit "Account");
                 (lit "cost_center", lit "Cost Center");
                 (lit "spend_categories", lit "Spend Categories");
                 (lit "notes", lit "Notes")].

(** The block under [# Parse spend categories]. *)
Definition parse_spend_categories (spend_categories_str : pystr) : list pystr :=
  if PyStr.truthy spend_categories_str
     && bool_decide (PyStr.lower spend_categories_str ≠ lit "uncategorized")
  then
    let raw_categories := PyStr.split_char 44%N spend_categories_str in
    foldl (λ spend_categories cat,
             let cleaned_cat := PyStr.strip cat in
             if PyStr.truthy cleaned_cat
             then spend_categories ++ [cleaned_cat]
             else spend_categories)
          [] raw_categories
  else [].

Definition cashcanvas_row (headers : pydict pystr pystr) (row_num : nat)
    (row : csv_row) : result row_exn TxnData :=
  date_str ← cell headers row "date";
  _ ← raise_if (negb (PyStr.truthy date_str)) DateEmpty;
  date_obj ←
    match strptime date_str (lit "%Y-%m-%d") with
    | Some d => Ok d
    | None => strptime_date date_str (lit "%m/%d/%Y")
    end;
  description ← cell headers row "description";
  _ ← raise_if (negb (PyStr.truthy description)) DescriptionEmpty;
  amount_str ← cell headers row "amount";
  _ ← raise_if (negb (PyStr.truthy amount_str)) AmountEmpty;
  amount ← clean_currency_string amount_str (Some row_num);
  account ← cell headers row "account";
  _ ← raise_if (negb (PyStr.truthy account)) AccountEmpty;
  cc ← cell headers row "cost_center";
  let cost_center := if PyStr.truthy cc then Some cc else None in
  let cost_center :=
    match cost_center with
    | Some c =>
        if PyStr.truthy c && bool_decide (PyStr.lower c = lit "uncategorized")
        then None else Some c
    | None => None
    end in
  spend_categories_str ← cell headers row "spend_categories";
  let spend_categories := parse_spend_categories spend_categories_str in
  notes_key ← getitem headers (lit "notes");
  notes ←
    (if dict_in notes_key row
     then notes_str ← cell headers row "notes";
          Ok (if PyStr.truthy notes_str then Some notes_str else None)
     else Ok None);
  let txn_data :=
    {| txn_date := date_obj;
       txn_description := description;
       txn_amount := amount;
       txn_account := account;
       txn_cost_center_name := cost_center;
       txn_spend_category_names := spend_categories;
       txn_notes := notes |} in
  _ ← _validate_transaction_data txn_data row_num;
  Ok txn_data.

Definition load_cashcanvas_csv : csv_file → result parse_exn (list TxnData) :=
  load cashcanvas_headers (lit "CashCanvas Export") cashcanvas_row.

Definition parse_csv (file : csv_file) (institution : pystr)
  : result parse_exn (list TxnData) :=
  let institution := PyStr.strip (PyStr.lower institution) in
  if decide (institution = lit "discover") then load_discover_csv file
  else if bool_decide (institution ∈ [lit "schwab"; lit "schwab checking"])
  then load_schwab_csv file
  else if decide (institution = lit "cashcanvas") then load_cashcanvas_csv file
  else Err (UnknownInstitution institution).
End parsers.

(** ** An instance of the library functions, for running the parsers

    A decimal reader for [float] (sign, digits, optional fraction) and a
    reader of [%m/%d/%Y] and [%Y-%m-%d] dates with numeric month, day
    and year. They cover the literals used in the examples below;
    the theorems hold for every [py_float] and [strptime]. *)

Definition digit_val (c : char) : option Z :=
  if ((48 <=? c) && (c <=? 57))%N then Some (Z.of_N c - 48)%Z else None.

Fixpoint digits_val (acc : Z) (s : pystr) : option Z :=
  match s with
  | [] => Some acc
  | c :: s' => d ← digit_val c; digits_val (10 * acc + d)%Z s'
  end.

Definition decimal_unsigned (s : pystr) : option Q :=
  match PyStr.split_char 46%N s with
  | [int_part] =>
      match int_part with
      | [] => None
      | _ => n ← digits_val 0 int_part; Some (inject_Z n)
      end
  | [int_part; frac_part] =>
      match int_part ++ frac_part with
      | [] => None
      | ds => n ← digits_val 0 ds;
              Some (n # Z.to_pos (10 ^ Z.of_nat (length frac_part)))%Q
      end
  | _ => None
  end.

Definition decimal_float (s : pystr) : option Q :=
  match s with
  | 45%N :: s' => Qopp <$> decimal_unsigned s'
  | 43%N :: s' => decimal_unsigned s'
  | _ => decimal_unsigned s
  end.

Definition number (s : pystr) : option nat :=
  match s with
  | [] => None
  | _ => Z.to_nat <$> digits_val 0 s
  end.

Definition simple_strptime (date_str format : pystr) : option date :=
  if decide (format = lit "%m/%d/%Y") then
    match PyStr.split_char 47%N date_str with
    | [m; d; y] => m ← number m; d ← number d; y ← number y;
                   if bool_decide (1 ≤ m ≤ 12 ∧ 1 ≤ d ≤ 31 ∧ 1 ≤ y)
                   then Some (Date y m d) else None
    | _ => None
    end
  else if decide (format = lit "%Y-%m-%d") then
    match PyStr.split_char 45%N date_str with
    | [y; m; d] => m ← number m; d ← number d; y ← number y;
                   if bool_decide (1 ≤ m ≤ 12 ∧ 1 ≤ d ≤ 31 ∧ 1 ≤ y)
                   then Some (Date y m d) else None
    | _ => None
    end
  else None.

(** ** crud/operations.py: [compute_analytics] *)

Record CostCenter := { cc_id : Z; cc_name : pystr }.
Record SpendCategory := { sc_id : Z; sc_name : pystr }.

(** A [Transaction] row with its relationships loaded. *)
Record Transaction := {
  t_id : Z;
  t_date : date;
  t_description : pystr;
  t_amount : Q;
  t_cost_center : CostCenter;
  t_spend_categories : list SpendCategory;
}.

Definition cost_center_id (t : Transaction) : Z := cc_id (t_cost_center t).

(** A bucket of [monthly_data]. *)
Record MonthData := {
  md_total : Q;
  md_expenses : Q;
  md_income : Q;
  md_count : nat;
  md_by_cost_center : gmap pystr Q;
}.

(** A bucket of [cost_center_data] and of [spend_category_data]. *)
Record GroupData := {
  gd_id : option Z;
  gd_name : option pystr;
  gd_total : Q;
  gd_expenses : Q;
  gd_income : Q;
  gd_count : nat;
}.

Record MonthlySpending := {
  ms_month : pystr;
  ms_total : Q;
  ms_expense_total : Q;
  ms_income_total : Q;
  ms_transaction_count : nat;
  ms_by_cost_center : gmap pystr Q;
}.

(** An entry of [cost_center_spending] (keys [cost_center_id],
    [cost_center_name], ...) or of [spend_category_stats] (keys
    [spend_category_id], [spend_category_name], ...). *)
Record GroupSpending := {
  group_id : option Z;
  group_name : option pystr;
  total : Q;
  expense_total : Q;
  income_total : Q;
  transaction_count : nat;
}.

Record BalanceTimelinePoint := {
  bp_date : date;
  bp_balance : Q;
  bp_description : pystr;
  bp_amount : Q;
  bp_cost_center_name : pystr;
}.

Record AnalyticsResult := {
  total_spent : Q;
  total_income : Q;
  total_cash : Q;
  total_transactions : nat;
  total_cost_centers : nat;
  total_spend_categories : nat;
  avg_expense : Q;
  avg_income : Q;
  monthly_spending : list MonthlySpending;
  cost_center_spending : list GroupSpending;
  spend_category_stats : list GroupSpending;
  balance_timeline : list BalanceTimelinePoint;
}.

(** [a < b] on amounts. *)
Definition Qltb (a b : Q) : bool := negb (Qle_bool b a).

(** [sum(xs)] *)
Definition py_sum (xs : list Q) : Q := foldl Qplus 0%Q xs.

(** [sorted(l, key=...)], where [lt a b] is [key(a) < key(b)]: the stable
    sort, written as insertion from the right. *)
Fixpoint insert_sorted {A} (lt : A → A → bool) (x : A) (l : list A) : list A :=
  match l with
  | [] => [x]
  | y :: l' => if lt y x then y :: insert_sorted lt x l' else x :: l
  end.

Definition py_sorted {A} (lt : A → A → bool) (l : list A) : list A :=
  foldr (insert_sorted lt) [] l.

(** [d1 < d2] on [datetime.date]. *)
Definition date_ltb (d1 d2 : date) : bool :=
  (year d1 <? year d2) ||
  ((year d1 =? year d2) &&
   ((month d1 <? month d2) || ((month d1 =? month d2) && (day d1 <? day d2)))).

(** [(t1.date, t1.id) < (t2.date, t2.id)] *)
Definition timeline_key_ltb (t1 t2 : Transaction) : bool :=
  if decide (t_date t1 = t_date t2) then (t_id t1 <? t_id t2)%Z
  else date_ltb (t_date t1) (t_date t2).

Definition month_default : MonthData :=
  {| md_total := 0; md_expenses := 0; md_income := 0; md_count := 0;
     md_by_cost_center := ∅ |}.

Definition group_default : GroupData :=
  {| gd_id := None; gd_name := None; gd_total := 0; gd_expenses := 0;
     gd_income := 0; gd_count := 0 |}.

(** What one transaction of amount [amount] does to the bucket of the entity
    [key], [name]: the body of the cost-center loop and of the inner
    spend-category loop. *)
Definition bucket_add (key : Z) (name : pystr) (amount : Q) (d : GroupData)
  : GroupData :=
  let d := match gd_id d with
           | None => {| gd_id := Some key; gd_name := Some name;
                        gd_total := gd_total d; gd_expenses := gd_expenses d;
                        gd_income := gd_income d; gd_count := gd_count d |}
           | Some _ => d
           end in
  let expense := Qltb amount 0 in
  {| gd_id := gd_id d; gd_name := gd_name d;
     gd_total := gd_total d + amount;
     gd_expenses := if expense then gd_expenses d + amount else gd_expenses d;
     gd_income := if expense then gd_income d else gd_income d + amount;
     gd_count := S (gd_count d) |}.

(** The same on the [defaultdict]: the bucket is created on first access. *)
Definition group_add (data : pydict Z GroupData) (key : Z) (name : pystr)
    (amount : Q) : pydict Z GroupData :=
  dict_set data key
    (bucket_add key name amount (default group_default (dict_get data key))).

Definition group_entry (data : GroupData) : GroupSpending :=
  {| group_id := gd_id data; group_name := gd_name data;
     total := gd_total data; expense_total := gd_expenses data;
     income_total := gd_income data; transaction_count := gd_count data |}.

(** [sorted(data.values(), key=lambda x: x["expenses"])] turned into entries. *)
Definition group_spending (data : pydict Z GroupData) : list GroupSpending :=
  group_entry <$>
    py_sorted (λ x y, Qltb (gd_expenses x) (gd_expenses y)) (dict_values data).

Definition timeline_point (t : Transaction) (balance : Q) : BalanceTimelinePoint :=
  {| bp_date := t_date t; bp_balance := balance;
     bp_description := t_description t; bp_amount := t_amount t;
     bp_cost_center_name := cc_name (t_cost_center t) |}.

(** The loop [for t in sorted_txns], from [balance] and [balance_timeline]. *)
Fixpoint timeline_loop (sorted_txns : list Transaction) (balance : Q)
    (balance_timeline : list BalanceTimelinePoint)
  : Q * list BalanceTimelinePoint :=
  match sorted_txns with
  | [] => (balance, balance_timeline)
  | t :: rest =>
      let balance := (balance + t_amount t)%Q in
      timeline_loop rest balance (balance_timeline ++ [timeline_point t balance])
  end.

(** [by_cost_center[name] += amount] on a [defaultdict(float)]. *)
Definition by_cost_center_add (name : pystr) (amount : Q) (m : gmap pystr Q)
  : gmap pystr Q :=
  <[name := (default 0 (m !! name) + amount)%Q]> m.

(** What one transaction does to its month's bucket. *)
Definition month_bucket_add (name : pystr) (amount : Q) (d : MonthData)
  : MonthData :=
  let expense := Qltb amount 0 in
  {| md_total := md_total d + amount;
     md_count := S (md_count d);
     md_expenses := if expense then md_expenses d + amount else md_expenses d;
     md_by_cost_center :=
       if expense then by_cost_center_add name amount (md_by_cost_center d)
       else md_by_cost_center d;
     md_income := if expense then md_income d else md_income d + amount |}.

Section analytics.
(** [d.strftime("%Y-%m")] *)
Variable strftime_Ym : date → pystr.

Definition month_add (monthly_data : gmap pystr MonthData) (t : Transaction)
  : gmap pystr MonthData :=
let month_key := strftime_Ym (t_date t) in
<[month_key :=
   month_bucket_add (cc_name (t_cost_center t)) (t_amount t)
     (default month_default (monthly_data !! month_key))]> monthly_data.

Definition month_entry (item : pystr * MonthData) : MonthlySpending :=
  {| ms_month := item.1;
     ms_total := md_total item.2;
     ms_expense_total := md_expenses item.2;
     ms_income_total := md_income item.2;
     ms_transaction_count := md_count item.2;
     ms_by_cost_center := md_by_cost_center item.2 |}.

(** Everything after the [if not transactions] shortcut. *)
Definition compute_analytics_body (transactions : list Transaction)
  : AnalyticsResult :=
  let expenses := filter (λ a, Qltb a 0) (t_amount <$> transactions) in
  let incomes := filter (λ a, Qltb 0 a) (t_amount <$> transactions) in
  let total_spent := (py_sum expenses * (-1))%Q in
  let total_income := py_sum incomes in
  let monthly_data := foldl month_add ∅ transactions in
  let cost_center_data :=
    foldl (λ data t,
             group_add data (cost_center_id t) (cc_name (t_cost_center t))
               (t_amount t))
          [] transactions in
  let spend_category_data :=
    foldl (λ data t,
             foldl (λ data cat,
                      group_add data (sc_id cat) (sc_name cat) (t_amount t))
                   data (t_spend_categories t))
          [] transactions in
  let unique_cost_centers : gset Z :=
    list_to_set (cost_center_id <$> transactions) in
  let unique_spend_categories : gset Z :=
    list_to_set (t ← transactions; sc_id <$> t_spend_categories t) in
  let sorted_txns := py_sorted timeline_key_ltb transactions in
  let balance_timeline := (timeline_loop sorted_txns 0 []).2 in
  let final_balance :=
    match last balance_timeline with
    | Some p => bp_balance p
    | None => 0%Q
    end in
  {| total_spent := total_spent;
     total_income := total_income;
     total_cash := final_balance;
     total_transactions := length transactions;
     total_cost_centers := size unique_cost_centers;
     total_spend_categories := size unique_spend_categories;
     avg_expense :=
       match expenses with
       | [] => 0
       | _ => py_sum expenses / inject_Z (Z.of_nat (length expenses))
       end;
     avg_income :=
       match incomes with
       | [] => 0
       | _ => py_sum incomes / inject_Z (Z.of_nat (length incomes))
       end;
     monthly_spending :=
       month_entry <$>
         py_sorted (λ x y, PyStr.ltb x.1 y.1) (map_to_list monthly_data);
     cost_center_spending := group_spending cost_center_data;
     spend_category_stats := group_spending spend_category_data;
     balance_timeline := balance_timeline |}.

Definition compute_analytics (transactions : list Transaction) : AnalyticsResult :=
match transactions with
| [] =>
    {| total_spent := 0; total_income := 0; total_cash := 0;
       total_transactions := 0; total_cost_centers := 0;
       total_spend_categories := 0; avg_expense := 0; avg_income := 0;
       monthly_spending := []; cost_center_spending := [];
       spend_category_stats := []; balance_timeline := [] |}
| _ => compute_analytics_body transactions
end.
End analytics.

(** [strftime("%Y-%m")] with a four-digit year, for running the examples. *)
Definition two_digits (n : nat) : pystr :=
  [N.of_nat (48 + n / 10 mod 10); N.of_nat (48 + n mod 10)].

Definition simple_strftime_Ym (d : date) : pystr :=
  two_digits (year d / 100) ++ two_digits (year d) ++ [45%N] ++ two_digits (month d).

(** ** Reference definitions used in the statements *)

(** The expected display names that no found header matches: a display name
    matches a found header when both are equal after [clean_header]. *)
Definition missing_headers (expected found : list pystr) : list pystr :=
  filter (λ d, clean_header d ∉ clean_header <$> found) expected.

(** What each data row yields, with its row number: the loop of a parser
    started at row number [row_num]. *)
Fixpoint row_outcomes (body : nat → csv_row → result row_exn TxnData)
    (row_num : nat) (rows : list csv_row)
  : list (nat * result row_exn TxnData) :=
  match rows with
  | [] => []
  | row :: rest => (row_num, body row_num row) :: row_outcomes body (S row_num) rest
  end.

Definition accepted (outcomes : list (nat * result row_exn TxnData))
  : list TxnData :=
  omap (λ o, match o.2 with Ok t => Some t | Err _ => None end) outcomes.

Definition rejected (outcomes : list (nat * result row_exn TxnData))
  : list row_error :=
  omap (λ o, match o.2 with
             | Ok _ => None
             | Err e => Some {| err_row := o.1; err_exn := e |}
             end) outcomes.

(** Deduplication that keeps the first occurrence of every name, in order. *)
Definition first_seen (l : list pystr) : list pystr :=
  foldl (λ seen x, if decide (x ∈ seen) then seen else seen ++ [x]) [] l.

(** Each entry trimmed, blank entries dropped. *)
Definition trimmed_nonblank (l : list pystr) : list pystr :=
  filter (λ name, name ≠ []) (PyStr.strip <$> l).

(** What the cost-center loop and the spend-category loops feed to the
    buckets: one item (entity id, entity name, amount) per transaction, and
    one per pair of a transaction and one of its spend categories. *)
Definition cost_center_items (transactions : list Transaction)
  : list (Z * pystr * Q) :=
  (λ t, (cost_center_id t, cc_name (t_cost_center t), t_amount t)) <$> transactions.



(** The amounts of the items of entity [k], in input order. *)
Definition amounts_of (k : Z) (items : list (Z * pystr * Q)) : list Q :=
  snd <$> filter (λ x, x.1.1 = k) items.




(** The name of an entity is determined by its id, as it is for rows of one
    table. *)
Definition names_by_id (items : list (Z * pystr * Q)) : Prop :=
  ∀ x y, x ∈ items → y ∈ items → x.1.1 = y.1.1 → x.1.2 = y.1.2.



(** A returned dictionary that [TransactionCreate] accepts and leaves as
    it is: the model holds the same date, description, amount, account and
    notes. *)
Definition validated_as_is (t : TxnData) : Prop :=
  ∃ m, TransactionCreate t = Ok m ∧
       tc_date m = txn_date t ∧
       tc_description m = txn_description t ∧
       tc_amount m = txn_amount t ∧
       tc_account m = txn_account t ∧
       tc_notes m = txn_notes t.

(** What a timeline point shows of its transaction, and the same read off a
    transaction. *)
Definition point_fields (p : BalanceTimelinePoint) : date * pystr * Q * pystr :=
  (bp_date p, bp_description p, bp_amount p, bp_cost_center_name p).

Definition shown_fields (t : Transaction) : date * pystr * Q * pystr :=
  (t_date t, t_description t, t_amount t, cc_name (t_cost_center t)).


(** ** schemas.py: the validators of [TransactionUpdate] *)





(** A name as the validators leave it: not empty and trimmed. *)
Definition canonical_name (s : pystr) : Prop := s ≠ [] ∧ PyStr.strip s = s.

(** ** crud/operations.py: get-or-create of spend categories

    The table [spend_categories] is the list of its rows, oldest first.
    [query(SpendCategory).filter(SpendCategory.name == name).first()] is the
    first row with that name; [db.add], [db.commit] and [db.refresh] append
    the new row with the id that the database assigns. *)

Section store.
(** The id that the database assigns to a new row of the table. *)
Variable next_id : list SpendCategory → Z.

Definition _get_or_create_spend_category (db : list SpendCategory)
    (name : option pystr) : list SpendCategory * SpendCategory :=
  let name := match name with
              | Some s => if blank name then Uncategorized else s
              | None => Uncategorized
              end in
  match List.find (λ c, bool_decide (sc_name c = name)) db with
  | Some spend_category => (db, spend_category)
  | None =>
      let spend_category := {| sc_id := next_id db; sc_name := name |} in
      (db ++ [spend_category], spend_category)
  end.

(** The loop of [_resolve_spend_categories], on the table, [categories] and
    [seen]. *)
Definition resolve_step
    (st : list SpendCategory * list SpendCategory * gset pystr) (name : pystr)
  : list SpendCategory * list SpendCategory * gset pystr :=
  let name := PyStr.strip name in
  if negb (PyStr.truthy name) || bool_decide (name ∈ st.2) then st
  else
    let r := _get_or_create_spend_category st.1.1 (Some name) in
    (r.1, st.1.2 ++ [r.2], {[name]} ∪ st.2).

Definition _resolve_spend_categories (db : list SpendCategory)
    (names : option (list pystr)) : list SpendCategory * list SpendCategory :=
  let names := match names with
               | None | Some [] => [Uncategorized]
               | Some names => names
               end in
  let st := foldl resolve_step (db, [], ∅) names in
  match st.1.2 with
  | [] =>
      let r := _get_or_create_spend_category st.1.1 (Some Uncategorized) in
      (r.1, [r.2])
  | categories => (st.1.1, categories)
  end.
End store.

(** Getting or creating one category after the other for a list of names. *)
Definition get_or_create_all (next_id : list SpendCategory → Z)
    (st : list SpendCategory * list SpendCategory) (names : list pystr)
  : list SpendCategory * list SpendCategory :=
  foldl (λ st n, let r := _get_or_create_spend_category next_id st.1 (Some n) in
                 (r.1, st.2 ++ [r.2])) st names.

(** [c] is the row that a query for its name returns. *)
Definition found (db : list SpendCategory) (c : SpendCategory) : Prop :=
  List.find (λ c', bool_decide (sc_name c' = sc_name c)) db = Some c.

(** ** api/transactions.py: the pages of [filter_transactions]

    [rows] is what the filtered query yields, in the order in which the
    database yields it: [query.count()] is its length and
    [query.offset(n).limit(m).all()] is [take m (drop n rows)]. [compact]
    is the conversion of a row to [TransactionCompact]. [Query] admits
    [page >= 1] and [1 <= page_size <= 10000]. The lists of all cost centers
    and spend categories, which the response also carries, are left out. *)

Record PaginatedTransactionResponse (B : Type) := {
  pr_transactions : list B;
  pr_page : nat;
  pr_page_size : nat;
  pr_total : nat;
  pr_total_pages : nat;
}.
Arguments pr_transactions {B} _.
Arguments pr_page {B} _.
Arguments pr_page_size {B} _.
Arguments pr_total {B} _.
Arguments pr_total_pages {B} _.

Definition filter_transactions {A B} (compact : A → B) (rows : list A)
    (page page_size : nat) : PaginatedTransactionResponse B :=
  let total := length rows in
  let total_pages := (total + page_size - 1) / page_size in
  let transactions := take page_size (drop ((page - 1) * page_size) rows) in
  let compact_transactions := compact <$> transactions in
  {| pr_transactions := compact_transactions;
     pr_page := page;
     pr_page_size := page_size;
     pr_total := total;
     pr_total_pages := total_pages |}.

(** The error that validation reports for a text that is longer than
    [max_length]. *)
Definition length_errors (f : field) (max_length : nat) (s : pystr)
  : list (field * field_msg) :=
  if max_length <? length s then [(f, StringTooLong max_length)] else [].

(** The errors that validation can report for a row of a parser. *)
Definition overlong_fields (t : TxnData) : list (field * field_msg) :=
  length_errors f_description 200 (txn_description t) ++
  length_errors f_account 50 (txn_account t) ++
  from_option (length_errors f_notes 200) [] (txn_notes t).

(** ** crud/operations.py: [get_transactions] and [build_filter_query]

    The table [transactions] is the list of its rows; a row is a
    [Transaction] with the columns that [compute_analytics] does not read.
    A query is the list of rows that it yields: [query.filter(c)] keeps the
    rows on which the condition [c] holds, and [query.all()] is the list. *)

Record TransactionRow := {
  row_transaction :> Transaction;
  row_account : pystr;
  row_notes : option pystr;
}.

(** The filter arguments. An argument of type [Union[int, List[int]]] or
    [Union[str, List[str]]] is a sum. *)
Record Filters := {
  f_search : option pystr;
  f_cost_center_ids : option (Z + list Z);
  f_spend_category_ids : option (Z + list Z);
  f_filter_account : option (pystr + list pystr);
  f_start_date : option date;
  f_end_date : option date;
  f_min_amount : option Q;
  f_max_amount : option Q;
}.

(** Truthiness of [Optional[Union[int, List[int]]]] and of
    [Optional[Union[str, List[str]]]]. *)
Definition truthy_ids (v : option (Z + list Z)) : bool :=
  match v with
  | None => false
  | Some (inl i) => negb (i =? 0)%Z
  | Some (inr l) => bool_decide (l ≠ [])
  end.

Definition truthy_names (v : option (pystr + list pystr)) : bool :=
  match v with
  | None => false
  | Some (inl s) => PyStr.truthy s
  | Some (inr l) => bool_decide (l ≠ [])
  end.

(** [[x] if isinstance(x, int) else x] *)
Definition as_list {A} (v : A + list A) : list A :=
  match v with
  | inl x => [x]
  | inr l => l
  end.

Definition percent : char := 37%N.

Section filters.
(** [column ILIKE pattern] of the database. *)
Variable ilike : pystr → pystr → bool.

Definition get_transactions (session : list TransactionRow) (f : Filters)
  : list TransactionRow :=
  let query := session in
  let query :=
    match f_search f with
    | Some search =>
        if PyStr.truthy search
        then filter (λ t : TransactionRow, ilike (t_description t) ([percent] ++ search ++ [percent]))
               query
        else query
    | None => query
    end in
  let query :=
    match f_cost_center_ids f with
    | Some cost_center_ids =>
        if truthy_ids (f_cost_center_ids f)
        then let ids := as_list cost_center_ids in
             filter (λ t : TransactionRow, cost_center_id t ∈ ids) query
        else query
    | None => query
    end in
  let query :=
    match f_spend_category_ids f with
    | Some spend_category_ids =>
        if truthy_ids (f_spend_category_ids f)
        then let ids := as_list spend_category_ids in
             filter (λ t : TransactionRow, Exists (λ cat, sc_id cat ∈ ids) (t_spend_categories t))
               query
        else query
    | None => query
    end in
  let query :=
    match f_filter_account f with
    | Some account =>
        if truthy_names (f_filter_account f)
        then let accounts := as_list account in
             filter (λ t : TransactionRow, row_account t ∈ accounts) query
        else query
    | None => query
    end in
  let query :=
    match f_start_date f with
    | Some start_date => filter (λ t : TransactionRow, date_ltb (t_date t) start_date = false) query
    | None => query
    end in
  let query :=
    match f_end_date f with
    | Some end_date => filter (λ t : TransactionRow, date_ltb end_date (t_date t) = false) query
    | None => query
    end in
  let query :=
    match f_min_amount f with
    | Some min_amount => filter (λ t : TransactionRow, Qle_bool min_amount (t_amount t)) query
    | None => query
    end in
  let query :=
    match f_max_amount f with
    | Some max_amount => filter (λ t : TransactionRow, Qle_bool (t_amount t) max_amount) query
    | None => query
    end in
  query.

Definition build_filter_query (session : list TransactionRow) (f : Filters)
  : list TransactionRow :=
  let query := session in
  let query :=
    match f_search f with
    | Some search =>
        if PyStr.truthy search
        then filter (λ t : TransactionRow, ilike (t_description t) ([percent] ++ search ++ [percent]))
               query
        else query
    | None => query
    end in
  let query :=
    match f_cost_center_ids f with
    | Some cost_center_ids =>
        if truthy_ids (f_cost_center_ids f)
        then let ids := as_list cost_center_ids in
             filter (λ t : TransactionRow, cost_center_id t ∈ ids) query
        else query
    | None => query
    end in
  let query :=
    match f_spend_category_ids f with
    | Some spend_category_ids =>
        if truthy_ids (f_spend_category_ids f)
        then let ids := as_list spend_category_ids in
             filter (λ t : TransactionRow, Exists (λ cat, sc_id cat ∈ ids) (t_spend_categories t))
               query
        else query
    | None => query
    end in
  let query :=
    match f_filter_account f with
    | Some account =>
        if truthy_names (f_filter_account f)
        then let accounts := as_list account in
             filter (λ t : TransactionRow, row_account t ∈ accounts) query
        else query
    | None => query
    end in
  let query :=
    match f_start_date f with
    | Some start_date => filter (λ t : TransactionRow, date_ltb (t_date t) start_date = false) query
    | None => query
    end in
  let query :=
    match f_end_date f with
    | Some end_date => filter (λ t : TransactionRow, date_ltb end_date (t_date t) = false) query
    | None => query
    end in
  let query :=
    match f_min_amount f with
    | Some min_amount => filter (λ t : TransactionRow, Qle_bool min_amount (t_amount t)) query
    | None => query
    end in
  let query :=
    match f_max_amount f with
    | Some max_amount => filter (λ t : TransactionRow, Qle_bool (t_amount t) max_amount) query
    | None => query
    end in
  query.

(** What a row must satisfy: every criterion that is given and is not empty
    (an empty search text, an empty list, the id 0 and an empty account name
    restrict nothing). *)
Definition meets (f : Filters) (t : TransactionRow) : Prop :=
  (∀ search, f_search f = Some search → search ≠ [] →
             ilike (t_description t) ([percent] ++ search ++ [percent]) = true) ∧
  (∀ ids, f_cost_center_ids f = Some ids → ids ≠ inl 0%Z → ids ≠ inr [] →
          cost_center_id t ∈ as_list ids) ∧
  (∀ ids, f_spend_category_ids f = Some ids → ids ≠ inl 0%Z → ids ≠ inr [] →
          ∃ cat, cat ∈ t_spend_categories t ∧ sc_id cat ∈ as_list ids) ∧
  (∀ names, f_filter_account f = Some names → names ≠ inl [] → names ≠ inr [] →
            row_account t ∈ as_list names) ∧
  (∀ d, f_start_date f = Some d → date_ltb (t_date t) d = false) ∧
  (∀ d, f_end_date f = Some d → date_ltb d (t_date t) = false) ∧
  (∀ x, f_min_amount f = Some x → (x <= t_amount t)%Q) ∧
  (∀ x, f_max_amount f = Some x → (t_amount t <= x)%Q).
End filters.

Definition no_filters : Filters :=
  {| f_search := None; f_cost_center_ids := None; f_spend_category_ids := None;
     f_filter_account := None; f_start_date := None; f_end_date := None;
     f_min_amount := None; f_max_amount := None |}.

(** ** crud/operations.py: [create_transaction]

    The database is its three tables, each the list of its rows, oldest
    first. A new row gets the id that the database assigns. *)

Record Database := {
  db_cost_centers : list CostCenter;
  db_spend_categories : list SpendCategory;
  db_transactions : list TransactionRow;
}.

Section crud.
Variable next_cost_center_id : list CostCenter → Z.
Variable next_spend_category_id : list SpendCategory → Z.
Variable next_transaction_id : list TransactionRow → Z.


End crud.

(** ** crud/operations.py: [delete_transaction] and the cleanup helpers

    [db.get(Model, id)] is the first row with that primary key, and
    [db.delete(row)] removes the rows with its primary key.
    [cost_center.transactions] are the transactions whose [cost_center_id]
    is the id of the cost center, and [category.transactions] those that
    carry a spend category with the id of the category. [db.refresh] of a
    row that is gone raises an [SQLAlchemyError]. *)

Definition transactions_of_cost_center (db : Database) (id : Z)
  : list TransactionRow :=
  filter (λ t : TransactionRow, cost_center_id t = id) (db_transactions db).

Definition transactions_of_spend_category (db : Database) (id : Z)
  : list TransactionRow :=
  filter (λ t : TransactionRow, id ∈ sc_id <$> t_spend_categories t)
    (db_transactions db).

Definition _cleanup_orphaned_cost_center (db : Database) (cost_center_id : Z)
  : Database :=
  match List.find (λ c, bool_decide (cc_id c = cost_center_id))
          (db_cost_centers db) with
  | None => db
  | Some cost_center =>
      match transactions_of_cost_center db (cc_id cost_center) with
      | [] =>
          {| db_cost_centers :=
               filter (λ c, cc_id c ≠ cc_id cost_center) (db_cost_centers db);
             db_spend_categories := db_spend_categories db;
             db_transactions := db_transactions db |}
      | _ => db
      end
  end.

Definition _cleanup_orphaned_spend_categories (db : Database)
    (old_categories : list SpendCategory) : Database :=
  foldl (λ db category,
           if bool_decide (sc_id category ∈ sc_id <$> db_spend_categories db)
           then
             match transactions_of_spend_category db (sc_id category) with
             | [] =>
                 {| db_cost_centers := db_cost_centers db;
                    db_spend_categories :=
                      filter (λ c, sc_id c ≠ sc_id category)
                        (db_spend_categories db);
                    db_transactions := db_transactions db |}
             | _ => db
             end
           else db)
        db old_categories.

Definition delete_transaction (db : Database) (tx_id : Z) : Database * bool :=
  match List.find (λ t : TransactionRow, bool_decide (t_id t = tx_id))
          (db_transactions db) with
  | None => (db, false)
  | Some tx =>
      let old_cost_center_id := cost_center_id tx in
      let old_spend_categories := t_spend_categories tx in
      let db :=
        {| db_cost_centers := db_cost_centers db;
           db_spend_categories := db_spend_categories db;
           db_transactions :=
             filter (λ t : TransactionRow, t_id t ≠ t_id tx) (db_transactions db) |} in
      let db :=
        if bool_decide (old_cost_center_id ≠ 0%Z)
        then _cleanup_orphaned_cost_center db old_cost_center_id
        else db in
      let db := _cleanup_orphaned_spend_categories db old_spend_categories in
      (db, true)
  end.

(** No cost center and no spend category is without a transaction. *)
Definition no_orphans (db : Database) : Prop :=
  (∀ c, c ∈ db_cost_centers db → transactions_of_cost_center db (cc_id c) ≠ []) ∧
  (∀ c, c ∈ db_spend_categories db →
        transactions_of_spend_category db (sc_id c) ≠ []).

(** The ids of the transactions are unique, no cost center has the id 0,
    and every transaction refers to rows of the two other tables. *)
Definition well_formed (db : Database) : Prop :=
  NoDup (t_id <$> (row_transaction <$> db_transactions db)) ∧
(0%Z ∉ cc_id <$> db_cost_centers db) ∧
  ∀ t : TransactionRow, t ∈ db_transactions db →
    cost_center_id t ∈ cc_id <$> db_cost_centers db ∧
    ∀ cat, cat ∈ t_spend_categories t →
           sc_id cat ∈ sc_id <$> db_spend_categories db.

(** ** config.py: [Settings.allowed_origins]

    [environment] and [raw_origins] are the environment variables
    [ENVIRONMENT] and [ALLOWED_ORIGINS], [None] when they are not set. *)
Definition allowed_origins (environment raw_origins : option pystr)
  : list pystr :=
  let environment := default (lit "development") environment in
  if decide (environment = lit "production")
  then
    let raw_origins := default [] raw_origins in
    PyStr.strip <$>
      filter (λ origin, PyStr.truthy (PyStr.strip origin))
        (PyStr.split_char 44%N raw_origins)
  else [lit "http://localhost:5173"; lit "http://127.0.0.1:5173"].

(** ** Example inputs *)

(** A Discover export with three valid rows and two invalid ones. *)
Definition discover_batch : csv_file :=
  [[lit "Trans. Date"; lit "Post Date"; lit "Description"; lit "Amount"; lit "Category"];
   [lit "01/02/2024"; lit "01/03/2024"; lit "Grocer"; lit "12.50"; lit "Supermarkets"];
   [lit "01/04/2024"; lit "01/05/2024"; lit "  "; lit "3.00"; lit "Services"];
   [lit "01/06/2024"; lit "01/07/2024"; lit "Refund"; lit "-20.00"; lit ""];
   [lit "01/08/2024"; lit "01/09/2024"; lit "Cafe"; lit "abc"; lit "Restaurants"];
   [lit "01/10/2024"; lit "01/11/2024"; lit "Fuel"; lit "$1,040.10"; lit "Gasoline"]].

(** A Discover export whose rows are all valid. *)
Definition discover_valid : csv_file :=
  [[lit "Trans. Date"; lit "Post Date"; lit "Description"; lit "Amount"; lit "Category"];
   [lit "01/02/2024"; lit "01/03/2024"; lit "Grocer"; lit "12.50"; lit "Supermarkets"];
   [lit "01/06/2024"; lit "01/07/2024"; lit "Refund"; lit "-20.00"; lit ""]].

Definition schwab_columns : list pystr :=
  [lit "Date"; lit "Status"; lit "Type"; lit "CheckNumber"; lit "Description";
   lit "Withdrawal"; lit "Deposit"; lit "RunningBalance"].

(** A Schwab export with a withdrawal and a deposit. *)
Definition schwab_valid : csv_file :=
  [schwab_columns;
   [lit "01/02/2024"; lit "Posted"; lit "ACH"; lit ""; lit "Rent"; lit "100.00";
    lit ""; lit "$900.00"];
   [lit "01/03/2024"; lit "Posted"; lit "ACH"; lit ""; lit "Salary"; lit "";
    lit "$2,500.00"; lit "$3,400.00"]].

Definition schwab_valid_txns : list TxnData :=
  [{| txn_date := Date 2024 1 2; txn_description := lit "Rent";
      txn_cost_center_name := None; txn_spend_category_names := [];
      txn_amount := - (10000 # 100); txn_account := lit "Schwab Checking";
      txn_notes := None |};
   {| txn_date := Date 2024 1 3; txn_description := lit "Salary";
      txn_cost_center_name := None; txn_spend_category_names := [];
      txn_amount := 250000 # 100; txn_account := lit "Schwab Checking";
      txn_notes := None |}].

(** The second of them. *)
Definition schwab_salary : TxnData :=
  {| txn_date := Date 2024 1 3; txn_description := lit "Salary";
     txn_cost_center_name := None; txn_spend_category_names := [];
     txn_amount := 250000 # 100; txn_account := lit "Schwab Checking";
     txn_notes := None |}.

(** A Schwab row with both Withdrawal and Deposit populated. *)
Definition schwab_both : csv_file :=
  [schwab_columns;
   [lit "01/02/2024"; lit "Posted"; lit "ACH"; lit ""; lit "Transfer"; lit "100.00";
    lit "50.00"; lit "$900.00"]].

(** A Schwab row with neither. *)
Definition schwab_neither : csv_file :=
  [schwab_columns;
   [lit "01/02/2024"; lit "Posted"; lit "ACH"; lit ""; lit "Memo"; lit " ";
    lit ""; lit "$900.00"]].

(** A CashCanvas export with a repeated spend category. *)
Definition cashcanvas_food : csv_file :=
  [[lit "Date"; lit "Description"; lit "Amount"; lit "Account"; lit "Cost Center";
    lit "Spend Categories"; lit "Notes"];
   [lit "2024-01-02"; lit "Dinner"; lit "-42.00"; lit "Discover"; lit "Restaurants";
    lit "Food, Food, Travel"; lit ""]].

(** Transactions for the analytics examples. *)
Definition cc_food : CostCenter := {| cc_id := 1; cc_name := lit "Food" |}.
Definition cc_pay : CostCenter := {| cc_id := 2; cc_name := lit "Payroll" |}.
Definition sc_fun : SpendCategory := {| sc_id := 7; sc_name := lit "Fun" |}.

Definition txn_refund : Transaction :=
  {| t_id := 1; t_date := Date 2024 1 5; t_description := lit "Refund";
     t_amount := 5; t_cost_center := cc_food; t_spend_categories := [sc_fun] |}.
Definition txn_salary : Transaction :=
  {| t_id := 2; t_date := Date 2024 1 3; t_description := lit "Salary";
     t_amount := 7; t_cost_center := cc_pay; t_spend_categories := [] |}.
Definition txn_dinner : Transaction :=
  {| t_id := 3; t_date := Date 2023 12 3; t_description := lit "Dinner";
     t_amount := - (25 # 2); t_cost_center := cc_food;
     t_spend_categories := [sc_fun] |}.
Definition txn_zero : Transaction :=
  {| t_id := 4; t_date := Date 2024 1 3; t_description := lit "Void";
     t_amount := 0; t_cost_center := cc_food; t_spend_categories := [] |}.

Definition sample_txns : list Transaction :=
  [txn_refund; txn_salary; txn_dinner; txn_zero].

(** A Discover row whose description has 201 characters. *)
Definition discover_long_row : csv_row :=
  dict_reader_row
    [lit "Trans. Date"; lit "Description"; lit "Amount"; lit "Category"]
    [lit "01/02/2024"; replicate 201 97%N; lit "12.50"; lit "Supermarkets"].

(** A CashCanvas row whose cost center is the word "uncategorized" in
    capitals, and a Discover row with the same category. *)
Definition cashcanvas_capitals_row : csv_row :=
  dict_reader_row
    [lit "Date"; lit "Description"; lit "Amount"; lit "Account"; lit "Cost Center";
     lit "Spend Categories"; lit "Notes"]
    [lit "2024-01-02"; lit "Dinner"; lit "-42.00"; lit "Discover";
     lit " UNCATEGORIZED "; lit ""; lit ""].

Definition discover_capitals_row : csv_row :=
  dict_reader_row
    [lit "Trans. Date"; lit "Description"; lit "Amount"; lit "Category"]
    [lit "01/02/2024"; lit "Dinner"; lit "42.00"; lit " UNCATEGORIZED "].

(** A database with two transactions. *)
Definition sample_db : Database :=
  {| db_cost_centers := [cc_food; cc_pay];
     db_spend_categories := [sc_fun];
     db_transactions :=
       [{| row_transaction := txn_refund; row_account := lit "Discover";
           row_notes := None |};
        {| row_transaction := txn_salary; row_account := lit "Schwab Checking";
           row_notes := None |}] |}.

(** * Properties *)

(** ** Strings *)

Section pystr_facts.
Implicit Types s cur : pystr.

Lemma lstrip_nonspace_head c s :
  PyStr.isspace c = false → PyStr.lstrip (c :: s) = c :: s.
Proof. intros Hc. simpl. by rewrite Hc. Qed.

Lemma lstrip_idemp s : PyStr.lstrip (PyStr.lstrip s) = PyStr.lstrip s.
Proof.
  induction s as [|c s IH]; [done|]. simpl.
  destruct (PyStr.isspace c) eqn:Hc; [done|]. by apply lstrip_nonspace_head.
Qed.

Lemma lstrip_snoc_nonspace s c :
  PyStr.isspace c = false → PyStr.lstrip (s ++ [c]) = PyStr.lstrip s ++ [c].
Proof.
  intros Hc. induction s as [|x s IH]; simpl.
  - by rewrite Hc.
  - by destruct (PyStr.isspace x).
Qed.

Lemma rstrip_idemp s : PyStr.rstrip (PyStr.rstrip s) = PyStr.rstrip s.
Proof. unfold PyStr.rstrip. by rewrite rev_involutive, lstrip_idemp. Qed.

Lemma rstrip_nonspace_head c s :
  PyStr.isspace c = false → PyStr.rstrip (c :: s) = c :: PyStr.rstrip s.
Proof.
  intros Hc. unfold PyStr.rstrip. simpl.
  by rewrite lstrip_snoc_nonspace, rev_unit.
Qed.

Lemma lstrip_head s :
  PyStr.lstrip s = [] ∨
  ∃ c t, PyStr.lstrip s = c :: t ∧ PyStr.isspace c = false.
Proof.
  induction s as [|c s IH]; [by left|]. simpl.
  destruct (PyStr.isspace c) eqn:Hc; [done|]. right. eauto.
Qed.

(** [s.strip().strip() == s.strip()] *)
Lemma strip_idemp s : PyStr.strip (PyStr.strip s) = PyStr.strip s.
Proof.
  unfold PyStr.strip. destruct (lstrip_head s) as [->|(c & t & -> & Hc)]; [done|].
  rewrite rstrip_nonspace_head by done.
  rewrite lstrip_nonspace_head by done.
  by rewrite rstrip_nonspace_head, rstrip_idemp.
Qed.

Lemma strip_nonspace s :
  Forall (λ c, PyStr.isspace c = false) s → PyStr.strip s = s.
Proof.
  intros Hs. unfold PyStr.strip, PyStr.rstrip.
  assert (∀ t, Forall (λ c, PyStr.isspace c = false) t → PyStr.lstrip t = t) as Hl.
  { intros [|c t] Ht; [done|]. apply lstrip_nonspace_head. by inv Ht. }
  rewrite (Hl s) by done. rewrite Hl, rev_involutive; [done|].
  apply Forall_forall. intros c Hc. rewrite Forall_forall in Hs.
  apply Hs. apply list_elem_of_In, in_rev, list_elem_of_In in Hc. done.
Qed.

Lemma split_ws_aux_concat cur s :
  PyStr.join_empty (PyStr.split_ws_aux cur s)
  = cur ++ filter (λ c, PyStr.isspace c = false) s.
Proof.
  unfold PyStr.join_empty. revert cur.
  induction s as [|c s IH]; intros cur; cbn [PyStr.split_ws_aux].
  - destruct cur; simpl; by rewrite ?app_nil_r.
  - destruct (PyStr.isspace c) eqn:Hc.
    + rewrite filter_cons_False by (by rewrite Hc).
      destruct cur; cbn [concat]; by rewrite IH.
    + rewrite filter_cons_True by done. rewrite IH. by rewrite <- app_assoc.
Qed.

(** [''.join(s.split())] keeps exactly the characters that are not
    whitespace. *)
Lemma join_split_ws s :
  PyStr.join_empty (PyStr.split_ws s) = filter (λ c, PyStr.isspace c = false) s.
Proof. apply split_ws_aux_concat. Qed.
End pystr_facts.

(** [clean_header] deletes every whitespace character and both byte-order
    marks, and nothing else. *)
Lemma clean_header_filter (h : pystr) :
  clean_header h
  = filter (λ c, PyStr.isspace c = false ∧ c ≠ BOM ∧ c ≠ BOM_swapped) h.
Proof.
  unfold clean_header. destruct h as [|c h]; [done|].
  cbn [PyStr.truthy negb]. rewrite join_split_ws.
  unfold PyStr.remove_char. rewrite !list_filter_filter.
  rewrite strip_nonspace.
  - apply list_filter_iff. tauto.
  - apply Forall_forall. intros x Hx. apply list_elem_of_filter in Hx. tauto.
Qed.

(** ** Insertion-ordered dictionaries *)

Section pydict_facts.
Context {K V : Type} `{EqDecision K}.
Implicit Types (d : pydict K V) (k : K) (v : V).

Lemma dict_get_set d k v k' :
  dict_get (dict_set d k v) k' = if decide (k = k') then Some v else dict_get d k'.
Proof.
  induction d as [|[k0 v0] d IH]; simpl.
  - by destruct (decide (k = k')).
  - destruct (decide (k0 = k)) as [->|Hne]; simpl.
    + by destruct (decide (k = k')).
    + rewrite IH. destruct (decide (k0 = k')) as [->|]; [|done].
      by rewrite decide_False by done.
Qed.

Lemma dict_get_None d k : dict_get d k = None ↔ k ∉ dict_keys d.
Proof.
  unfold dict_keys. induction d as [|[k0 v0] d IH]; simpl.
  - split; [intros _; apply not_elem_of_nil | done].
  - rewrite not_elem_of_cons. destruct (decide (k0 = k)) as [->|].
    + split; [done | tauto].
    + rewrite IH. split; [by intros; split | by intros []].
Qed.


Lemma dict_get_NoDup d k v :
  NoDup (dict_keys d) → (k, v) ∈ d → dict_get d k = Some v.
Proof.
  unfold dict_keys. induction d as [|[k0 v0] d IH]; simpl.
  - intros _ Hin. by apply elem_of_nil in Hin.
  - intros Hnd Hin. apply NoDup_cons in Hnd as [Hk0 Hnd].
    apply elem_of_cons in Hin as [[= -> ->]|Hin].
    + by rewrite decide_True.
    + rewrite decide_False; [auto|]. intros ->. apply Hk0.
      by apply (list_elem_of_fmap_2 fst) in Hin.
Qed.

Lemma dict_set_fresh d k v : k ∉ dict_keys d → dict_set d k v = d ++ [(k, v)].
Proof.
  unfold dict_keys. induction d as [|[k0 v0] d IH]; simpl; [done|].
  rewrite not_elem_of_cons. intros [Hne Hk].
  rewrite decide_False by done. by rewrite IH.
Qed.

Lemma dict_keys_set_old d k v :
  k ∈ dict_keys d → dict_keys (dict_set d k v) = dict_keys d.
Proof.
  unfold dict_keys. induction d as [|[k0 v0] d IH]; intros Hin.
  - by apply elem_of_nil in Hin.
  - cbn [dict_set]. destruct (decide (k0 = k)) as [->|Hne]; [done|].
    rewrite fmap_cons in Hin. apply elem_of_cons in Hin as [Heq|Hin].
    + by subst.
    + rewrite !fmap_cons. by rewrite IH.
Qed.

(** Keys are appended on first insertion and never move afterwards. *)
Lemma dict_keys_set d k v :
  dict_keys (dict_set d k v)
  = if decide (k ∈ dict_keys d) then dict_keys d else dict_keys d ++ [k].
Proof.
  destruct (decide (k ∈ dict_keys d)).
  - by apply dict_keys_set_old.
  - rewrite dict_set_fresh by done. unfold dict_keys. by rewrite fmap_app.
Qed.


Lemma foldl_dict_set_fresh d (items : list (K * V)) :
  NoDup (dict_keys d ++ items.*1) →
  foldl (λ d kv, dict_set d kv.1 kv.2) d items = d ++ items.
Proof.
  revert d. induction items as [|[k v] items IH]; intros d Hnd; simpl.
  - by rewrite app_nil_r.
  - simpl in Hnd. assert (k ∉ dict_keys d) as Hk.
    { apply NoDup_app in Hnd as (_ & Hd & _). intros Hin. apply (Hd k Hin). left. }
    rewrite dict_set_fresh by done. rewrite IH.
    + by rewrite <- app_assoc.
    + unfold dict_keys in *. rewrite fmap_app. simpl. by rewrite <- app_assoc.
Qed.

(** A comprehension over distinct keys keeps its items as they are. *)
Lemma dict_of_items_NoDup (items : list (K * V)) :
  NoDup items.*1 → dict_of_items items = items.
Proof. intros Hnd. unfold dict_of_items. by rewrite foldl_dict_set_fresh. Qed.

Lemma foldl_dict_set_keys d (items : list (K * V)) k :
  k ∈ dict_keys (foldl (λ d kv, dict_set d kv.1 kv.2) d items)
  ↔ k ∈ dict_keys d ∨ k ∈ items.*1.
Proof.
  revert d. induction items as [|[k0 v0] items IH]; intros d; simpl.
  - rewrite elem_of_nil. tauto.
  - rewrite IH, dict_keys_set, elem_of_cons.
    destruct (decide (k0 ∈ dict_keys d)) as [Hin|Hnin].
    + split; [tauto|]. intros [?|[->|?]]; auto.
    + rewrite elem_of_app, list_elem_of_singleton. tauto.
Qed.

Lemma dict_in_of_items (items : list (K * V)) k :
  dict_in k (dict_of_items items) = true ↔ k ∈ items.*1.
Proof.
  unfold dict_in, dict_of_items.
  set (d := foldl (λ d kv, dict_set d kv.1 kv.2) [] items).
  assert (k ∈ dict_keys d ↔ k ∈ items.*1) as Hk.
  { unfold d. rewrite foldl_dict_set_keys. unfold dict_keys at 1. simpl.
    rewrite elem_of_nil. tauto. }
  rewrite <- Hk. pose proof (dict_get_None d k) as Hn.
  destruct (dict_get d k).
  - split; [intros _|done]. destruct (decide (k ∈ dict_keys d)) as [|Hnot]; [done|].
    by apply Hn in Hnot.
  - split; [done|]. intros Hin. by apply Hn in Hin.
Qed.
End pydict_facts.

(** ** Header resolution *)

Lemma by_clean_header_NoDup hs :
  NoDup (clean_header <$> hs) →
  by_clean_header hs = (λ h, (clean_header h, h)) <$> hs.
Proof.
  intros Hnd. apply dict_of_items_NoDup.
  by rewrite <- list_fmap_compose.
Qed.

Lemma dict_in_by_clean_header k hs :
  dict_in k (by_clean_header hs) = true ↔ k ∈ clean_header <$> hs.
Proof.
  unfold by_clean_header. rewrite dict_in_of_items.
  by rewrite <- list_fmap_compose.
Qed.

(** Leaving out the empty headers changes nothing for a name that does
    not clean to the empty string. *)
Lemma clean_elem_of_truthy k (actual : list pystr) :
  k ≠ [] →
  k ∈ clean_header <$> filter (λ h, PyStr.truthy h) actual
  ↔ k ∈ clean_header <$> actual.
Proof.
  intros Hk. rewrite !list_elem_of_fmap. split.
  - intros (h & -> & Hh%list_elem_of_filter). exists h. tauto.
  - intros (h & -> & Hh). exists h. split; [done|].
    apply list_elem_of_filter. split; [|done]. by destruct h.
Qed.

Lemma validate_headers_spec expected actual name :
  NoDup (clean_header <$> expected) →
  Forall (λ d, clean_header d ≠ []) expected →
  validate_headers expected actual name
  = match missing_headers expected actual with
    | [] => Ok ()
    | missing => Err (HeaderMismatch name missing actual)
    end.
Proof.
  intros Hnd Hne. unfold validate_headers.
  rewrite (by_clean_header_NoDup expected) by done.
  set (na := by_clean_header _).
  assert ((filter (λ item : pystr * pystr, negb (dict_in item.1 na))
             ((λ h, (clean_header h, h)) <$> expected)).*2
          = missing_headers expected actual) as ->;
    [|by destruct (missing_headers expected actual)].
  clear Hnd. unfold missing_headers.
  induction Hne as [|d expected Hd Hne IH]; [done|].
  rewrite fmap_cons.
  assert (negb (dict_in (clean_header d) na) ↔
          clean_header d ∉ clean_header <$> actual) as Hiff.
  { rewrite <- (clean_elem_of_truthy _ _ Hd). unfold na.
    rewrite <- dict_in_by_clean_header. by destruct (dict_in _ _). }
  destruct (decide (clean_header d ∉ clean_header <$> actual)) as [Hm|Hm].
  - rewrite (filter_cons_True _ d) by done.
    rewrite filter_cons_True by (by apply Hiff).
    rewrite fmap_cons. by rewrite IH.
  - rewrite (filter_cons_False _ d) by done.
    rewrite filter_cons_False by (by rewrite Hiff).
    done.
Qed.

Lemma parse_headers_mismatch fieldnames expected name :
  fieldnames ≠ [] →
  NoDup (clean_header <$> dict_values expected) →
  Forall (λ d, clean_header d ≠ []) (dict_values expected) →
  missing_headers (dict_values expected) (PyStr.strip <$> fieldnames) ≠ [] →
  _parse_headers (Some fieldnames) expected name
  = Err (HeaderMismatch name
           (missing_headers (dict_values expected) (PyStr.strip <$> fieldnames))
           (PyStr.strip <$> fieldnames)).
Proof.
  intros Hf Hnd Hne Hm. unfold _parse_headers.
  destruct fieldnames as [|f fs]; [done|].
  rewrite validate_headers_spec by done.
  by destruct (missing_headers _ _).
Qed.

(** A header mismatch leaves the parser before any row is read. *)
Lemma load_header_mismatch expected name body (file : csv_file) fieldnames :
  reader_fieldnames file = Some fieldnames →
  fieldnames ≠ [] →
  NoDup (clean_header <$> dict_values expected) →
  Forall (λ d, clean_header d ≠ []) (dict_values expected) →
  missing_headers (dict_values expected) (PyStr.strip <$> fieldnames) ≠ [] →
  load expected name body file
  = Err (HeaderMismatch name
           (missing_headers (dict_values expected) (PyStr.strip <$> fieldnames))
           (PyStr.strip <$> fieldnames)).
Proof.
  intros Hfile Hf Hnd Hne Hm. unfold load. rewrite Hfile.
  by rewrite parse_headers_mismatch.
Qed.

Lemma expected_headers_wf :
  Forall (λ expected : pydict pystr pystr,
            NoDup (clean_header <$> dict_values expected) ∧
            Forall (λ d, clean_header d ≠ []) (dict_values expected))
         [discover_headers; schwab_headers; cashcanvas_headers].
Proof.
  repeat apply Forall_cons_2; [..|apply Forall_nil_2];
    (split; apply (bool_decide_unpack _); vm_compute; exact I).
Qed.

(** C4. Header matching compares names after [clean_header], which deletes
    every whitespace character and byte-order mark and nothing else (so the
    comparison is case-sensitive, and [" Trans.  Date"] followed by U+FEFF matches
    ["Trans. Date"]). For each of the three parsers, when the file has a
    header record and some expected display name has no match, the parser
    fails whatever the data records are, with the error that carries every
    unmatched display name, in the order of the expected headers, and every
    header found (each trimmed, as the source reports them). *)
Theorem header_matching_lists_every_missing_name
    (py_float : pystr → option Q) (strptime : pystr → pystr → option date)
    (file : csv_file) (fieldnames : list pystr) :
  reader_fieldnames file = Some fieldnames →
  fieldnames ≠ [] →
  (∀ h, clean_header h
        = filter (λ c, PyStr.isspace c = false ∧ c ≠ BOM ∧ c ≠ BOM_swapped) h) ∧
  clean_header (lit " Trans.  Date" ++ [BOM]) = clean_header (lit "Trans. Date") ∧
  clean_header (lit "trans. date") ≠ clean_header (lit "Trans. Date") ∧
  (missing_headers (dict_values discover_headers) (PyStr.strip <$> fieldnames) ≠ [] →
   load_discover_csv py_float strptime file
   = Err (HeaderMismatch (lit "Discover")
            (missing_headers (dict_values discover_headers) (PyStr.strip <$> fieldnames))
            (PyStr.strip <$> fieldnames))) ∧
  (missing_headers (dict_values schwab_headers) (PyStr.strip <$> fieldnames) ≠ [] →
   load_schwab_csv py_float strptime file
   = Err (HeaderMismatch (lit "Schwab Checking")
            (missing_headers (dict_values schwab_headers) (PyStr.strip <$> fieldnames))
            (PyStr.strip <$> fieldnames))) ∧
  (missing_headers (dict_values cashcanvas_headers) (PyStr.strip <$> fieldnames) ≠ [] →
   load_cashcanvas_csv py_float strptime file
   = Err (HeaderMismatch (lit "CashCanvas Export")
            (missing_headers (dict_values cashcanvas_headers) (PyStr.strip <$> fieldnames))
            (PyStr.strip <$> fieldnames))).
Proof.
  intros Hfile Hf.
  pose proof expected_headers_wf as Hwf.
  apply Forall_cons in Hwf as [[Hd1 Hd2] Hwf].
  apply Forall_cons in Hwf as [[Hs1 Hs2] Hwf].
  apply Forall_cons in Hwf as [[Hc1 Hc2] _].
  split_and!.
  - apply clean_header_filter.
  - by vm_compute.
  - by vm_compute.
  - intros Hm. by apply load_header_mismatch.
  - intros Hm. by apply load_header_mismatch.
  - intros Hm. by apply load_header_mismatch.
Qed.

Lemma header_matching_witness :
  load_discover_csv decimal_float simple_strptime
    [[lit "Date "; lit " A m o u n t"; lit "Memo"];
     [lit "01/02/2024"; lit "12.50"; lit "x"]]
  = Err (HeaderMismatch (lit "Discover")
           [lit "Trans. Date"; lit "Description"; lit "Category"]
           [lit "Date"; lit "A m o u n t"; lit "Memo"]).
Proof.
  refine (proj1 (proj2 (proj2 (proj2
    (header_matching_lists_every_missing_name decimal_float simple_strptime
       [[lit "Date "; lit " A m o u n t"; lit "Memo"];
        [lit "01/02/2024"; lit "12.50"; lit "x"]]
       [lit "Date "; lit " A m o u n t"; lit "Memo"] eq_refl _)))) _).
  - discriminate.
  - vm_compute. discriminate.
Defined.

(** The resolved header is the trimmed text, while the rows are keyed by the
    untrimmed one: a header that matches only after trimming passes the
    header check, and then every row fails on its lookup. *)
Example padded_header_rows_fail :
  load_discover_csv decimal_float simple_strptime
    [[lit " Trans. Date"; lit "Description"; lit "Amount"; lit "Category"];
     [lit "01/02/2024"; lit "Grocer"; lit "12.50"; lit "Supermarkets"]]
  = Err (CsvValidationFailed 1
           [{| err_row := 2; err_exn := KeyError (lit "Trans. Date") |}]).
Proof. vm_compute. reflexivity. Qed.

(** ** The row loop *)

Lemma bind_Ok {E A B} (r : result E A) (k : A → result E B) b :
  r ≫= k = Ok b ↔ ∃ a, r = Ok a ∧ k a = Ok b.
Proof.
  destruct r as [a|e]; simpl; split.
  - intros Hk. by exists a.
  - by intros (a' & [= ->] & Hk).
  - done.
  - by intros (a' & [=] & _).
Qed.

Lemma raise_if_Ok {E} (b : bool) (e : E) u : raise_if b e = Ok u → b = false.
Proof. by destruct b. Qed.

(** Peel the successful steps of a row body off a hypothesis [H]. *)
Ltac bind_inv H :=
  repeat (let a := fresh "v" in
          let Ha := fresh "Hv" in
          apply bind_Ok in H as (a & Ha & H); cbn beta zeta in H).

Lemma row_loop_spec body n rows ts es :
  row_loop body n rows ts es
  = (ts ++ accepted (row_outcomes body n rows),
     es ++ rejected (row_outcomes body n rows)).
Proof.
  revert n ts es. induction rows as [|row rows IH]; intros n ts es.
  - simpl. by rewrite !app_nil_r.
  - cbn [row_loop row_outcomes]. unfold accepted, rejected. cbn [omap list_omap].
    cbn [snd fst]. destruct (body n row) as [t|e]; rewrite IH; cbn [option_bind];
      unfold accepted, rejected; by rewrite <- app_assoc.
Qed.

Lemma row_outcomes_lookup body n rows i :
  row_outcomes body n rows !! i
  = (λ row, (n + i, body (n + i) row)) <$> rows !! i.
Proof.
  revert n i. induction rows as [|row rows IH]; intros n [|i]; simpl; try done.
  - by rewrite Nat.add_0_r.
  - rewrite IH. by rewrite Nat.add_succ_r.
Qed.

Lemma elem_of_rejected body n rows e :
  e ∈ rejected (row_outcomes body n rows)
  ↔ ∃ i row, rows !! i = Some row ∧ err_row e = n + i
             ∧ body (n + i) row = Err (err_exn e).
Proof.
  unfold rejected. rewrite list_elem_of_omap. split.
  - intros ([m r] & Hin & Hr). apply list_elem_of_lookup in Hin as [i Hi].
    rewrite row_outcomes_lookup in Hi.
    destruct (rows !! i) as [row|] eqn:Hrow; [|done].
    injection Hi as <- <-. exists i, row. simpl in Hr.
    destruct (body (n + i) row); [done|]. injection Hr as <-. done.
  - intros (i & row & Hrow & Hn & Hb). exists (n + i, body (n + i) row). split.
    + apply list_elem_of_lookup. exists i. rewrite row_outcomes_lookup.
      by rewrite Hrow.
    + simpl. rewrite Hb. f_equal. destruct e; simpl in *. by subst.
Qed.

Lemma elem_of_accepted body n rows t :
  t ∈ accepted (row_outcomes body n rows)
  ↔ ∃ i row, rows !! i = Some row ∧ body (n + i) row = Ok t.
Proof.
  unfold accepted. rewrite list_elem_of_omap. split.
  - intros ([m r] & Hin & Hr). apply list_elem_of_lookup in Hin as [i Hi].
    rewrite row_outcomes_lookup in Hi.
    destruct (rows !! i) as [row|] eqn:Hrow; [|done].
    injection Hi as <- <-. exists i, row. simpl in Hr.
    destruct (body (n + i) row); [|done]. injection Hr as <-. done.
  - intros (i & row & Hrow & Hb). exists (n + i, body (n + i) row). split.
    + apply list_elem_of_lookup. exists i. rewrite row_outcomes_lookup.
      by rewrite Hrow.
    + simpl. by rewrite Hb.
Qed.

(** A parser either reports every rejected row or returns every row. *)
Lemma load_spec expected name body (file : csv_file) headers :
  _parse_headers (reader_fieldnames file) expected name = Ok headers →
  load expected name body file
  = match rejected (row_outcomes (body headers) 2 (reader_rows file)) with
    | [] => Ok (accepted (row_outcomes (body headers) 2 (reader_rows file)))
    | errors => Err (CsvValidationFailed (length errors) (take 20 errors))
    end.
Proof.
  intros Hh. unfold load. rewrite Hh. simpl. by rewrite row_loop_spec.
Qed.

Lemma load_Ok_elem expected name body (file : csv_file) txns t :
  load expected name body file = Ok txns → t ∈ txns →
  ∃ headers n row, body headers n row = Ok t.
Proof.
  unfold load. intros H Ht. apply bind_Ok in H as (headers & Hh & H).
  rewrite row_loop_spec in H. unfold finish in H. simpl in H.
  destruct (rejected _); [|done]. injection H as <-.
  apply elem_of_accepted in Ht as (i & row & _ & Hb). eauto.
Qed.

(** C3. For every parser (each is [load] at its own headers and row body):
    once the headers resolve, if some data row is rejected then the call
    fails with one [CsvValidationFailed] error and returns no transaction.
    The error carries the number of all rejected rows and the first twenty
    of their errors, nothing of the rest; the errors are those of the
    rejected rows, in file order, numbered from 2 for the first data row. *)
Theorem any_rejected_row_fails_the_batch
    (expected : pydict pystr pystr) (name : pystr)
    (body : pydict pystr pystr → nat → csv_row → result row_exn TxnData)
    (file : csv_file) (headers : pydict pystr pystr) :
  _parse_headers (reader_fieldnames file) expected name = Ok headers →
  (∃ i row e, reader_rows file !! i = Some row ∧
              body headers (2 + i) row = Err e) →
  let errors := rejected (row_outcomes (body headers) 2 (reader_rows file)) in
  load expected name body file
  = Err (CsvValidationFailed (length errors) (take 20 errors)) ∧
  0 < length errors ∧
  length (take 20 errors) = length errors `min` 20 ∧
  (∀ e, e ∈ errors ↔
        ∃ i row, reader_rows file !! i = Some row ∧ err_row e = 2 + i ∧
                 body headers (2 + i) row = Err (err_exn e)) ∧
  (∀ i j e1 e2, errors !! i = Some e1 → errors !! j = Some e2 → i < j →
                err_row e1 < err_row e2).
Proof.
  intros Hh (i & row & e & Hrow & He) errors.
  assert ({| err_row := 2 + i; err_exn := e |} ∈ errors) as Hin.
  { apply elem_of_rejected. exists i, row. done. }
  split_and!.
  - rewrite (load_spec _ _ _ _ _ Hh). fold errors.
    destruct errors; [by apply elem_of_nil in Hin | done].
  - destruct errors; [by apply elem_of_nil in Hin | simpl; lia].
  - rewrite length_take. lia.
  - intros e'. apply elem_of_rejected.
  - unfold errors. clear. generalize 2 at 1 2 as n.
    induction (reader_rows file) as [|row rows IH]; intros n i j e1 e2.
    { done. }
    cbn [row_outcomes]. unfold rejected. cbn [omap list_omap fst snd].
    assert (∀ m k e, rejected (row_outcomes (body headers) (S m) rows) !! k = Some e →
                     m < err_row e) as Hlater.
    { intros m k e' Hk. apply list_elem_of_lookup_2, elem_of_rejected in Hk
        as (? & ? & _ & -> & _). lia. }
    destruct (body headers n row) as [t|e0]; cbn [option_bind].
    + apply IH.
    + destruct i as [|i], j as [|j]; try lia; simpl.
      * intros [= <-] Hj _. simpl. by eapply Hlater.
      * intros H1 H2 Hij. eapply IH; [done..|lia].
Qed.

Lemma any_rejected_row_fails_the_batch_witness :
  load_discover_csv decimal_float simple_strptime discover_batch
  = Err (CsvValidationFailed 2
           [{| err_row := 3; err_exn := DescriptionEmpty |};
            {| err_row := 5;
               err_exn := InvalidCurrency (Some 5) (lit "abc") |}]).
Proof.
  refine (proj1 (any_rejected_row_fails_the_batch discover_headers
                   (lit "Discover") (discover_row decimal_float simple_strptime)
                   discover_batch discover_headers _ _)).
  - vm_compute. reflexivity.
  - exists 1. eexists. eexists. split; vm_compute; reflexivity.
Defined.

(** ** Row bodies *)

Lemma validate_transaction_data_Ok d n u :
  _validate_transaction_data d n = Ok u → ∃ m, TransactionCreate d = Ok m.
Proof.
  unfold _validate_transaction_data. destruct (TransactionCreate d); [eauto|done].
Qed.




(** C7. A row the Discover parser accepts carries the negation of the value
    read from its Amount cell: a positive CSV amount (an expense) becomes a
    negative ledger amount and a negative one (a credit) a positive ledger
    amount. With the decimal reader, [12.50] gives [-12.50] and [-20.00]
    gives [20.00]. *)
Theorem discover_amount_is_negated :
  (∀ py_float strptime headers row_num row txn,
     discover_row py_float strptime headers row_num row = Ok txn →
     ∃ raw x,
       cell headers row "amount" = Ok raw ∧
       clean_currency_string py_float raw (Some row_num) = Ok x ∧
       txn_amount txn = (- x)%Q ∧
       ((0 < x)%Q → (txn_amount txn < 0)%Q) ∧
       ((x < 0)%Q → (0 < txn_amount txn)%Q)) ∧
  clean_currency_string decimal_float (lit "12.50") (Some 2) = Ok (1250 # 100) ∧
  clean_currency_string decimal_float (lit "-20.00") (Some 3) = Ok (- (2000 # 100))%Q ∧
  txn_amount <$> default [] (match load_discover_csv decimal_float simple_strptime
                                     discover_valid with
                             | Ok txns => Some txns
                             | Err _ => None
                             end)
  = [(- (1250 # 100))%Q; 2000 # 100].
Proof.
  split_and!; [|by vm_compute..].
  intros py_float strptime headers row_num row txn Hrow.
  unfold discover_row in Hrow. bind_inv Hrow. injection Hrow as <-.
  eexists _, _. split_and!; [eassumption..|done| |]; cbn [txn_amount].
  - intros Hx. by apply (Qopp_lt_compat 0).
  - intros Hx. by apply (Qopp_lt_compat _ 0).
Qed.

Lemma discover_amount_is_negated_witness :
  ∃ raw x,
    cell discover_headers
      (dict_reader_row
         [lit "Trans. Date"; lit "Description"; lit "Amount"; lit "Category"]
         [lit "01/02/2024"; lit "Grocer"; lit "12.50"; lit "Supermarkets"])
      "amount" = Ok raw ∧
    clean_currency_string decimal_float raw (Some 2) = Ok x ∧
    (- (1250 # 100))%Q = (- x)%Q ∧
    ((0 < x)%Q → (- (1250 # 100) < 0)%Q) ∧
    ((x < 0)%Q → (0 < - (1250 # 100))%Q).
Proof.
  refine (proj1 discover_amount_is_negated decimal_float simple_strptime
            discover_headers 2
            (dict_reader_row
               [lit "Trans. Date"; lit "Description"; lit "Amount"; lit "Category"]
               [lit "01/02/2024"; lit "Grocer"; lit "12.50"; lit "Supermarkets"])
            {| txn_date := Date 2024 1 2; txn_description := lit "Grocer";
               txn_cost_center_name := Some (lit "Supermarkets");
               txn_spend_category_names := [];
               txn_amount := - (1250 # 100); txn_account := lit "Discover";
               txn_notes := None |} _).
  vm_compute. reflexivity.
Defined.

Lemma schwab_row_amount py_float strptime headers row_num row txn :
  schwab_row py_float strptime headers row_num row = Ok txn →
  ∃ w d,
    cell_get headers row "withdrawal" = Ok w ∧
    cell_get headers row "deposit" = Ok d ∧
    (if PyStr.truthy w && bool_decide (w ≠ [])
     then x ← clean_currency_string py_float w (Some row_num); Ok (- x)%Q
     else if PyStr.truthy d && bool_decide (d ≠ [])
     then clean_currency_string py_float d (Some row_num)
     else Err BothEmpty) = Ok (txn_amount txn).
Proof.
  intros Hrow. unfold schwab_row in Hrow. bind_inv Hrow. injection Hrow as <-.
  eexists _, _. split_and!; [eassumption..|]. cbn [txn_amount]. eassumption.
Qed.

(** C1, as the code has it. In a row the Schwab parser accepts, a non-empty
    (trimmed) Withdrawal cell gives the negated withdrawal value as the ledger
    amount, whatever the Deposit cell holds; with an empty Withdrawal cell the
    Deposit cell is non-empty and gives the ledger amount unchanged. A row
    whose Withdrawal and Deposit cells are both empty is a row error. *)
Theorem schwab_withdrawal_takes_precedence
    (py_float : pystr → option Q) (strptime : pystr → pystr → option date)
    (headers : pydict pystr pystr) (row_num : nat) (row : csv_row)
    (w d : pystr) :
  cell_get headers row "withdrawal" = Ok w →
  cell_get headers row "deposit" = Ok d →
  (∀ txn,
     schwab_row py_float strptime headers row_num row = Ok txn →
     (w ≠ [] →
      ∃ x, clean_currency_string py_float w (Some row_num) = Ok x ∧
           txn_amount txn = (- x)%Q) ∧
     (w = [] →
      d ≠ [] ∧
      clean_currency_string py_float d (Some row_num) = Ok (txn_amount txn))) ∧
  (w = [] → d = [] →
   ∃ e, schwab_row py_float strptime headers row_num row = Err e).
Proof.
  intros Hw Hd. split.
  - intros txn Hrow. apply schwab_row_amount in Hrow as (w' & d' & Hw' & Hd' & Ha).
    rewrite Hw in Hw'. rewrite Hd in Hd'. injection Hw' as <-. injection Hd' as <-.
    split.
    + intros Hne. destruct w as [|c w]; [done|]. cbn in Ha.
      apply bind_Ok in Ha as (x & Hx & [= Ha]). eauto.
    + intros ->. cbn in Ha. destruct d as [|c d]; [done|]. cbn in Ha. done.
  - intros -> ->. destruct (schwab_row _ _ _ _ _) as [txn|e] eqn:Hrow; [|eauto].
    apply schwab_row_amount in Hrow as (w' & d' & Hw' & Hd' & Ha).
    rewrite Hw in Hw'. rewrite Hd in Hd'. injection Hw' as <-. injection Hd' as <-.
    done.
Qed.

Lemma schwab_withdrawal_takes_precedence_witness :
  ∃ x, clean_currency_string decimal_float (lit "100.00") (Some 2) = Ok x ∧
       (- (10000 # 100))%Q = (- x)%Q.
Proof.
  refine (proj1 (proj1 (schwab_withdrawal_takes_precedence decimal_float
            simple_strptime schwab_headers 2
            (dict_reader_row schwab_columns
               [lit "01/02/2024"; lit "Posted"; lit "ACH"; lit ""; lit "Transfer";
                lit "100.00"; lit "50.00"; lit "$900.00"])
            (lit "100.00") (lit "50.00") _ _)
            {| txn_date := Date 2024 1 2; txn_description := lit "Transfer";
               txn_cost_center_name := None; txn_spend_category_names := [];
               txn_amount := - (10000 # 100);
               txn_account := lit "Schwab Checking"; txn_notes := None |} _) _);
    [vm_compute; reflexivity..|discriminate].
Defined.

(** C1, as the claim states it, fails: a row with both Withdrawal
    (["100.00"]) and Deposit (["50.00"]) populated is accepted, with the
    amount [-100.00]; no row error is recorded. *)
Lemma schwab_both_populated_is_accepted :
  load_schwab_csv decimal_float simple_strptime schwab_both
  = Ok [{| txn_date := Date 2024 1 2; txn_description := lit "Transfer";
           txn_cost_center_name := None; txn_spend_category_names := [];
           txn_amount := - (10000 # 100);
           txn_account := lit "Schwab Checking"; txn_notes := None |}].
Proof. vm_compute. reflexivity. Qed.

(** A row with neither is a row error, reported at row 2. *)
Example schwab_neither_is_rejected :
  load_schwab_csv decimal_float simple_strptime schwab_neither
  = Err (CsvValidationFailed 1 [{| err_row := 2; err_exn := BothEmpty |}]).
Proof. vm_compute. reflexivity. Qed.

(** ** Spend categories *)

Lemma truthy_nonempty (s : pystr) : PyStr.truthy s = true ↔ s ≠ [].
Proof. by destruct s. Qed.

Lemma trimmed_nonblank_cons (name : pystr) l :
  trimmed_nonblank (name :: l)
  = if PyStr.truthy (PyStr.strip name)
    then PyStr.strip name :: trimmed_nonblank l
    else trimmed_nonblank l.
Proof.
  unfold trimmed_nonblank. rewrite fmap_cons.
  destruct (PyStr.strip name) eqn:Hs; cbn [PyStr.truthy].
  - by rewrite filter_cons_False by (by intros ?).
  - by rewrite filter_cons_True by done.
Qed.

Lemma cleaned_is_trimmed_nonblank (l : list pystr) :
  PyStr.strip <$> filter (λ name, PyStr.truthy (PyStr.strip name)) l
  = trimmed_nonblank l.
Proof.
  induction l as [|name l IH]; [done|]. rewrite trimmed_nonblank_cons.
  destruct (PyStr.truthy (PyStr.strip name)) eqn:Ht.
  - rewrite filter_cons_True by (by rewrite Ht). by rewrite fmap_cons, IH.
  - rewrite filter_cons_False by (rewrite Ht; simpl; tauto). done.
Qed.

Lemma any_nonblank_trimmed (l : list pystr) :
  any_nonblank l = false ↔ trimmed_nonblank l = [].
Proof.
  induction l as [|name l IH]; [done|]. rewrite trimmed_nonblank_cons.
  unfold any_nonblank in *. cbn [existsb].
  destruct (PyStr.truthy (PyStr.strip name)); simpl; [done|apply IH].
Qed.

Lemma spend_categories_loop acc (l : list pystr) :
  foldl (λ spend_categories cat,
           let cleaned_cat := PyStr.strip cat in
           if PyStr.truthy cleaned_cat
           then spend_categories ++ [cleaned_cat]
           else spend_categories) acc l
  = acc ++ trimmed_nonblank l.
Proof.
  revert acc. induction l as [|cat l IH]; intros acc.
  - by rewrite app_nil_r.
  - cbn [foldl]. rewrite IH, trimmed_nonblank_cons.
    destruct (PyStr.truthy (PyStr.strip cat)); [|done].
    by rewrite <- app_assoc.
Qed.

Lemma parse_spend_categories_spec (s : pystr) :
  parse_spend_categories s
  = if decide (s = [] ∨ PyStr.lower s = lit "uncategorized") then []
    else trimmed_nonblank (PyStr.split_char 44%N s).
Proof.
  unfold parse_spend_categories. rewrite spend_categories_loop.
  destruct s as [|c s].
  - by rewrite decide_True by (by left).
  - cbn [PyStr.truthy andb]. case_bool_decide as Hl.
    + rewrite decide_False; [done|]. by intros [|].
    + rewrite decide_True; [done|]. right.
      by destruct (decide (PyStr.lower (c :: s) = lit "uncategorized")).
Qed.

Lemma first_seen_loop_keys (d : pydict pystr unit) (l : list pystr) :
  dict_keys (foldl (λ d kv, dict_set d kv.1 kv.2) d ((λ k, (k, ())) <$> l))
  = foldl (λ seen x, if decide (x ∈ seen) then seen else seen ++ [x])
      (dict_keys d) l.
Proof.
  revert d. induction l as [|x l IH]; intros d; [done|].
  rewrite fmap_cons. cbn [foldl]. rewrite IH. cbn [fst snd].
  by rewrite dict_keys_set.
Qed.

(** [list(dict.fromkeys(l))] keeps the first occurrence of every name. *)
Lemma dict_fromkeys_first_seen (l : list pystr) :
  dict_keys (dict_fromkeys l) = first_seen l.
Proof. apply (first_seen_loop_keys []). Qed.

Lemma first_seen_loop_prefix seen (l : list pystr) :
  ∃ more,
    foldl (λ seen x, if decide (x ∈ seen) then seen else seen ++ [x]) seen l
    = seen ++ more.
Proof.
  revert seen. induction l as [|x l IH]; intros seen.
  - exists []. by rewrite app_nil_r.
  - cbn [foldl]. destruct (decide (x ∈ seen)); [apply IH|].
    destruct (IH (seen ++ [x])) as [more ->]. exists (x :: more).
    by rewrite <- app_assoc.
Qed.

Lemma first_seen_nil_inv (l : list pystr) : first_seen l = [] → l = [].
Proof.
  destruct l as [|x l]; [done|]. unfold first_seen. cbn [foldl].
  rewrite decide_False by apply not_elem_of_nil.
  destruct (first_seen_loop_prefix ([] ++ [x]) l) as [more ->]. done.
Qed.

Lemma default_spend_categories_spec (l : list pystr) :
  default_spend_categories (Some l)
  = match first_seen (trimmed_nonblank l) with
    | [] => [Uncategorized]
    | names => names
    end.
Proof.
  unfold default_spend_categories.
  rewrite cleaned_is_trimmed_nonblank, dict_fromkeys_first_seen.
  destruct (any_nonblank l) eqn:Hany.
  - rewrite orb_false_r. case_bool_decide as Hl; cbn [negb].
    + destruct (first_seen _) eqn:Hfs; [|done].
      apply first_seen_nil_inv, any_nonblank_trimmed in Hfs. congruence.
    + by subst.
  - rewrite orb_true_r. apply any_nonblank_trimmed in Hany. by rewrite Hany.
Qed.

(** C2, as the code has it. The spend-category list of a row the CashCanvas
    parser accepts is the comma-split of the (trimmed) Spend Categories cell
    with each entry trimmed and blank entries dropped, in order and with
    repetitions kept, and it is empty when the cell is empty or is the word
    "uncategorized" in any letter case. Deduplication that keeps the first
    occurrences is what the [TransactionCreate] validator computes from such
    a list (with ["Uncategorized"] for an empty outcome). For
    ["Food, Food, Travel"] the parser returns [Food, Food, Travel] and the
    validator computes [Food, Travel]. *)
Theorem cashcanvas_categories_are_split_and_trimmed :
  (∀ py_float strptime headers row_num row txn,
     cashcanvas_row py_float strptime headers row_num row = Ok txn →
     ∃ s, cell headers row "spend_categories" = Ok s ∧
          txn_spend_category_names txn
          = if decide (s = [] ∨ PyStr.lower s = lit "uncategorized") then []
            else trimmed_nonblank (PyStr.split_char 44%N s)) ∧
  (∀ l, default_spend_categories (Some l)
        = match first_seen (trimmed_nonblank l) with
          | [] => [Uncategorized]
          | names => names
          end) ∧
  txn_spend_category_names <$>
    default [] (match load_cashcanvas_csv decimal_float simple_strptime
                        cashcanvas_food with
                | Ok txns => Some txns
                | Err _ => None
                end)
  = [[lit "Food"; lit "Food"; lit "Travel"]] ∧
  default_spend_categories (Some [lit "Food"; lit "Food"; lit "Travel"])
  = [lit "Food"; lit "Travel"].
Proof.
  split_and!; [|apply default_spend_categories_spec|by vm_compute..].
  intros py_float strptime headers row_num row txn Hrow.
  unfold cashcanvas_row in Hrow. bind_inv Hrow. injection Hrow as <-.
  eexists. split; [eassumption|]. cbn [txn_spend_category_names].
  apply parse_spend_categories_spec.
Qed.

Lemma cashcanvas_categories_are_split_and_trimmed_witness :
  ∃ s,
    cell cashcanvas_headers
      (dict_reader_row
         [lit "Date"; lit "Description"; lit "Amount"; lit "Account";
          lit "Cost Center"; lit "Spend Categories"; lit "Notes"]
         [lit "2024-01-02"; lit "Dinner"; lit "-42.00"; lit "Discover";
          lit "Restaurants"; lit "Food, Food, Travel"; lit ""])
      "spend_categories" = Ok s ∧
    [lit "Food"; lit "Food"; lit "Travel"]
    = if decide (s = [] ∨ PyStr.lower s = lit "uncategorized") then []
      else trimmed_nonblank (PyStr.split_char 44%N s).
Proof.
  refine (proj1 cashcanvas_categories_are_split_and_trimmed decimal_float
            simple_strptime cashcanvas_headers 2
            (dict_reader_row
               [lit "Date"; lit "Description"; lit "Amount"; lit "Account";
                lit "Cost Center"; lit "Spend Categories"; lit "Notes"]
               [lit "2024-01-02"; lit "Dinner"; lit "-42.00"; lit "Discover";
                lit "Restaurants"; lit "Food, Food, Travel"; lit ""])
            {| txn_date := Date 2024 1 2; txn_description := lit "Dinner";
               txn_cost_center_name := Some (lit "Restaurants");
               txn_spend_category_names := [lit "Food"; lit "Food"; lit "Travel"];
               txn_amount := - (4200 # 100); txn_account := lit "Discover";
               txn_notes := None |} _).
  vm_compute. reflexivity.
Defined.

(** C2, as the claim states it, fails: for ["Food, Food, Travel"] the parser
    returns the repeated entry, not [Food, Travel]. *)
Lemma cashcanvas_parser_keeps_duplicates :
  load_cashcanvas_csv decimal_float simple_strptime cashcanvas_food
  = Ok [{| txn_date := Date 2024 1 2; txn_description := lit "Dinner";
           txn_cost_center_name := Some (lit "Restaurants");
           txn_spend_category_names := [lit "Food"; lit "Food"; lit "Travel"];
           txn_amount := - (4200 # 100); txn_account := lit "Discover";
           txn_notes := None |}].
Proof. vm_compute. reflexivity. Qed.

(** ** Amounts *)




Lemma Qltb_lt (a b : Q) : Qltb a b = true ↔ (a < b)%Q.
Proof.
  unfold Qltb. rewrite negb_true_iff, <- not_true_iff_false, Qle_bool_iff.
  split; [apply Qnot_le_lt | apply Qlt_not_le].
Qed.

Lemma Qltb_ge (a b : Q) : Qltb a b = false ↔ (b <= a)%Q.
Proof. unfold Qltb. by rewrite negb_false_iff, Qle_bool_iff. Qed.





(** ** [sorted] *)

Section py_sorted_facts.
Context {A : Type} (lt : A → A → bool) (R : relation A).
Hypothesis lt_R : ∀ x y, lt x y = true → R x y.
Hypothesis not_lt_R : ∀ x y, lt x y = false → R y x.

Lemma insert_sorted_perm x l : insert_sorted lt x l ≡ₚ x :: l.
Proof.
  induction l as [|y l IH]; [done|]. cbn [insert_sorted].
  destruct (lt y x); [|done]. rewrite IH. apply Permutation_swap.
Qed.

Lemma py_sorted_perm l : py_sorted lt l ≡ₚ l.
Proof.
  induction l as [|x l IH]; [done|]. unfold py_sorted in *. cbn [foldr].
  by rewrite insert_sorted_perm, IH.
Qed.

Lemma insert_sorted_HdRel a x l :
  R a x → HdRel R a l → HdRel R a (insert_sorted lt x l).
Proof.
  intros Hax Hal. destruct l as [|y l]; cbn [insert_sorted].
  - by constructor.
  - destruct (lt y x); constructor; [by inv Hal|done].
Qed.

Lemma insert_sorted_Sorted x l : Sorted R l → Sorted R (insert_sorted lt x l).
Proof.
  induction 1 as [|y l Hl IH Hy]; cbn [insert_sorted].
  - by repeat constructor.
  - destruct (lt y x) eqn:Hyx.
    + constructor; [done|]. apply insert_sorted_HdRel; [by apply lt_R|done].
    + constructor; [by constructor|]. constructor. by apply not_lt_R.
Qed.

Lemma py_sorted_Sorted l : Sorted R (py_sorted lt l).
Proof.
  induction l as [|x l IH]; [constructor|]. unfold py_sorted in *. cbn [foldr].
  by apply insert_sorted_Sorted.
Qed.
End py_sorted_facts.

(** ** The balance timeline *)

Lemma timeline_loop_balance l b tl :
  (timeline_loop l b tl).1 = foldl Qplus b (t_amount <$> l).
Proof.
  revert b tl. induction l as [|t l IH]; intros b tl; [done|].
  cbn [timeline_loop]. by rewrite IH.
Qed.



Lemma date_ltb_spec d1 d2 :
  date_ltb d1 d2 = true
  ↔ year d1 < year d2 ∨
    (year d1 = year d2 ∧
     (month d1 < month d2 ∨ (month d1 = month d2 ∧ day d1 < day d2))).
Proof.
  unfold date_ltb.
  destruct (Nat.ltb_spec (year d1) (year d2)), (Nat.eqb_spec (year d1) (year d2)),
    (Nat.ltb_spec (month d1) (month d2)), (Nat.eqb_spec (month d1) (month d2)),
    (Nat.ltb_spec (day d1) (day d2));
    simpl; split; intros; try done; try lia.
Qed.


(** The order of the timeline keys [(date, id)], as a proposition. *)
Lemma timeline_key_ltb_spec x y :
  timeline_key_ltb x y = true
  ↔ (t_date x = t_date y ∧ (t_id x < t_id y)%Z) ∨
    (t_date x ≠ t_date y ∧ date_ltb (t_date x) (t_date y) = true).
Proof.
  unfold timeline_key_ltb. destruct (decide (t_date x = t_date y)).
  - rewrite Z.ltb_lt. tauto.
  - tauto.
Qed.

Lemma timeline_key_ltb_asym x y :
  timeline_key_ltb x y = true → timeline_key_ltb y x = false.
Proof.
  intros H. apply not_true_iff_false. intros H'.
  apply timeline_key_ltb_spec in H, H'. rewrite !date_ltb_spec in *.
  destruct H as [[He H]|[Hn H]], H' as [[He' H']|[Hn' H']];
    try congruence; lia.
Qed.


Lemma compute_analytics_unfold strftime_Ym (l : list Transaction) :
  compute_analytics strftime_Ym l = compute_analytics_body strftime_Ym l.
Proof. by destruct l. Qed.


(** ** Order of the per-entity lists *)

Lemma group_spending_sorted (data : pydict Z GroupData) :
  StronglySorted (λ a b, (expense_total a <= expense_total b)%Q)
    (group_spending data).
Proof.
  apply Sorted_StronglySorted.
  { intros a b c. apply Qle_trans. }
  unfold group_spending.
  apply (Sorted_fmap _ (λ x y, (gd_expenses x <= gd_expenses y)%Q)); [done|].
  apply py_sorted_Sorted.
  - intros x y Hlt%Qltb_lt. by apply Qlt_le_weak.
  - intros x y Hge%Qltb_ge. done.
Qed.

(** C8. [cost_center_spending] and [spend_category_stats] are each in
    ascending order of [expense_total]: every entry's [expense_total] is at
    most that of every later entry, so the first entry has the smallest
    (most negative) one. *)
Theorem group_lists_ascend_by_expense_total
    (strftime_Ym : date → pystr) (transactions : list Transaction) :
  StronglySorted (λ a b, (expense_total a <= expense_total b)%Q)
    (cost_center_spending (compute_analytics strftime_Ym transactions)) ∧
  StronglySorted (λ a b, (expense_total a <= expense_total b)%Q)
    (spend_category_stats (compute_analytics strftime_Ym transactions)) ∧
  (∀ first e,
     head (cost_center_spending (compute_analytics strftime_Ym transactions))
     = Some first →
     e ∈ cost_center_spending (compute_analytics strftime_Ym transactions) →
     (expense_total first <= expense_total e)%Q) ∧
  (∀ first e,
     head (spend_category_stats (compute_analytics strftime_Ym transactions))
     = Some first →
     e ∈ spend_category_stats (compute_analytics strftime_Ym transactions) →
     (expense_total first <= expense_total e)%Q).
Proof.
  assert (∀ l : list GroupSpending,
            StronglySorted (λ a b, (expense_total a <= expense_total b)%Q) l →
            ∀ first e, head l = Some first → e ∈ l →
                       (expense_total first <= expense_total e)%Q) as Hhead.
  { intros l Hl first e Hh He. destruct l as [|x l]; [done|].
    injection Hh as ->. apply StronglySorted_inv in Hl as [_ Hall].
    apply elem_of_cons in He as [->|He]; [apply Qle_refl|].
    rewrite Forall_forall in Hall. by apply Hall. }
  assert (StronglySorted (λ a b, (expense_total a <= expense_total b)%Q)
            (cost_center_spending (compute_analytics strftime_Ym transactions)) ∧
          StronglySorted (λ a b, (expense_total a <= expense_total b)%Q)
            (spend_category_stats (compute_analytics strftime_Ym transactions)))
    as [Hcc Hsc].
  { destruct transactions as [|t l]; [split; constructor|].
    unfold compute_analytics, compute_analytics_body.
    split; apply group_spending_sorted. }
  split_and!; [done|done|by apply Hhead|by apply Hhead].
Qed.

Lemma group_lists_ascend_by_expense_total_witness :
  (expense_total
     {| group_id := Some 1%Z; group_name := Some (lit "Food");
        total := - (15 # 2); expense_total := - (25 # 2);
        income_total := 5; transaction_count := 3 |}
   <= expense_total
        {| group_id := Some 2%Z; group_name := Some (lit "Payroll");
           total := 7; expense_total := 0;
           income_total := 7; transaction_count := 1 |})%Q.
Proof.
  refine (proj1 (proj2 (proj2
            (group_lists_ascend_by_expense_total simple_strftime_Ym sample_txns)))
            _ _ _ _).
  - vm_compute. reflexivity.
  - vm_compute. apply list_elem_of_further, list_elem_of_here.
Defined.

(** ** Grouping *)

(** A fold of keyed updates, read at one key: only the items of that key
    matter, and they act in input order. *)
Section grouped_fold.
Context {D K V X : Type} `{EqDecision K}.
Variables (get : D → K → option V) (upd : D → X → D).
Variables (key : X → K) (step : X → V → V) (dflt : V).
Hypothesis get_upd : ∀ d x k,
  get (upd d x) k
  = if decide (key x = k) then Some (step x (default dflt (get d k)))
    else get d k.

End grouped_fold.
















(** ** Permutations of the input *)












Lemma NoDup_fmap_eq {A B} (f : A → B) (l : list A) x y :
  NoDup (f <$> l) → x ∈ l → y ∈ l → f x = f y → x = y.
Proof.
  induction l as [|z l IH]; [by intros _ ?%elem_of_nil|].
  rewrite fmap_cons, NoDup_cons, !elem_of_cons.
  intros [Hz Hnd] [->|Hx] [->|Hy] Hf; [done| | |by apply IH].
  - exfalso. apply Hz. rewrite Hf. by apply list_elem_of_fmap_2.
  - exfalso. apply Hz. rewrite <- Hf. by apply list_elem_of_fmap_2.
Qed.



Lemma names_by_id_perm items items' :
  items ≡ₚ items' → names_by_id items → names_by_id items'.
Proof.
  intros Hp Hn x y Hx Hy. apply Hn; by rewrite Hp.
Qed.








(** A transaction of amount 0 is counted and sits on the income side. *)
Example zero_amount_is_income :
  cost_center_spending (compute_analytics simple_strftime_Ym [txn_zero])
  = [{| group_id := Some 1%Z; group_name := Some (lit "Food");
        total := 0; expense_total := 0; income_total := 0;
        transaction_count := 1 |}] ∧
  amounts_of 1 (cost_center_items sample_txns) = [5%Q; (- (25 # 2))%Q; 0%Q] ∧
  filter (λ a, ¬ Qltb a 0) (amounts_of 1 (cost_center_items sample_txns))
  = [5%Q; 0%Q].
Proof. by vm_compute. Qed.

(** * Further properties *)

(** ** Currency values *)

Lemma filter_rev {A} (P : A → Prop) `{∀ x, Decision (P x)} (l : list A) :
  filter P (rev l) = rev (filter P l).
Proof.
  induction l as [|x l IH]; [done|]. cbn [rev].
  rewrite filter_app, IH. destruct (decide (P x)).
  - rewrite (filter_cons_True P x l) by done.
    by rewrite (filter_cons_True P x []) by done.
  - rewrite (filter_cons_False P x l) by done.
    rewrite (filter_cons_False P x []) by done. by rewrite app_nil_r.
Qed.

Lemma filter_lstrip (P : char → Prop) `{∀ x, Decision (P x)} (s : pystr) :
  (∀ c, P c → PyStr.isspace c = false) →
  filter P (PyStr.lstrip s) = filter P s.
Proof.
  intros HP. induction s as [|c s IH]; [done|]. cbn [PyStr.lstrip].
  destruct (PyStr.isspace c) eqn:Hc; [|done].
  rewrite IH. rewrite filter_cons_False; [done|].
  intros Hp. apply HP in Hp. congruence.
Qed.

(** Trimming removes whitespace only. *)
Lemma filter_strip (P : char → Prop) `{∀ x, Decision (P x)} (s : pystr) :
  (∀ c, P c → PyStr.isspace c = false) →
  filter P (PyStr.strip s) = filter P s.
Proof.
  intros HP. unfold PyStr.strip, PyStr.rstrip.
  rewrite filter_rev, filter_lstrip, filter_rev, rev_involutive by done.
  by apply filter_lstrip.
Qed.

Lemma currency_noise_space c :
  negb (currency_noise c) → PyStr.isspace c = false.
Proof.
  unfold currency_noise. destruct (PyStr.isspace c); [|done].
  rewrite !orb_true_r. by intros [].
Qed.

Lemma strip_nil_filter (P : char → Prop) `{∀ x, Decision (P x)} (s : pystr) :
  (∀ c, P c → PyStr.isspace c = false) →
  PyStr.strip s = [] → filter P s = [].
Proof. intros HP Hs. by rewrite <- (filter_strip P s HP), Hs. Qed.

(** X1. [clean_currency_string] reads the number from the characters of the
    value that are not [$], comma or whitespace, wherever those stand: with
    none left the value is reported as empty, otherwise it is what [float]
    makes of them, or is reported as invalid when [float] rejects them. Two
    values with the same remaining characters are read alike. *)
Theorem clean_currency_string_reads_what_remains
    (py_float : pystr → option Q) (value : pystr) (row_num : option nat) :
  clean_currency_string py_float value row_num
  = match filter (λ c, negb (currency_noise c)) value with
    | [] => Err (EmptyCurrency (row_prefix row_num) value)
    | cleaned =>
        match py_float cleaned with
        | Some x => Ok x
        | None => Err (InvalidCurrency (row_prefix row_num) value)
        end
    end ∧
  ∀ value' x,
    filter (λ c, negb (currency_noise c)) value
    = filter (λ c, negb (currency_noise c)) value' →
    (clean_currency_string py_float value row_num = Ok x
     ↔ clean_currency_string py_float value' row_num = Ok x).
Proof.
  assert (∀ v, clean_currency_string py_float v row_num
               = match filter (λ c, negb (currency_noise c)) v with
                 | [] => Err (EmptyCurrency (row_prefix row_num) v)
                 | cleaned =>
                     match py_float cleaned with
                     | Some x => Ok x
                     | None => Err (InvalidCurrency (row_prefix row_num) v)
                     end
                 end) as Hspec.
  { intros v. unfold clean_currency_string.
    rewrite (filter_strip _ v currency_noise_space).
    destruct v as [|c v]; [done|]. cbn [PyStr.truthy negb orb].
    case_bool_decide as Hs.
    - by rewrite (strip_nil_filter _ _ currency_noise_space Hs).
    - by destruct (filter _ (c :: v)). }
  split; [apply Hspec|]. intros value' x Heq. rewrite !Hspec, Heq.
  destruct (filter _ value') as [|c cs]; [done|]. by destruct (py_float (c :: cs)).
Qed.

Example clean_currency_string_formats :
  clean_currency_string decimal_float (lit " $1,040.10 ") (Some 7) = Ok (104010 # 100) ∧
  clean_currency_string decimal_float (lit "1040.10") None = Ok (104010 # 100) ∧
  clean_currency_string decimal_float (lit "$ ,") (Some 7)
  = Err (EmptyCurrency (Some 7) (lit "$ ,")) ∧
  clean_currency_string decimal_float (lit "12a") (Some 0)
  = Err (InvalidCurrency None (lit "12a")).
Proof. by vm_compute. Qed.

(** ** Resolved headers *)

Lemma mapM_result_Ok {E A B} (f : A → result E B) (l : list A) (k : list B) :
  mapM f l = Ok k ↔ Forall2 (λ x y, f x = Ok y) l k.
Proof.
  revert k. induction l as [|x l IH]; intros k.
  - cbn. split.
    + intros [= <-]. constructor.
    + intros Hk. by inv Hk.
  - cbn. split.
    + destruct (f x) as [y|e] eqn:Hx; cbn; [|done].
      destruct (mapM f l) as [k'|e] eqn:Hl; cbn; [|done].
      intros [= <-]. constructor; [done|]. by apply IH.
    + intros Hk. inv Hk. match goal with H : f x = _ |- _ => rewrite H end. cbn.
      match goal with H : Forall2 _ l _ |- _ => apply IH in H; rewrite H end.
      done.
Qed.

Lemma foldl_dict_set_get {K V} `{EqDecision K}
    (d : pydict K V) (items : list (K * V)) k v :
  dict_get (foldl (λ d kv, dict_set d kv.1 kv.2) d items) k = Some v →
  dict_get d k = Some v ∨ (k, v) ∈ items.
Proof.
  revert d. induction items as [|[k0 v0] items IH]; intros d; cbn [foldl].
  - by left.
  - intros [Hd|Hin]%IH; [|right; by right].
    cbn [fst snd] in Hd. rewrite dict_get_set in Hd.
    destruct (decide (k0 = k)) as [->|]; [|by left].
    injection Hd as ->. right. left.
Qed.

(** A value read from a comprehension is one of the values written. *)
Lemma dict_of_items_get {K V} `{EqDecision K} (items : list (K * V)) k v :
  dict_get (dict_of_items items) k = Some v → (k, v) ∈ items.
Proof. intros [H|H]%foldl_dict_set_get; [done|done]. Qed.

Lemma by_clean_header_get (hs : list pystr) k h :
  dict_get (by_clean_header hs) k = Some h → h ∈ hs ∧ clean_header h = k.
Proof.
  intros (h' & [= -> ->] & Hin)%dict_of_items_get%list_elem_of_fmap. done.
Qed.

Lemma filter_nil_Forall {A} (P : A → Prop) `{∀ x, Decision (P x)} (l : list A) :
  filter P l = [] ↔ Forall (λ x, ¬ P x) l.
Proof.
  induction l as [|x l IH]; [by split; [constructor|]|].
  destruct (decide (P x)).
  - rewrite filter_cons_True by done. split; [done|]. intros Hf. by inv Hf.
  - rewrite filter_cons_False by done. rewrite IH. split.
    + by constructor.
    + intros Hf. by inv Hf.
Qed.

(** X2. When the file has a header record, [_parse_headers] succeeds exactly
    when every expected display name matches a found header, and then it
    maps every logical name, in the order of the expected map, to a trimmed
    header of the file that is equal to the display name after
    [clean_header]. *)
Theorem parse_headers_resolves_every_name
    (fieldnames : list pystr) (expected : pydict pystr pystr) (name : pystr) :
  fieldnames ≠ [] →
  NoDup (dict_keys expected) →
  NoDup (clean_header <$> dict_values expected) →
  Forall (λ d, clean_header d ≠ []) (dict_values expected) →
  (missing_headers (dict_values expected) (PyStr.strip <$> fieldnames) = []
   ↔ ∃ headers, _parse_headers (Some fieldnames) expected name = Ok headers) ∧
  ∀ headers,
    _parse_headers (Some fieldnames) expected name = Ok headers →
    dict_keys headers = dict_keys expected ∧
    ∀ key display, (key, display) ∈ expected →
      ∃ h, dict_get headers key = Some h ∧
           h ∈ PyStr.strip <$> fieldnames ∧
           clean_header h = clean_header display.
Proof.
  intros Hf Hkeys Hnd Hne.
  set (found := PyStr.strip <$> fieldnames).
  set (lookup := λ item : pystr * pystr,
         match dict_get (by_clean_header found) (clean_header item.2) with
         | Some h => Ok (E:=parse_exn) (item.1, h)
         | None => Err (HeaderKeyError (clean_header item.2))
         end).
  assert (_parse_headers (Some fieldnames) expected name
          = match missing_headers (dict_values expected) found with
            | [] => items ← mapM lookup expected; Ok (dict_of_items items)
            | missing => Err (HeaderMismatch name missing found)
            end) as Hparse.
  { unfold _parse_headers. destruct fieldnames as [|f fs]; [done|].
    rewrite validate_headers_spec by done. fold found.
    by destruct (missing_headers _ _). }
  assert (∀ items, mapM lookup expected = Ok items →
            items.*1 = expected.*1 ∧
            ∀ key display, (key, display) ∈ expected →
              ∃ h, (key, h) ∈ items ∧ h ∈ found ∧
                   clean_header h = clean_header display) as Hitems.
  { intros items Hm%mapM_result_Ok. clear Hparse Hkeys Hnd Hne.
    induction Hm as [|[key display] [key' h] expected' items' Hx Hm IH].
    - split; [done|]. intros ?? Hin. by apply elem_of_nil in Hin.
    - unfold lookup in Hx. cbn [fst snd] in Hx.
      destruct (dict_get _ _) as [h'|] eqn:Hg; [|done]. injection Hx as <- <-.
      apply by_clean_header_get in Hg as [Hin Hc]. destruct IH as [IHk IHv].
      split; [cbn; by rewrite IHk|].
      intros k d [[= -> ->]|Hkd]%elem_of_cons.
      + exists h'. split_and!; [left|done|done].
      + destruct (IHv k d Hkd) as (h & ? & ? & ?). exists h.
        split_and!; [by right|done|done]. }
  split.
  - rewrite Hparse. split.
    + intros Hm. rewrite Hm.
      assert (∃ items, mapM lookup expected = Ok items) as [items Hi].
      { apply filter_nil_Forall in Hm. clear Hparse Hitems Hkeys Hnd Hne.
        unfold dict_values in Hm. induction expected as [|[key display] ex IH].
        - by exists [].
        - rewrite fmap_cons in Hm. apply Forall_cons in Hm as [Hd Hm].
          destruct (IH Hm) as [items Hi]. cbn [snd] in Hd.
          apply dec_stable in Hd. fold found in Hd.
          apply dict_in_by_clean_header in Hd. unfold dict_in in Hd.
          destruct (dict_get (by_clean_header found) (clean_header display))
            as [h|] eqn:Hg; [|done].
          exists ((key, h) :: items). apply mapM_result_Ok.
          constructor; [|by apply mapM_result_Ok].
          unfold lookup. cbn [fst snd]. by rewrite Hg. }
      rewrite Hi. cbn. eauto.
    + intros [headers Hh]. by destruct (missing_headers _ _).
  - intros headers Hh. rewrite Hparse in Hh.
    destruct (missing_headers _ _); [|done].
    apply bind_Ok in Hh as (items & Hi & [= <-]).
    destruct (Hitems items Hi) as [Hk Hv].
    rewrite dict_of_items_NoDup by (by rewrite Hk).
    split; [done|]. intros key display Hin.
    destruct (Hv key display Hin) as (h & Hkh & Hfound & Hc). exists h.
    split_and!; [|done..]. apply dict_get_NoDup; [|done].
    unfold dict_keys. by rewrite Hk.
Qed.

Lemma parse_headers_resolves_every_name_witness :
  ∃ h, dict_get
         [(lit "date", lit "Trans.  Date"); (lit "description", lit "Description");
          (lit "amount", lit "Amount"); (lit "category", lit "Category")]
         (lit "date") = Some h ∧
       h ∈ PyStr.strip <$> [lit "Trans.  Date"; lit "Description";
                            lit "Category"; lit "Amount "] ∧
       clean_header h = clean_header (lit "Trans. Date").
Proof.
  refine (proj2 (proj2 (parse_headers_resolves_every_name
            [lit "Trans.  Date"; lit "Description"; lit "Category"; lit "Amount "]
            discover_headers (lit "Discover") _ _ _ _) _ _)
            (lit "date") (lit "Trans. Date") _).
  - discriminate.
  - apply (bool_decide_unpack _). vm_compute. exact I.
  - apply (bool_decide_unpack _). vm_compute. exact I.
  - apply (bool_decide_unpack _). vm_compute. exact I.
  - vm_compute. reflexivity.
  - vm_compute. apply list_elem_of_here.
Defined.

(** ** Headers with surrounding whitespace *)

Lemma parse_headers_Ok_lookup fieldnames expected name headers key h :
  _parse_headers (Some fieldnames) expected name = Ok headers →
  dict_get headers key = Some h →
  ∃ display, (key, display) ∈ expected ∧
             h ∈ PyStr.strip <$> fieldnames ∧
             clean_header h = clean_header display.
Proof.
  unfold _parse_headers. destruct fieldnames as [|f fs]; [done|].
  intros Hp Hg. apply bind_Ok in Hp as (? & _ & Hp).
  apply bind_Ok in Hp as (items & Hi & [= <-]).
  apply dict_of_items_get in Hg. apply mapM_result_Ok in Hi.
  induction Hi as [|[k d] [k' h'] ex items Hx Hi IH].
  - by apply elem_of_nil in Hg.
  - cbn [fst snd] in Hx. destruct (dict_get _ _) as [h0|] eqn:Hh0; [|done].
    injection Hx as <- <-. apply elem_of_cons in Hg as [[= -> ->]|Hg].
    + apply by_clean_header_get in Hh0 as [Hin Hc]. exists d.
      split_and!; [left|done|done].
    + destruct (IH Hg) as (d' & ? & ? & ?). exists d'. split_and!; [by right|done..].
Qed.

Lemma clean_header_strip (h : pystr) :
  clean_header (PyStr.strip h) = clean_header h.
Proof.
  rewrite !clean_header_filter. apply filter_strip. tauto.
Qed.

(** A record read by [csv.DictReader] has no key besides the field names. *)
Lemma dict_reader_row_keys (fieldnames cells : list pystr) k v :
  dict_get (dict_reader_row fieldnames cells) k = Some v → k ∈ fieldnames.
Proof.
  unfold dict_reader_row.
  assert (∀ (keys : list pystr) (d : csv_row),
            dict_get (foldl (λ d key, dict_set d key None) d keys) k = Some v →
            dict_get d k = Some v ∨ k ∈ keys) as Hpad.
  { induction keys as [|key keys IH]; intros d; cbn [foldl]; [by left|].
    intros [Hd|Hk]%IH; [|right; by right].
    rewrite dict_get_set in Hd. destruct (decide (key = k)) as [->|]; [|by left].
    right. left. }
  intros [Hz|Hd]%Hpad.
  - apply dict_of_items_get in Hz. by apply elem_of_zip_l in Hz.
  - by eapply subseteq_drop.
Qed.

Lemma reader_rows_keys fieldnames records row k v :
  row ∈ reader_rows (fieldnames :: records) →
  dict_get row k = Some v → k ∈ fieldnames.
Proof.
  cbn [reader_rows]. intros (cells & -> & _)%list_elem_of_fmap.
  apply dict_reader_row_keys.
Qed.

Lemma rejected_all body (e : row_exn) n rows :
  (∀ m row, row ∈ rows → body m row = Err e) →
  rejected (row_outcomes body n rows)
  = imap (λ i _, {| err_row := n + i; err_exn := e |}) rows.
Proof.
  revert n. induction rows as [|row rows IH]; intros n Hall; [done|].
  cbn [row_outcomes]. unfold rejected. cbn [omap list_omap fst snd].
  rewrite (Hall n row) by left. cbn [option_bind imap].
  rewrite Nat.add_0_r. f_equal. unfold rejected in IH. rewrite IH.
  - apply imap_ext. intros i x _. cbn. f_equal. lia.
  - intros m r Hr. apply Hall. by right.
Qed.

Lemma load_all_rejected expected name body (file : csv_file) headers e :
  _parse_headers (reader_fieldnames file) expected name = Ok headers →
  (∀ m row, row ∈ reader_rows file → body headers m row = Err e) →
  reader_rows file ≠ [] →
  load expected name body file
  = Err (CsvValidationFailed (length (reader_rows file))
           (take 20 (imap (λ i _, {| err_row := 2 + i; err_exn := e |})
                       (reader_rows file)))).
Proof.
  intros Hh Hall Hne. rewrite (load_spec _ _ _ _ _ Hh).
  rewrite (rejected_all _ e) by done.
  destruct (reader_rows file) as [|r rs] eqn:Hr; [done|].
  rewrite <- Hr. cbn [imap]. rewrite Hr. cbn [imap length].
  by rewrite length_imap.
Qed.

Lemma padded_header_not_a_key fieldnames expected name headers key display k :
  _parse_headers (Some fieldnames) expected name = Ok headers →
  (∀ d, (key, d) ∈ expected → d = display) →
  (∀ f, f ∈ fieldnames → clean_header f = clean_header display →
        PyStr.strip f ≠ f) →
  dict_get headers key = Some k →
  k ∉ fieldnames.
Proof.
  intros Hp Hkey Hpad Hk Hin.
  destruct (parse_headers_Ok_lookup _ _ _ _ _ _ Hp Hk) as (d & Hd & Hf & Hc).
  rewrite (Hkey d Hd) in Hc.
  apply list_elem_of_fmap in Hf as (f & -> & Hf).
  apply (Hpad (PyStr.strip f)); [done|done|apply strip_idemp].
Qed.

Lemma parse_headers_Ok_has_key fieldnames expected name headers key :
  _parse_headers (Some fieldnames) expected name = Ok headers →
  key ∈ dict_keys expected →
  ∃ h, dict_get headers key = Some h.
Proof.
  unfold _parse_headers. destruct fieldnames as [|f fs]; [done|].
  intros Hp Hkey. apply bind_Ok in Hp as (? & _ & Hp).
  apply bind_Ok in Hp as (items & Hi & [= <-]).
  assert (items.*1 = expected.*1) as Hk.
  { apply mapM_result_Ok in Hi. clear Hkey.
    induction Hi as [|[k d] [k' h'] ex its Hx Hi IH]; [done|].
    cbn [fst snd] in Hx. destruct (dict_get _ _); [|done].
    injection Hx as <- <-. cbn. by rewrite IH. }
  unfold dict_keys in Hkey. rewrite <- Hk in Hkey.
  apply dict_in_of_items in Hkey. unfold dict_in in Hkey.
  destruct (dict_get (dict_of_items items) key) as [h|]; [eauto|done].
Qed.

Lemma date_key_error (headers : pydict pystr pystr) (row : csv_row) k :
  dict_get headers (lit "date") = Some k →
  dict_get row k = None →
  cell headers row "date" = Err (KeyError k).
Proof. intros Hh Hr. unfold cell, getitem. rewrite Hh. cbn. by rewrite Hr. Qed.

Lemma load_padded_date expected name body fieldnames records display :
  (∀ headers n row e, cell headers row "date" = Err e → body headers n row = Err e) →
  lit "date" ∈ dict_keys expected →
  (∀ d, (lit "date", d) ∈ expected → d = display) →
  filter (λ r : list pystr, r ≠ []) records ≠ [] →
  ∀ headers,
    _parse_headers (Some fieldnames) expected name = Ok headers →
    (∀ f, f ∈ fieldnames → clean_header f = clean_header display →
          PyStr.strip f ≠ f) →
    ∃ k, dict_get headers (lit "date") = Some k ∧
         load expected name body (fieldnames :: records)
         = Err (CsvValidationFailed
                  (length (filter (λ r : list pystr, r ≠ []) records))
                  (take 20 (imap (λ i _, {| err_row := 2 + i;
                                            err_exn := KeyError k |})
                              (filter (λ r : list pystr, r ≠ []) records)))).
Proof.
  intros Hbody Hkey Hdisp Hrows headers Hp Hpad.
  destruct (parse_headers_Ok_has_key _ _ _ _ _ Hp Hkey) as [k Hk].
  exists k. split; [done|].
  pose proof (padded_header_not_a_key _ _ _ _ _ _ _ Hp Hdisp Hpad Hk) as Hnot.
  rewrite (load_all_rejected expected name body (fieldnames :: records)
             headers (KeyError k)).
  - cbn [reader_rows]. by rewrite length_fmap, imap_fmap.
  - done.
  - intros m row Hrow. apply Hbody, date_key_error; [done|].
    destruct (dict_get row k) as [v|] eqn:Hv; [|done].
    exfalso. apply Hnot. by eapply reader_rows_keys.
  - cbn [reader_rows]. by destruct (filter _ records).
Qed.

(** X3. The rows are keyed by the header text as written in the file, while
    the resolved headers are trimmed. So when every header of the file that
    matches the date column carries leading or trailing whitespace, the
    header check passes and then every data row is rejected with a
    [KeyError] for the trimmed header: the parser fails with one such error
    per non-empty record, numbered from 2. This holds for all three
    parsers. *)
Theorem padded_date_header_rejects_every_row
    (py_float : pystr → option Q) (strptime : pystr → pystr → option date)
    (fieldnames : list pystr) (records : list (list pystr))
    (headers : pydict pystr pystr) :
  filter (λ r : list pystr, r ≠ []) records ≠ [] →
  let all_key_errors k :=
    Err (E:=parse_exn) (A:=list TxnData)
      (CsvValidationFailed
         (length (filter (λ r : list pystr, r ≠ []) records))
         (take 20 (imap (λ i _, {| err_row := 2 + i; err_exn := KeyError k |})
                     (filter (λ r : list pystr, r ≠ []) records)))) in
  (_parse_headers (Some fieldnames) discover_headers (lit "Discover") = Ok headers →
   (∀ f, f ∈ fieldnames → clean_header f = clean_header (lit "Trans. Date") →
         PyStr.strip f ≠ f) →
   ∃ k, dict_get headers (lit "date") = Some k ∧
        load_discover_csv py_float strptime (fieldnames :: records)
        = all_key_errors k) ∧
  (_parse_headers (Some fieldnames) schwab_headers (lit "Schwab Checking") = Ok headers →
   (∀ f, f ∈ fieldnames → clean_header f = clean_header (lit "Date") →
         PyStr.strip f ≠ f) →
   ∃ k, dict_get headers (lit "date") = Some k ∧
        load_schwab_csv py_float strptime (fieldnames :: records)
        = all_key_errors k) ∧
  (_parse_headers (Some fieldnames) cashcanvas_headers (lit "CashCanvas Export") = Ok headers →
   (∀ f, f ∈ fieldnames → clean_header f = clean_header (lit "Date") →
         PyStr.strip f ≠ f) →
   ∃ k, dict_get headers (lit "date") = Some k ∧
        load_cashcanvas_csv py_float strptime (fieldnames :: records)
        = all_key_errors k).
Proof.
  intros Hrows all_key_errors. unfold all_key_errors.
  assert (∀ (expected : pydict pystr pystr) display,
            (lit "date", display) ∈ expected →
            NoDup (dict_keys expected) →
            lit "date" ∈ dict_keys expected ∧
            ∀ d, (lit "date", d) ∈ expected → d = display) as Hdate.
  { intros expected display Hin Hnd. split.
    - by apply (list_elem_of_fmap_2 fst) in Hin.
    - intros d Hd. apply (dict_get_NoDup _ _ _ Hnd) in Hin, Hd. congruence. }
  split_and!; intros Hp Hpad.
  - destruct (Hdate discover_headers (lit "Trans. Date")) as [Hk Hd];
      [vm_compute; apply list_elem_of_here
      |apply (bool_decide_unpack _); vm_compute; exact I|].
    apply (load_padded_date discover_headers (lit "Discover")
             (discover_row py_float strptime) fieldnames records
             (lit "Trans. Date")); try done.
    intros h n row e He. unfold discover_row. by rewrite He.
  - destruct (Hdate schwab_headers (lit "Date")) as [Hk Hd];
      [vm_compute; apply list_elem_of_here
      |apply (bool_decide_unpack _); vm_compute; exact I|].
    apply (load_padded_date schwab_headers (lit "Schwab Checking")
             (schwab_row py_float strptime) fieldnames records
             (lit "Date")); try done.
    intros h n row e He. unfold schwab_row. by rewrite He.
  - destruct (Hdate cashcanvas_headers (lit "Date")) as [Hk Hd];
      [vm_compute; apply list_elem_of_here
      |apply (bool_decide_unpack _); vm_compute; exact I|].
    apply (load_padded_date cashcanvas_headers (lit "CashCanvas Export")
             (cashcanvas_row py_float strptime) fieldnames records
             (lit "Date")); try done.
    intros h n row e He. unfold cashcanvas_row. by rewrite He.
Qed.

Lemma padded_date_header_rejects_every_row_witness :
  ∃ k, dict_get
         [(lit "date", lit "Trans. Date"); (lit "description", lit "Description");
          (lit "amount", lit "Amount"); (lit "category", lit "Category")]
         (lit "date") = Some k ∧
       load_discover_csv decimal_float simple_strptime
         ([lit " Trans. Date"; lit "Description"; lit "Amount"; lit "Category"]
          :: [[lit "01/02/2024"; lit "Grocer"; lit "12.50"; lit "Supermarkets"];
              [];
              [lit "01/03/2024"; lit "Cafe"; lit "3.00"; lit "Restaurants"]])
       = Err (CsvValidationFailed 2
                [{| err_row := 2; err_exn := KeyError k |};
                 {| err_row := 3; err_exn := KeyError k |}]).
Proof.
  refine (proj1 (padded_date_header_rejects_every_row decimal_float simple_strptime
            [lit " Trans. Date"; lit "Description"; lit "Amount"; lit "Category"]
            [[lit "01/02/2024"; lit "Grocer"; lit "12.50"; lit "Supermarkets"];
             [];
             [lit "01/03/2024"; lit "Cafe"; lit "3.00"; lit "Restaurants"]]
            _ _) _ _).
  - vm_compute. discriminate.
  - vm_compute. reflexivity.
  - intros f Hf Hc.
    repeat match goal with
           | H : _ ∈ _ :: _ |- _ => apply elem_of_cons in H as [->|H]
           | H : _ ∈ [] |- _ => by apply elem_of_nil in H
           end; vm_compute in Hc; try discriminate Hc.
    vm_compute. discriminate.
Defined.

(** ** Successful parses *)

Lemma accepted_all body n rows :
  rejected (row_outcomes body n rows) = [] →
  length (accepted (row_outcomes body n rows)) = length rows ∧
  ∀ i row, rows !! i = Some row →
    ∃ t, accepted (row_outcomes body n rows) !! i = Some t ∧
         body (n + i) row = Ok t.
Proof.
  revert n. induction rows as [|row rows IH]; intros n.
  - intros _. split; [done|]. intros i row Hi. by rewrite lookup_nil in Hi.
  - cbn [row_outcomes]. unfold rejected, accepted.
    cbn [omap list_omap fst snd]. destruct (body n row) as [t|e] eqn:Hb;
      cbn [option_bind]; [|done].
    intros Hrej. destruct (IH (S n) Hrej) as [Hlen Hall]. split.
    + cbn [length]. unfold accepted in Hlen. by rewrite Hlen.
    + intros [|i] r Hi.
      * injection Hi as <-. exists t. by rewrite Nat.add_0_r.
      * destruct (Hall i r Hi) as (t' & Ht' & Hb'). exists t'.
        split; [done|]. by rewrite Nat.add_succ_r.
Qed.

(** X4. A parser that returns has accepted every row: the result holds
    exactly one transaction per non-empty data record, in file order, the
    one that the row body yields for that record under its row number
    (2 for the first). Empty records are skipped and do not take a row
    number. *)
Theorem load_returns_every_row
    (expected : pydict pystr pystr) (name : pystr)
    (body : pydict pystr pystr → nat → csv_row → result row_exn TxnData)
    (file : csv_file) (txns : list TxnData) :
  load expected name body file = Ok txns →
  ∃ headers,
    _parse_headers (reader_fieldnames file) expected name = Ok headers ∧
    length txns = length (filter (λ r : list pystr, r ≠ []) (tail file)) ∧
    ∀ i row, reader_rows file !! i = Some row →
      ∃ t, txns !! i = Some t ∧ body headers (2 + i) row = Ok t.
Proof.
  intros Hload. pose proof Hload as Hl. unfold load in Hl.
  apply bind_Ok in Hl as (headers & Hh & _). exists headers.
  split; [done|]. rewrite (load_spec _ _ _ _ _ Hh) in Hload.
  destruct (rejected _) as [|e es] eqn:Hrej; [|done]. injection Hload as <-.
  destruct (accepted_all _ _ _ Hrej) as [Hlen Hall]. split; [|done].
  rewrite Hlen. destruct file as [|fieldnames records]; [done|].
  cbn [reader_rows tail]. by rewrite length_fmap.
Qed.

Lemma load_returns_every_row_witness :
  ∃ headers,
    _parse_headers (reader_fieldnames schwab_valid) schwab_headers
      (lit "Schwab Checking") = Ok headers ∧
    length schwab_valid_txns
    = length (filter (λ r : list pystr, r ≠ []) (tail schwab_valid)) ∧
    ∀ i row, reader_rows schwab_valid !! i = Some row →
      ∃ t, schwab_valid_txns !! i = Some t ∧
           schwab_row decimal_float simple_strptime headers (2 + i) row = Ok t.
Proof.
  apply (load_returns_every_row schwab_headers (lit "Schwab Checking")
           (schwab_row decimal_float simple_strptime) schwab_valid
           schwab_valid_txns).
  vm_compute. reflexivity.
Defined.

(** ** Institution tags *)








Example parse_csv_tags :
  parse_csv decimal_float simple_strptime schwab_valid (lit "  Schwab CHECKING ")
  = Ok schwab_valid_txns ∧
  parse_csv decimal_float simple_strptime schwab_valid (lit "SCHWAB")
  = Ok schwab_valid_txns.
Proof. by vm_compute. Qed.

(** ** Validation by [TransactionCreate] *)

Lemma blank_false (s : pystr) : blank (Some s) = false ↔ PyStr.strip s ≠ [].
Proof.
  unfold blank. destruct s as [|c s]; [by split|]. cbn [PyStr.truthy negb orb].
  destruct (PyStr.strip (c :: s)); by split.
Qed.

(** A non-blank text field with a maximal length: the trimmed text is kept
    when it is short enough. *)
Lemma text_field_Ok (max_length : nat) (s : pystr) (r : pystr) :
  1 ≤ max_length →
  (s' ← strip_and_validate (Some s); check_length 1 max_length s') = Ok r
  ↔ PyStr.strip s ≠ [] ∧ length (PyStr.strip s) ≤ max_length ∧ r = PyStr.strip s.
Proof.
  intros Hmax. unfold strip_and_validate.
  destruct (blank (Some s)) eqn:Hb.
  - split; [done|]. intros [Hne _]. apply blank_false in Hne. congruence.
  - apply blank_false in Hb. cbn. unfold check_length.
    destruct (PyStr.strip s) as [|c t] eqn:Hs; [done|]. cbn [length].
    destruct (Nat.ltb_spec (S (length t)) 1); [lia|].
    destruct (Nat.ltb_spec max_length (S (length t))).
    + split; [done|]. intros (_ & ? & _). lia.
    + split; [by intros [= <-]|]. by intros (_ & _ & ->).
Qed.

Lemma notes_field_Ok (v : option pystr) (r : option pystr) :
  match strip_notes v with
  | None => Ok None
  | Some s => s' ← check_length 0 200 s; Ok (E:=field_msg) (Some s')
  end = Ok r
  ↔ r = strip_notes v ∧ ∀ n, strip_notes v = Some n → length n ≤ 200.
Proof.
  destruct (strip_notes v) as [n|].
  - unfold check_length.
    assert ((length n <? 0) = false) as -> by (apply Nat.ltb_ge; lia).
    destruct (Nat.ltb_spec 200 (length n)); cbn.
    + split; [done|]. intros [_ Hn]. specialize (Hn n eq_refl). lia.
    + split.
      * intros [= <-]. split; [done|]. by intros ? [= <-].
      * by intros [-> _].
  - split; [intros [= <-]; by split|]. by intros [-> _].
Qed.

Lemma TransactionCreate_Ok_inv (d : TxnData) (m : TransactionCreateModel) :
  TransactionCreate d = Ok m →
  PyStr.strip (txn_description d) ≠ [] ∧
  length (PyStr.strip (txn_description d)) ≤ 200 ∧
  PyStr.strip (txn_account d) ≠ [] ∧
  length (PyStr.strip (txn_account d)) ≤ 50 ∧
  (∀ n, strip_notes (txn_notes d) = Some n → length n ≤ 200) ∧
  m = {| tc_date := txn_date d;
         tc_description := PyStr.strip (txn_description d);
         tc_amount := txn_amount d;
         tc_account := PyStr.strip (txn_account d);
         tc_notes := strip_notes (txn_notes d);
         tc_cost_center_name := default_cost_center (txn_cost_center_name d);
         tc_spend_category_names :=
           default_spend_categories (Some (txn_spend_category_names d)) |}.
Proof.
  unfold TransactionCreate.
  assert (1 ≤ 200) as H200 by lia. assert (1 ≤ 50) as H50 by lia.
  intros H.
  destruct (s ← strip_and_validate (Some (txn_description d));
            check_length 1 200 s) as [de|] eqn:Ede; [|done].
  destruct (s ← strip_and_validate (Some (txn_account d));
            check_length 1 50 s) as [ac|] eqn:Eac; [|done].
  destruct (match strip_notes (txn_notes d) with
            | Some s => s' ← check_length 0 200 s; Ok (Some s')
            | None => Ok None
            end) as [no|] eqn:Eno; [|done].
  injection H as <-.
  apply (text_field_Ok 200 _ _ H200) in Ede as (Hd1 & Hd2 & ->).
  apply (text_field_Ok 50 _ _ H50) in Eac as (Ha1 & Ha2 & ->).
  apply notes_field_Ok in Eno as [-> Hn]. done.
Qed.

(** X6. [TransactionCreate] accepts exactly the data whose description and
    account are not blank and, once trimmed, have at most 200 and 50
    characters, and whose trimmed notes (if not blank) have at most 200. The
    model then holds the date and the amount as given, the trimmed
    description and account, the trimmed notes or none when they are blank,
    and the defaulted cost-center and spend-category names. *)
Theorem TransactionCreate_accepts_iff (d : TxnData) (m : TransactionCreateModel) :
  TransactionCreate d = Ok m
  ↔ PyStr.strip (txn_description d) ≠ [] ∧
    length (PyStr.strip (txn_description d)) ≤ 200 ∧
    PyStr.strip (txn_account d) ≠ [] ∧
    length (PyStr.strip (txn_account d)) ≤ 50 ∧
    (∀ n, strip_notes (txn_notes d) = Some n → length n ≤ 200) ∧
    m = {| tc_date := txn_date d;
           tc_description := PyStr.strip (txn_description d);
           tc_amount := txn_amount d;
           tc_account := PyStr.strip (txn_account d);
           tc_notes := strip_notes (txn_notes d);
           tc_cost_center_name := default_cost_center (txn_cost_center_name d);
           tc_spend_category_names :=
             default_spend_categories (Some (txn_spend_category_names d)) |}.
Proof.
  split; [apply TransactionCreate_Ok_inv|].
  unfold TransactionCreate.
  assert (1 ≤ 200) as H200 by lia. assert (1 ≤ 50) as H50 by lia.
  intros (Hd1 & Hd2 & Ha1 & Ha2 & Hn & ->).
  rewrite (proj2 (text_field_Ok 200 _ _ H200) (conj Hd1 (conj Hd2 eq_refl))).
  rewrite (proj2 (text_field_Ok 50 _ _ H50) (conj Ha1 (conj Ha2 eq_refl))).
  by rewrite (proj2 (notes_field_Ok _ _) (conj eq_refl Hn)).
Qed.

Lemma TransactionCreate_accepts_iff_witness :
  PyStr.strip (lit " Rent ") ≠ [] ∧
  length (PyStr.strip (lit " Rent ")) ≤ 200.
Proof.
  pose proof (proj1 (TransactionCreate_accepts_iff
    {| txn_date := Date 2024 1 2; txn_description := lit " Rent ";
       txn_cost_center_name := None; txn_spend_category_names := [];
       txn_amount := - (10000 # 100); txn_account := lit "Schwab Checking";
       txn_notes := Some (lit "  ") |}
    {| tc_date := Date 2024 1 2; tc_description := lit "Rent";
       tc_amount := - (10000 # 100); tc_account := lit "Schwab Checking";
       tc_notes := None; tc_cost_center_name := lit "Uncategorized";
       tc_spend_category_names := [lit "Uncategorized"] |}) eq_refl)
    as (H1 & H2 & _).
  by split.
Defined.

(** ** What the parsers return *)

Lemma cell_Ok_stripped headers (row : csv_row) name s :
  cell headers row name = Ok s → PyStr.strip s = s.
Proof.
  unfold cell. intros H. apply bind_Ok in H as (key & _ & H).
  apply bind_Ok in H as ([cell_text|] & _ & H); cbn in H; [|done].
  injection H as <-. apply strip_idemp.
Qed.

Lemma validated_of_stripped (t : TxnData) u n0 :
  _validate_transaction_data t n0 = Ok u →
  PyStr.strip (txn_description t) = txn_description t →
  PyStr.strip (txn_account t) = txn_account t →
  (∀ n, txn_notes t = Some n → PyStr.strip n = n ∧ n ≠ []) →
  validated_as_is t ∧
  txn_description t ≠ [] ∧ length (txn_description t) ≤ 200 ∧
  txn_account t ≠ [] ∧ length (txn_account t) ≤ 50 ∧
  (∀ n, txn_notes t = Some n → length n ≤ 200).
Proof.
  intros [m Hm]%validate_transaction_data_Ok Hd Ha Hn.
  pose proof (TransactionCreate_Ok_inv _ _ Hm) as (Hd1 & Hd2 & Ha1 & Ha2 & Hn2 & ->).
  rewrite Hd in Hd1, Hd2. rewrite Ha in Ha1, Ha2.
  assert (strip_notes (txn_notes t) = txn_notes t) as Hnotes.
  { destruct (txn_notes t) as [n|] eqn:En; [|done].
    destruct (Hn n eq_refl) as [Hs Hne]. unfold strip_notes. rewrite Hs.
    by destruct n. }
  split_and!; try done.
  - exists {| tc_date := txn_date t;
              tc_description := PyStr.strip (txn_description t);
              tc_amount := txn_amount t;
              tc_account := PyStr.strip (txn_account t);
              tc_notes := strip_notes (txn_notes t);
              tc_cost_center_name := default_cost_center (txn_cost_center_name t);
              tc_spend_category_names :=
                default_spend_categories (Some (txn_spend_category_names t)) |}.
    split; [done|].
    cbn [tc_date tc_description tc_amount tc_account tc_notes].
    by rewrite Hd, Ha, Hnotes.
  - intros n En. apply Hn2. by rewrite Hnotes.
Qed.

Ltac cells_stripped :=
  repeat match goal with
         | H : cell _ _ _ = Ok _ |- _ => apply cell_Ok_stripped in H
         end.

(** X7. Every transaction that a parser returns is one that
    [TransactionCreate] accepts and leaves as it is (same date, description,
    amount, account and notes): its description and account are trimmed, not
    empty, and at most 200 and 50 characters long, and its notes, when
    present, are trimmed, not empty and at most 200 characters long. *)
Theorem parsers_return_validated_rows
    (py_float : pystr → option Q) (strptime : pystr → pystr → option date)
    (file : csv_file) (txns : list TxnData) (t : TxnData) :
  load_discover_csv py_float strptime file = Ok txns ∨
  load_schwab_csv py_float strptime file = Ok txns ∨
  load_cashcanvas_csv py_float strptime file = Ok txns →
  t ∈ txns →
  validated_as_is t ∧
  txn_description t ≠ [] ∧ PyStr.strip (txn_description t) = txn_description t ∧
  length (txn_description t) ≤ 200 ∧
  txn_account t ≠ [] ∧ PyStr.strip (txn_account t) = txn_account t ∧
  length (txn_account t) ≤ 50 ∧
  (∀ n, txn_notes t = Some n →
        n ≠ [] ∧ PyStr.strip n = n ∧ length n ≤ 200).
Proof.
  intros Hload Ht.
  assert (∃ u n0,
            _validate_transaction_data t n0 = Ok u ∧
            PyStr.strip (txn_description t) = txn_description t ∧
            PyStr.strip (txn_account t) = txn_account t ∧
            (∀ n, txn_notes t = Some n → PyStr.strip n = n ∧ n ≠ []))
    as (u & n0 & Hv & Hd & Ha & Hn).
  { destruct Hload as [Hl|[Hl|Hl]];
      destruct (load_Ok_elem _ _ _ _ _ _ Hl Ht) as (headers & n0 & row & Hrow).
    - unfold discover_row in Hrow. bind_inv Hrow. injection Hrow as <-.
      cells_stripped. eexists _, n0. split_and!; [eassumption|done|by vm_compute|done].
    - unfold schwab_row in Hrow. bind_inv Hrow. injection Hrow as <-.
      cells_stripped. eexists _, n0. split_and!; [eassumption|done|by vm_compute|done].
    - unfold cashcanvas_row in Hrow. bind_inv Hrow. injection Hrow as <-.
      match goal with
      | H : (if dict_in _ _ then _ else _) = Ok ?v |- _ =>
          assert (∀ n, v = Some n → PyStr.strip n = n ∧ n ≠ []) as Hnotes
      end.
      { match goal with
        | H : (if dict_in _ _ then _ else _) = Ok _ |- _ =>
            destruct (dict_in _ _); [|by injection H as <-];
            apply bind_Ok in H as (s & Hs & Hk)
        end.
        apply cell_Ok_stripped in Hs.
        destruct s as [|c s]; cbn in Hk; injection Hk as <-; [done|].
        by intros n [= <-]. }
      cells_stripped. eexists _, n0. split_and!; [eassumption|done..]. }
  destruct (validated_of_stripped t u n0 Hv Hd Ha Hn)
    as (H1 & H2 & H3 & H4 & H5 & H6).
  split_and!; try done.
  intros n En. destruct (Hn n En). split_and!; [done..|by apply H6].
Qed.

Lemma parsers_return_validated_rows_witness :
  txn_description schwab_salary ≠ [] ∧
  length (txn_description schwab_salary) ≤ 200.
Proof.
  destruct (parsers_return_validated_rows decimal_float simple_strptime
              schwab_valid schwab_valid_txns schwab_salary)
    as (_ & H1 & _ & H2 & _).
  - right; left. vm_compute. reflexivity.
  - apply list_elem_of_further, list_elem_of_here.
  - by split.
Defined.







(** ** The per-entity lists as a partition *)















(** ** The timeline as a running sum *)

Lemma timeline_loop_imap (l : list Transaction) (b : Q)
    (tl : list BalanceTimelinePoint) :
  (timeline_loop l b tl).2
  = tl ++ imap (λ i t, timeline_point t
                         (foldl Qplus b (t_amount <$> take (S i) l))) l.
Proof.
  revert b tl. induction l as [|t l IH]; intros b tl.
  - cbn. by rewrite app_nil_r.
  - cbn [timeline_loop]. rewrite IH, <- app_assoc. done.
Qed.

Lemma timeline_key_le_date (a b : Transaction) :
  timeline_key_ltb b a = false → date_ltb (t_date b) (t_date a) = false.
Proof.
  unfold timeline_key_ltb. destruct (decide (t_date b = t_date a)) as [->|]; [|done].
  intros _. apply not_true_iff_false. rewrite date_ltb_spec. lia.
Qed.

(** X10. [balance_timeline] shows every transaction exactly once (its date,
    description, amount and cost-center name), in an order in which dates
    never decrease, and the balance of every point is the sum of the
    amounts of the points up to and including it. *)
Theorem timeline_is_a_chronological_running_sum
    (strftime_Ym : date → pystr) (transactions : list Transaction) :
  let tl := balance_timeline (compute_analytics strftime_Ym transactions) in
  point_fields <$> tl ≡ₚ shown_fields <$> transactions ∧
  Sorted (λ d1 d2, date_ltb d2 d1 = false) (bp_date <$> tl) ∧
  (∀ i p, tl !! i = Some p →
          bp_balance p = py_sum (bp_amount <$> take (S i) tl)).
Proof.
  intros tl.
  set (sorted_txns := py_sorted timeline_key_ltb transactions).
  assert (tl = imap (λ i t, timeline_point t
                              (py_sum (t_amount <$> take (S i) sorted_txns)))
                 sorted_txns) as Htl.
  { unfold tl. rewrite compute_analytics_unfold. unfold compute_analytics_body.
    cbn [balance_timeline]. by rewrite timeline_loop_imap. }
  assert (∀ {B} (f : BalanceTimelinePoint → B) (g : Transaction → B),
            (∀ t b, f (timeline_point t b) = g t) →
            f <$> tl = g <$> sorted_txns) as Hfmap.
  { intros B f g Hfg. rewrite Htl, fmap_imap, <- imap_const.
    apply imap_ext. intros i t _. apply Hfg. }
  split_and!.
  - rewrite (Hfmap _ point_fields shown_fields) by done.
    unfold sorted_txns. by rewrite py_sorted_perm.
  - rewrite (Hfmap _ bp_date t_date) by done.
    apply (Sorted_fmap _ (λ a b, timeline_key_ltb b a = false)).
    { intros a b. apply timeline_key_le_date. }
    apply py_sorted_Sorted; [apply timeline_key_ltb_asym|done].
  - intros i p Hp. rewrite fmap_take, (Hfmap _ bp_amount t_amount) by done.
    rewrite <- fmap_take. rewrite Htl in Hp.
    apply list_lookup_imap_Some in Hp as (t & _ & ->). done.
Qed.


(** ** The monthly list as a partition *)



Section map_sums.
Context {V : Type}.
Implicit Types m : gmap pystr V.




End map_sums.








(** ** Validated names *)

Lemma first_seen_loop_spec (seen l : list pystr) :
  NoDup seen →
  let r := foldl (λ seen x, if decide (x ∈ seen) then seen else seen ++ [x])
             seen l in
  NoDup r ∧ (∀ x, x ∈ r ↔ x ∈ seen ∨ x ∈ l) ∧
  (NoDup (seen ++ l) → r = seen ++ l).
Proof.
  revert seen. induction l as [|y l IH]; intros seen Hnd.
  - cbn. split_and!; [done| |by rewrite app_nil_r].
    intros x. rewrite elem_of_nil. tauto.
  - cbn [foldl]. destruct (decide (y ∈ seen)) as [Hy|Hy].
    + destruct (IH seen Hnd) as (H1 & H2 & H3). split_and!; [done| |].
      * intros x. rewrite H2, elem_of_cons. split; [tauto|].
        intros [?|[->|?]]; tauto.
      * intros Hnd'. apply NoDup_app in Hnd' as (_ & Hd & _).
        exfalso. apply (Hd y Hy). left.
    + assert (NoDup (seen ++ [y])) as Hnd'.
      { apply NoDup_app. split_and!; [done| |apply NoDup_singleton].
        intros x Hx ->%list_elem_of_singleton. done. }
      destruct (IH (seen ++ [y]) Hnd') as (H1 & H2 & H3). split_and!; [done| |].
      * intros x. rewrite H2, elem_of_app, list_elem_of_singleton, elem_of_cons.
        tauto.
      * intros Hnd''. rewrite <- app_assoc in H3. by apply H3.
Qed.

Lemma first_seen_spec (l : list pystr) :
  NoDup (first_seen l) ∧ (∀ x, x ∈ first_seen l ↔ x ∈ l) ∧
  (NoDup l → first_seen l = l).
Proof.
  destruct (first_seen_loop_spec [] l (NoDup_nil_2)) as (H1 & H2 & H3).
  split_and!; [done| |done].
  intros x. rewrite H2, elem_of_nil. tauto.
Qed.

Lemma elem_of_trimmed_nonblank (l : list pystr) x :
  x ∈ trimmed_nonblank l ↔ x ≠ [] ∧ ∃ y, y ∈ l ∧ x = PyStr.strip y.
Proof.
  unfold trimmed_nonblank. rewrite list_elem_of_filter, list_elem_of_fmap.
  split; intros [H1 (y & H2 & H3)]; eauto.
Qed.

Lemma trimmed_nonblank_canonical (l : list pystr) :
  Forall canonical_name (trimmed_nonblank l).
Proof.
  apply Forall_forall. intros x (Hx & y & _ & ->)%elem_of_trimmed_nonblank.
  split; [done|apply strip_idemp].
Qed.

Lemma trimmed_nonblank_id (l : list pystr) :
  Forall canonical_name l → trimmed_nonblank l = l.
Proof.
  induction 1 as [|x l [Hx1 Hx2] _ IH]; [done|].
  rewrite trimmed_nonblank_cons, Hx2, IH. by destruct x.
Qed.

Lemma Uncategorized_canonical : canonical_name Uncategorized.
Proof. split; [done|]. vm_compute. reflexivity. Qed.

Lemma default_cost_center_spec (v : option pystr) :
  default_cost_center v
  = match PyStr.strip (default [] v) with
    | [] => Uncategorized
    | s => s
    end.
Proof.
  destruct v as [s|]; [|done]. unfold default_cost_center, blank.
  change (default [] (Some s)) with s.
  destruct s as [|c s]; [done|]. cbn [PyStr.truthy negb orb].
  by destruct (PyStr.strip (c :: s)).
Qed.

Lemma default_spend_categories_canonical (l : option (list pystr)) :
  default_spend_categories l ≠ [] ∧ NoDup (default_spend_categories l) ∧
  Forall canonical_name (default_spend_categories l).
Proof.
  destruct l as [l|].
  - rewrite default_spend_categories_spec.
    destruct (first_seen_spec (trimmed_nonblank l)) as (Hnd & Hin & _).
    destruct (first_seen (trimmed_nonblank l)) as [|x xs] eqn:Hfs.
    + split_and!; [done|apply NoDup_singleton|].
      apply Forall_singleton, Uncategorized_canonical.
    + split_and!; [done..|]. apply Forall_forall. intros y Hy%Hin.
      by apply (proj1 (Forall_forall _ _) (trimmed_nonblank_canonical l)).
  - split_and!; [done|apply NoDup_singleton|].
    apply Forall_singleton, Uncategorized_canonical.
Qed.

Lemma default_spend_categories_fixed (names : list pystr) :
  names ≠ [] → NoDup names → Forall canonical_name names →
  default_spend_categories (Some names) = names.
Proof.
  intros Hne Hnd Hc. rewrite default_spend_categories_spec.
  rewrite trimmed_nonblank_id by done.
  rewrite (proj2 (proj2 (first_seen_spec names))) by done. by destruct names.
Qed.

(** X12. What the validators of [TransactionCreate] return is in normal
    form. The cost-center name is never empty and is trimmed, and it is
    ["Uncategorized"] exactly when the given name is missing or blank. The
    spend-category list is never empty, holds no name twice, holds only
    trimmed non-empty names, namely the trimmed non-blank given names (or
    ["Uncategorized"] alone when there is none). Validating a validated
    value again changes nothing. *)
Theorem validated_names_are_canonical
    (v : option pystr) (l : option (list pystr)) :
  (canonical_name (default_cost_center v) ∧
   (PyStr.strip (default [] v) = [] → default_cost_center v = Uncategorized) ∧
   (PyStr.strip (default [] v) ≠ [] →
    default_cost_center v = PyStr.strip (default [] v)) ∧
   default_cost_center (Some (default_cost_center v)) = default_cost_center v) ∧
  (default_spend_categories l ≠ [] ∧
   NoDup (default_spend_categories l) ∧
   Forall canonical_name (default_spend_categories l) ∧
   (∀ x, x ∈ default_spend_categories l
         ↔ x ∈ trimmed_nonblank (default [] l) ∨
           (x = Uncategorized ∧ trimmed_nonblank (default [] l) = [])) ∧
   default_spend_categories (Some (default_spend_categories l))
   = default_spend_categories l).
Proof.
  split.
  - assert (canonical_name (default_cost_center v)) as Hc.
    { rewrite default_cost_center_spec.
      destruct (PyStr.strip (default [] v)) as [|c s] eqn:Hs;
        [apply Uncategorized_canonical|].
      split; [done|]. rewrite <- Hs. apply strip_idemp. }
    split_and!; [done| | |].
    + intros Hs. by rewrite default_cost_center_spec, Hs.
    + intros Hs. rewrite default_cost_center_spec.
      by destruct (PyStr.strip (default [] v)).
    + destruct Hc as [Hc1 Hc2].
      rewrite (default_cost_center_spec (Some _)).
      change (default [] (Some ?x)) with x.
      rewrite Hc2. by destruct (default_cost_center v).
  - destruct (default_spend_categories_canonical l) as (H1 & H2 & H3).
    split_and!; [done..| |by apply default_spend_categories_fixed].
    intros x. destruct l as [l|].
    + change (default [] (Some l)) with l. rewrite default_spend_categories_spec.
      destruct (first_seen_spec (trimmed_nonblank l)) as (_ & Hin & _).
      destruct (first_seen (trimmed_nonblank l)) as [|y ys] eqn:Hfs.
      * apply first_seen_nil_inv in Hfs. rewrite Hfs, list_elem_of_singleton.
        rewrite elem_of_nil. tauto.
      * rewrite Hin. split; [tauto|]. intros [?|[_ Hnil]]; [done|].
        exfalso. assert (y ∈ trimmed_nonblank l) as Hy by (apply Hin; left).
        rewrite Hnil in Hy. by apply elem_of_nil in Hy.
    + cbn. rewrite list_elem_of_singleton, elem_of_nil. tauto.
Qed.




(** ** Resolving spend categories *)

Section store_facts.
Variable next_id : list SpendCategory → Z.
Abbreviation goc := (_get_or_create_spend_category next_id).
Abbreviation goc_all := (get_or_create_all next_id).

Lemma canonical_not_blank (n : pystr) : canonical_name n → blank (Some n) = false.
Proof.
  intros [Hn Hs]. unfold blank. rewrite Hs. by destruct n.
Qed.

Lemma find_name_app (db more : list SpendCategory) (n : pystr) c :
  List.find (λ c', bool_decide (sc_name c' = n)) db = Some c →
  List.find (λ c', bool_decide (sc_name c' = n)) (db ++ more) = Some c.
Proof.
  induction db as [|x db IH]; [done|]. cbn [List.find app].
  by destruct (bool_decide (sc_name x = n)).
Qed.

Lemma find_name_None (db : list SpendCategory) (n : pystr) :
  List.find (λ c', bool_decide (sc_name c' = n)) db = None
  ↔ n ∉ (sc_name <$> db).
Proof.
  induction db as [|x db IH]; cbn [List.find].
  - split; [intros _; apply not_elem_of_nil|done].
  - rewrite fmap_cons, not_elem_of_cons. case_bool_decide as Hx.
    + split; [done|]. by intros [? _].
    + rewrite IH. split; [by intros ?|by intros [_ ?]].
Qed.

Lemma find_name_Some (db : list SpendCategory) (n : pystr) c :
  List.find (λ c', bool_decide (sc_name c' = n)) db = Some c →
  sc_name c = n ∧ c ∈ db.
Proof.
  induction db as [|x db IH]; [done|]. cbn [List.find].
  case_bool_decide as Hx.
  - intros [= ->]. split; [done|left].
  - intros [? ?]%IH. split; [done|by right].
Qed.

Lemma find_name_snoc (db : list SpendCategory) (c : SpendCategory) :
  sc_name c ∉ sc_name <$> db → found (db ++ [c]) c.
Proof.
  unfold found. intros Hc. induction db as [|x db IH].
  - cbn. by rewrite bool_decide_true.
  - rewrite fmap_cons, not_elem_of_cons in Hc. destruct Hc as [Hx Hc].
    cbn [List.find app]. rewrite bool_decide_false by done. by apply IH.
Qed.

Lemma filter_ext_Forall {A} (P Q : A → Prop) `{∀ x, Decision (P x)}
    `{∀ x, Decision (Q x)} (l : list A) :
  Forall (λ x, P x ↔ Q x) l → filter P l = filter Q l.
Proof.
  induction 1 as [|x l Hx _ IH]; [done|].
  destruct (decide (P x)) as [HP|HP].
  - rewrite !filter_cons_True by tauto. by rewrite IH.
  - rewrite !filter_cons_False by tauto. done.
Qed.

Lemma goc_spec (db : list SpendCategory) (n : pystr) :
  canonical_name n →
  let r := goc db (Some n) in
  sc_name r.2 = n ∧ found r.1 r.2 ∧
  ((n ∈ sc_name <$> db ∧ r.1 = db) ∨
   ((n ∉ sc_name <$> db) ∧ r.1 = db ++ [r.2])).
Proof.
  intros Hn. unfold _get_or_create_spend_category.
  rewrite (canonical_not_blank n Hn).
  destruct (List.find _ db) as [c|] eqn:Hfind; cbn [fst snd].
  - destruct (find_name_Some _ _ _ Hfind) as [Hc1 Hc2]. split_and!; [done| |].
    + unfold found. by rewrite Hc1.
    + left. split; [|done]. rewrite <- Hc1. by apply list_elem_of_fmap_2.
  - apply find_name_None in Hfind. split_and!; [done| |by right].
    by apply find_name_snoc.
Qed.

Lemma goc_found (db : list SpendCategory) (c : SpendCategory) :
  canonical_name (sc_name c) → found db c → goc db (Some (sc_name c)) = (db, c).
Proof.
  intros Hn Hc. unfold _get_or_create_spend_category.
  rewrite (canonical_not_blank _ Hn). unfold found in Hc. by rewrite Hc.
Qed.

Lemma goc_all_found (db cats cs : list SpendCategory) :
  Forall (λ c, canonical_name (sc_name c)) cs → Forall (found db) cs →
  goc_all (db, cats) (sc_name <$> cs) = (db, cats ++ cs).
Proof.
  revert cats. induction cs as [|c cs IH]; intros cats Hc Hf.
  - by rewrite app_nil_r.
  - apply Forall_cons in Hc as [Hc1 Hc], Hf as [Hf1 Hf].
    rewrite fmap_cons. unfold get_or_create_all. cbn [foldl fst snd].
    rewrite goc_found by done. cbn [fst snd].
    fold (goc_all (db, cats ++ [c]) (sc_name <$> cs)).
    rewrite IH by done. by rewrite <- app_assoc.
Qed.

Lemma goc_all_spec (db cats : list SpendCategory) (names : list pystr) :
  Forall canonical_name names → NoDup names →
  ∃ added new,
    goc_all (db, cats) names = (db ++ added, cats ++ new) ∧
    sc_name <$> new = names ∧
    sc_name <$> added = filter (λ n, n ∉ sc_name <$> db) names ∧
    Forall (found (db ++ added)) new.
Proof.
  revert db cats. induction names as [|n names IH]; intros db cats Hc Hnd.
  - exists [], []. by rewrite !app_nil_r.
  - apply Forall_cons in Hc as [Hn Hc]. apply NoDup_cons in Hnd as [Hn' Hnd].
    unfold get_or_create_all. cbn [foldl fst snd].
    destruct (goc_spec db n Hn) as (Hname & Hfound & Hdb).
    set (r := goc db (Some n)) in *.
    fold (goc_all (r.1, cats ++ [r.2]) names).
    destruct (IH r.1 (cats ++ [r.2]) Hc Hnd) as (added & new & -> & Hnew & Hadd & Hf).
    destruct Hdb as [[Hin Hdb]|[Hnin Hdb]]; rewrite Hdb in *.
    + exists added, (r.2 :: new). rewrite <- app_assoc. split_and!; [done| | |].
      * by rewrite fmap_cons, Hname, Hnew.
      * by rewrite filter_cons_False by (by intros ?).
      * constructor; [|done]. unfold found in *. by apply find_name_app.
    + exists (r.2 :: added), (r.2 :: new).
      rewrite (cons_middle r.2 db added), (app_assoc db).
      split_and!; [by rewrite <- !app_assoc| | |].
      * by rewrite fmap_cons, Hname, Hnew.
      * rewrite filter_cons_True by done. rewrite fmap_cons, Hname, Hadd.
        f_equal. apply filter_ext_Forall, Forall_forall. intros m Hm.
        rewrite fmap_app, elem_of_app, fmap_cons, Hname.
        rewrite list_elem_of_singleton. split; [tauto|].
        intros Hm' [?| ->]; done.
      * constructor; [|done]. unfold found in *. by apply find_name_app.
Qed.

Lemma goc_all_length (st : list SpendCategory * list SpendCategory)
    (names : list pystr) :
  length (goc_all st names).2 = length st.2 + length names.
Proof.
  revert st. induction names as [|n names IH]; intros st; [cbn; lia|].
  unfold get_or_create_all. cbn [foldl].
  fold (goc_all ((goc st.1 (Some n)).1, st.2 ++ [(goc st.1 (Some n)).2]) names).
  rewrite IH. cbn [snd length]. rewrite length_app. cbn. lia.
Qed.

(** The loop computes the names to resolve as [first_seen] does, and
    resolves them one after the other. *)
Lemma resolve_loop (l : list pystr) (db cats : list SpendCategory)
    (seen : gset pystr) (acc : list pystr) :
  seen = list_to_set acc →
  ∃ more,
    foldl (λ seen x, if decide (x ∈ seen) then seen else seen ++ [x]) acc
      (trimmed_nonblank l) = acc ++ more ∧
    (foldl (resolve_step next_id) (db, cats, seen) l).1
    = goc_all (db, cats) more.
Proof.
  revert db cats seen acc. induction l as [|name l IH]; intros db cats seen acc Hs.
  - exists []. by rewrite app_nil_r.
  - rewrite trimmed_nonblank_cons. cbn [foldl]. unfold resolve_step at 2.
    cbn [fst snd].
    destruct (PyStr.truthy (PyStr.strip name)) eqn:Ht; cbn [negb orb].
    + cbn [foldl]. case_bool_decide as Hseen.
      * rewrite decide_True by (by rewrite Hs, elem_of_list_to_set in Hseen).
        by apply IH.
      * rewrite decide_False by (by rewrite Hs, elem_of_list_to_set in Hseen).
        destruct (IH (goc db (Some (PyStr.strip name))).1
                    (cats ++ [(goc db (Some (PyStr.strip name))).2])
                    ({[PyStr.strip name]} ∪ seen) (acc ++ [PyStr.strip name]))
          as (more & Hmore & Hloop).
        { rewrite list_to_set_app_L, Hs, list_to_set_singleton_L.
          apply (comm_L (∪)). }
        exists (PyStr.strip name :: more). split.
        -- by rewrite Hmore, <- app_assoc.
        -- by rewrite Hloop.
    + by apply IH.
Qed.

Lemma resolve_unfold (db : list SpendCategory) (names : option (list pystr)) :
  _resolve_spend_categories next_id db names
  = goc_all (db, []) (default_spend_categories names).
Proof.
  unfold _resolve_spend_categories.
  set (names' := match names with
                 | None | Some [] => [Uncategorized]
                 | Some names => names
                 end).
  assert (default_spend_categories names = default_spend_categories (Some names'))
    as Hd by (by destruct names as [[|??]|]).
  rewrite Hd, default_spend_categories_spec.
  destruct (resolve_loop names' db [] ∅ []) as (more & Hmore & Hloop); [done|].
  cbn [app] in Hmore. fold (first_seen (trimmed_nonblank names')) in Hmore.
  rewrite Hmore.
  pose proof (goc_all_length (db, []) more) as Hlen. rewrite <- Hloop in Hlen.
  cbn [snd length] in Hlen.
  destruct more as [|n more].
  - cbn in Hloop. destruct (foldl _ _ names').1 as [db' cats'].
    injection Hloop as -> ->. done.
  - rewrite Hloop in *. destruct (goc_all (db, []) (n :: more)) as [db' cats'].
    cbn [fst snd] in *. destruct cats'; [cbn in Hlen; lia|done].
Qed.
End store_facts.

(** X14. [_resolve_spend_categories] returns categories whose names are
    exactly the list that the [TransactionCreate] validator makes of the
    given names: trimmed, without blanks and repetitions, in order of first
    occurrence, and ["Uncategorized"] alone when nothing is left or nothing
    is given. The table only grows, by one row for each of these names that
    it did not hold, in that order; every returned category is a row of the
    new table; names that were unique in the table stay unique; and
    resolving the same names again returns the same categories and leaves
    the table as it is. *)
Theorem resolve_spend_categories_gives_validated_names
    (next_id : list SpendCategory → Z) (db : list SpendCategory)
    (names : option (list pystr)) :
  let r := _resolve_spend_categories next_id db names in
  sc_name <$> r.2 = default_spend_categories names ∧
  (∃ added, r.1 = db ++ added ∧
            sc_name <$> added
            = filter (λ n, n ∉ sc_name <$> db) (default_spend_categories names)) ∧
  Forall (λ c, c ∈ r.1) r.2 ∧
  (NoDup (sc_name <$> db) → NoDup (sc_name <$> r.1)) ∧
  _resolve_spend_categories next_id r.1 names = r.
Proof.
  intros r. unfold r. rewrite resolve_unfold.
  destruct (default_spend_categories_canonical names) as (_ & Hnd & Hc).
  destruct (goc_all_spec next_id db [] _ Hc Hnd)
    as (added & new & -> & Hnew & Hadd & Hf).
  cbn [fst snd app]. split_and!.
  - done.
  - by exists added.
  - eapply Forall_impl; [exact Hf|]. intros c Hc'.
    by apply find_name_Some in Hc' as [_ ?].
  - intros Hdb. rewrite fmap_app, Hadd. apply NoDup_app. split_and!; [done| |].
    + intros x Hx [Hx' _]%list_elem_of_filter. done.
    + by apply NoDup_filter.
  - rewrite resolve_unfold, <- Hnew. apply (goc_all_found next_id); [|done].
    rewrite <- Hnew in Hc. apply Forall_forall. intros c Hc'.
    apply (proj1 (Forall_forall _ _) Hc). by apply list_elem_of_fmap_2.
Qed.

Lemma resolve_spend_categories_gives_validated_names_witness :
  sc_name <$> (_resolve_spend_categories (λ db, Z.of_nat (length db))
                 [{| sc_id := 0; sc_name := lit "Travel" |}]
                 (Some [lit " Food"; lit "Travel "; lit ""; lit "Food"])).2
  = [lit "Food"; lit "Travel"].
Proof.
  destruct (resolve_spend_categories_gives_validated_names
              (λ db, Z.of_nat (length db))
              [{| sc_id := 0; sc_name := lit "Travel" |}]
              (Some [lit " Food"; lit "Travel "; lit ""; lit "Food"]))
    as (H & _).
  rewrite H. vm_compute. reflexivity.
Defined.


(** ** Pagination *)

Lemma total_pages_bounds (total page_size : nat) :
  1 ≤ page_size →
  let total_pages := (total + page_size - 1) / page_size in
  total ≤ total_pages * page_size ∧
  (total_pages - 1) * page_size < total + Nat.b2n (total =? 0) ∧
  (total_pages = 0 ↔ total = 0).
Proof.
  intros Hn total_pages.
  pose proof (Nat.div_mod_eq (total + page_size - 1) page_size) as Hdiv.
  pose proof (Nat.mod_upper_bound (total + page_size - 1) page_size) as Hmod.
  fold total_pages in Hdiv.
  set (r := (total + page_size - 1) mod page_size) in *.
  destruct (Nat.eqb_spec total 0) as [->|Hne]; cbn [Nat.b2n]; nia.
Qed.

Lemma pages_concat {A B} (compact : A → B) (rows : list A) (page_size k : nat) :
  mjoin ((λ page, pr_transactions
                    (filter_transactions compact rows page page_size))
           <$> seq 1 k)
  = compact <$> take (k * page_size) rows.
Proof.
  induction k as [|k IH]; [done|].
  rewrite seq_S, fmap_app, join_app, IH. cbn [fmap list_fmap mjoin list_join].
  rewrite app_nil_r. cbn [filter_transactions pr_transactions].
  replace (1 + k - 1) with k by lia.
  rewrite <- fmap_app, take_take_drop. do 2 f_equal. lia.
Qed.

(** X15. For a page size of at least 1, the pages of [filter_transactions]
    cut the rows of the query into consecutive pieces: the pages 1 to
    [total_pages], one after the other, are the rows (each in compact
    form), each page before the last holds exactly [page_size] of them, the
    last one holds between 1 and [page_size], and every page after
    [total_pages] is empty; [total] is the number of rows, and
    [total_pages] is 0 exactly when there is no row. *)
Theorem pages_partition_the_rows {A B} (compact : A → B) (rows : list A)
    (page page_size : nat) :
  1 ≤ page → 1 ≤ page_size →
  let r := filter_transactions compact rows page page_size in
  mjoin ((λ p, pr_transactions (filter_transactions compact rows p page_size))
           <$> seq 1 (pr_total_pages r)) = compact <$> rows ∧
  pr_total r = length rows ∧
  (pr_total_pages r = 0 ↔ rows = []) ∧
  (page < pr_total_pages r → length (pr_transactions r) = page_size) ∧
  (page = pr_total_pages r →
   1 ≤ length (pr_transactions r) ≤ page_size ∧
   length (pr_transactions r) = length rows - (page - 1) * page_size) ∧
  (pr_total_pages r < page → pr_transactions r = []).
Proof.
  intros Hp Hn r.
  destruct (total_pages_bounds (length rows) page_size Hn) as (H1 & H2 & H3).
  set (total_pages := (length rows + page_size - 1) / page_size) in *.
  assert (pr_total_pages r = total_pages) as -> by done.
  assert (pr_total r = length rows) as -> by done.
  assert (pr_transactions r
          = compact <$> take page_size (drop ((page - 1) * page_size) rows))
    as -> by done.
  clear r.
  assert ((total_pages - 1) * page_size < length rows ∨ length rows = 0) as H2'.
  { destruct (Nat.eqb_spec (length rows) 0); cbn [Nat.b2n] in H2; lia. }
  clear H2. rewrite !length_fmap. split_and!.
  - rewrite pages_concat. by rewrite take_ge.
  - done.
  - rewrite H3. by destruct rows.
  - intros Hlt. rewrite length_take, length_drop. apply Nat.min_l.
    assert (page * page_size ≤ (total_pages - 1) * page_size)
      by (apply Nat.mul_le_mono_r; lia).
    assert ((page - 1) * page_size + page_size = page * page_size) by nia.
    lia.
  - intros ->. rewrite length_take, length_drop.
    assert (length rows ≠ 0) by (intros ?%H3; lia).
    assert (total_pages * page_size = (total_pages - 1) * page_size + page_size)
      by nia.
    lia.
  - intros Hlt. rewrite drop_ge; [by rewrite take_nil|].
    assert (total_pages * page_size ≤ (page - 1) * page_size)
      by (apply Nat.mul_le_mono_r; lia).
    lia.
Qed.

Lemma pages_partition_the_rows_witness :
  mjoin ((λ p, pr_transactions (filter_transactions t_id sample_txns p 3))
           <$> seq 1 2) = [1; 2; 3; 4]%Z ∧
  pr_transactions (filter_transactions t_id sample_txns 2 3) = [4%Z].
Proof.
  destruct (pages_partition_the_rows t_id sample_txns 2 3) as (H & _); [lia..|].
  split; [exact H|]. vm_compute. reflexivity.
Defined.

(** ** The analytics of the sample transactions *)

Lemma timeline_is_a_chronological_running_sum_witness :
  bp_balance (timeline_point txn_salary (- (11 # 2)))
  = py_sum (bp_amount <$>
              take 2 (balance_timeline
                        (compute_analytics simple_strftime_Ym sample_txns))).
Proof.
  refine (proj2 (proj2 (timeline_is_a_chronological_running_sum
                          simple_strftime_Ym sample_txns))
            1 (timeline_point txn_salary (- (11 # 2))) _).
  vm_compute. reflexivity.
Defined.


(** ** Validation errors of parsed rows *)

Lemma bind_Err {E A B} (r : result E A) (k : A → result E B) e :
  r ≫= k = Err e ↔ r = Err e ∨ ∃ a, r = Ok a ∧ k a = Err e.
Proof.
  destruct r as [a|e']; simpl; split.
  - intros Hk. right. by exists a.
  - by intros [[=]|(a' & [= ->] & Hk)].
  - intros [= ->]. by left.
  - by intros [[= ->]|(a' & [=] & _)].
Qed.

Lemma text_field_stripped (f : field) (max_length : nat) (s : pystr) :
  1 ≤ max_length → PyStr.strip s = s → s ≠ [] →
  field_errors f (s' ← strip_and_validate (Some s); check_length 1 max_length s')
  = length_errors f max_length s ∧
  (length_errors f max_length s = [] →
   (s' ← strip_and_validate (Some s); check_length 1 max_length s') = Ok s).
Proof.
  intros Hmax Hs Hne. unfold strip_and_validate.
  rewrite (proj2 (blank_false s)) by (by rewrite Hs). rewrite Hs. cbn.
  unfold check_length, length_errors.
  assert ((length s <? 1) = false) as ->
    by (apply Nat.ltb_ge; destruct s; [done|cbn; lia]).
  by destruct (max_length <? length s).
Qed.

Lemma notes_field_stripped (v : option pystr) :
  (∀ n, v = Some n → PyStr.strip n = n ∧ n ≠ []) →
  let r : result field_msg (option pystr) :=
    match strip_notes v with
    | None => Ok None
    | Some s => s' ← check_length 0 200 s; Ok (Some s')
    end in
  field_errors f_notes r = from_option (length_errors f_notes 200) [] v ∧
  (from_option (length_errors f_notes 200) [] v = [] → r = Ok v).
Proof.
  intros Hv. destruct v as [n|]; [|done].
  destruct (Hv n eq_refl) as [Hs Hne]. unfold strip_notes. rewrite Hs.
  assert (PyStr.truthy n = true) as -> by (by destruct n).
  cbn [negb from_option]. unfold check_length, length_errors.
  change (length n <? 0) with false. cbn iota.
  by destruct (200 <? length n).
Qed.

(** What validation makes of a dictionary whose texts are already trimmed
    and not empty: it can only find them too long. *)
Lemma TransactionCreate_stripped (t : TxnData) :
  PyStr.strip (txn_description t) = txn_description t → txn_description t ≠ [] →
  PyStr.strip (txn_account t) = txn_account t → txn_account t ≠ [] →
  (∀ n, txn_notes t = Some n → PyStr.strip n = n ∧ n ≠ []) →
  match overlong_fields t with
  | [] => ∃ m, TransactionCreate t = Ok m
  | errors => TransactionCreate t = Err errors
  end.
Proof.
  intros Hd1 Hd2 Ha1 Ha2 Hn. unfold overlong_fields, TransactionCreate.
  destruct (text_field_stripped f_description 200 (txn_description t))
    as [Hde Hdo]; [lia|done..|].
  destruct (text_field_stripped f_account 50 (txn_account t))
    as [Hae Hao]; [lia|done..|].
  destruct (notes_field_stripped (txn_notes t) Hn) as [Hne Hno].
  cbn zeta in Hne, Hno. rewrite <- Hde, <- Hae, <- Hne.
  destruct (s ← strip_and_validate (Some (txn_description t)); check_length 1 200 s)
    as [de|e1]; cbn [field_errors app];
    destruct (s ← strip_and_validate (Some (txn_account t)); check_length 1 50 s)
      as [ac|e2]; cbn [field_errors app];
    destruct (match strip_notes (txn_notes t) with
              | Some s => s' ← check_length 0 200 s; Ok (Some s')
              | None => Ok None
              end) as [no|e3]; cbn [field_errors app]; eauto.
Qed.

Lemma getitem_Err {V} (d : pydict pystr V) key e :
  getitem d key = Err e → e = KeyError key.
Proof. unfold getitem. destruct (dict_get d key); by intros [= <-]. Qed.

Lemma cell_Err headers (row : csv_row) name e :
  cell headers row name = Err e → (∃ k, e = KeyError k) ∨ e = AttributeError.
Proof.
  unfold cell. intros [H|(key & _ & H)]%bind_Err.
  { apply getitem_Err in H. eauto. }
  apply bind_Err in H as [H|(v & _ & H)].
  { apply getitem_Err in H. eauto. }
  destruct v; [done|]. injection H as <-. by right.
Qed.

Lemma cell_get_Err headers (row : csv_row) name e :
  cell_get headers row name = Err e → (∃ k, e = KeyError k) ∨ e = AttributeError.
Proof.
  unfold cell_get. intros [H|(key & _ & H)]%bind_Err.
  { apply getitem_Err in H. eauto. }
  destruct (default _ _); [done|]. injection H as <-. by right.
Qed.

Lemma raise_if_Err {E} (b : bool) (e e' : E) : raise_if b e = Err e' → e' = e.
Proof. destruct b; by intros [= <-]. Qed.

Lemma strptime_date_Err strptime s format e :
  strptime_date strptime s format = Err e → e = StrptimeError s format.
Proof. unfold strptime_date. destruct (strptime s format); by intros [= <-]. Qed.

Lemma clean_currency_string_Err py_float value row_num e :
  clean_currency_string py_float value row_num = Err e →
  e = EmptyCurrency (row_prefix row_num) value ∨
  e = InvalidCurrency (row_prefix row_num) value.
Proof.
  unfold clean_currency_string.
  repeat match goal with
         | |- context [if ?b then _ else _] => destruct b
         | |- context [match ?o with Some _ => _ | None => _ end] => destruct o
         end; intros [= <-]; eauto.
Qed.

Lemma validate_transaction_data_Err (t : TxnData) (row_num : nat) e :
  _validate_transaction_data t row_num = Err e →
  ∃ errors, e = RowValidationFailed row_num errors ∧
            TransactionCreate t = Err errors.
Proof.
  unfold _validate_transaction_data.
  destruct (TransactionCreate t) as [m|errors]; [done|]. intros [= <-]. eauto.
Qed.

(** A step of a row body that does not validate cannot raise the error of
    validation. *)
Ltac not_validation H :=
  exfalso;
  first
    [ apply cell_Err in H as [[? [=]]|[=]]
    | apply cell_get_Err in H as [[? [=]]|[=]]
    | apply getitem_Err in H; discriminate H
    | apply raise_if_Err in H; discriminate H
    | apply strptime_date_Err in H; discriminate H
    | apply clean_currency_string_Err in H as [[=]|[=]] ].

(** Peel the steps of a row body off a hypothesis [H] that says that the
    body raised the error of validation. *)
Ltac bind_err H :=
  let a := fresh "v" in
  let Ha := fresh "Hv" in
  apply bind_Err in H as [H|(a & Ha & H)];
  [try (by not_validation H)|cbn beta zeta in H].

Lemma validation_errors_stripped (t : TxnData) errors :
  PyStr.strip (txn_description t) = txn_description t → txn_description t ≠ [] →
  PyStr.strip (txn_account t) = txn_account t → txn_account t ≠ [] →
  (∀ n, txn_notes t = Some n → PyStr.strip n = n ∧ n ≠ []) →
  TransactionCreate t = Err errors →
  errors = overlong_fields t ∧ errors ≠ [].
Proof.
  intros Hd1 Hd2 Ha1 Ha2 Hn He.
  pose proof (TransactionCreate_stripped t Hd1 Hd2 Ha1 Ha2 Hn) as H.
  destruct (overlong_fields t) as [|e es].
  - destruct H as [m Hm]. congruence.
  - rewrite He in H. by injection H as ->.
Qed.

Lemma length_errors_inv (f : field) (max_length : nat) (s : pystr) :
  length_errors f max_length s ≠ [] →
  length_errors f max_length s = [(f, StringTooLong max_length)] ∧
  max_length < length s.
Proof.
  unfold length_errors. destruct (Nat.ltb_spec max_length (length s)); done.
Qed.

Lemma truthy_raise_if (s : pystr) (e : row_exn) u :
  raise_if (negb (PyStr.truthy s)) e = Ok u → s ≠ [].
Proof. by destruct s. Qed.

(** What the parser knows of the cells it has read. *)
Ltac cells_known :=
  repeat match goal with
         | H : cell _ _ _ = Ok ?s |- _ =>
             lazymatch goal with
             | _ : PyStr.strip s = s |- _ => fail
             | _ => pose proof (cell_Ok_stripped _ _ _ _ H)
             end
         | H : raise_if (negb (PyStr.truthy _)) _ = Ok _ |- _ =>
             apply truthy_raise_if in H
         end.

(** X16. The only errors that validation can report for a row of a parser
    are texts that are too long, because the parser has trimmed the texts
    and refused the empty ones before. For a Discover or Schwab row it is
    the description of more than 200 characters and nothing else; for a
    CashCanvas row it is, in this order, the description of more than 200,
    the account of more than 50 and the notes of more than 200 characters.
    The error carries the number of the row. *)
Theorem parsers_report_only_overlong_fields
    (py_float : pystr → option Q) (strptime : pystr → pystr → option date)
    (headers : pydict pystr pystr) (row_num : nat) (row : csv_row)
    (n : nat) (errors : list (field * field_msg)) :
  (discover_row py_float strptime headers row_num row
   = Err (RowValidationFailed n errors) ∨
   schwab_row py_float strptime headers row_num row
   = Err (RowValidationFailed n errors) →
   n = row_num ∧ errors = [(f_description, StringTooLong 200)] ∧
   ∃ description, cell headers row "description" = Ok description ∧
                  200 < length description) ∧
  (cashcanvas_row py_float strptime headers row_num row
   = Err (RowValidationFailed n errors) →
   n = row_num ∧ errors ≠ [] ∧
   ∃ description account notes,
     cell headers row "description" = Ok description ∧
     cell headers row "account" = Ok account ∧
     (notes = None ∨ cell headers row "notes" = Ok (default [] notes)) ∧
     errors = length_errors f_description 200 description ++
              length_errors f_account 50 account ++
              from_option (length_errors f_notes 200) [] notes).
Proof.
  assert (length_errors f_account 50 (lit "Discover") = []) as Hdiscover by done.
  assert (length_errors f_account 50 (lit "Schwab Checking") = []) as Hschwab
    by done.
  split.
  - intros [H|H].
    + unfold discover_row in H. do 9 bind_err H.
      apply bind_Err in H as [H|(? & _ & [=])].
      apply validate_transaction_data_Err in H as (errs & [= <- <-] & H).
      cells_known.
      apply validation_errors_stripped in H as [H Hne];
        [|done|done|by vm_compute|done|done].
      unfold overlong_fields in H. cbn [txn_description txn_account txn_notes] in H.
      rewrite Hdiscover in H. cbn [from_option app] in H. rewrite app_nil_r in H.
      rewrite H in Hne. apply length_errors_inv in Hne as [Hne Hlen].
      split_and!; [done|congruence|eauto].
    + unfold schwab_row in H. do 7 bind_err H.
      apply bind_Err in H as [H|(amount & _ & H)].
      { exfalso. destruct (_ && _) in H.
        - apply bind_Err in H as [H|(? & _ & [=])]. by not_validation H.
        - destruct (_ && _) in H; [by not_validation H|done]. }
      cbn beta zeta in H.
      apply bind_Err in H as [H|(? & _ & [=])].
      apply validate_transaction_data_Err in H as (errs & [= <- <-] & H).
      cells_known.
      apply validation_errors_stripped in H as [H Hne];
        [|done|done|by vm_compute|done|done].
      unfold overlong_fields in H. cbn [txn_description txn_account txn_notes] in H.
      rewrite Hschwab in H. cbn [from_option app] in H. rewrite app_nil_r in H.
      rewrite H in Hne. apply length_errors_inv in Hne as [Hne Hlen].
      split_and!; [done|congruence|eauto].
  - intros H. unfold cashcanvas_row in H. do 2 bind_err H.
    apply bind_Err in H as [H|(date_obj & _ & H)].
    { exfalso. destruct (strptime _ _) in H; [done|by not_validation H]. }
    cbn beta zeta in H. do 10 bind_err H.
    apply bind_Err in H as [H|(notes & Hnotes & H)].
    { exfalso. destruct (dict_in _ _) in H; [|done].
      apply bind_Err in H as [H|(? & _ & [=])]. by not_validation H. }
    cbn beta zeta in H.
    apply bind_Err in H as [H|(? & _ & [=])].
    apply validate_transaction_data_Err in H as (errs & [= <- <-] & H).
    cells_known.
    assert (notes = None ∨
            ∃ s, notes = Some s ∧ s ≠ [] ∧ cell headers row "notes" = Ok s)
      as Hnotes'.
    { destruct (dict_in _ _) in Hnotes; [|left; congruence].
      apply bind_Ok in Hnotes as (s & Hs & Hnotes).
      destruct s as [|c s]; cbn in Hnotes; injection Hnotes as <-; [by left|].
      right. eauto. }
    apply validation_errors_stripped in H as [H Hne]; [|done..|].
    + unfold overlong_fields in H.
      cbn [txn_description txn_account txn_notes] in H.
      split_and!; [done..|]. eexists _, _, notes. split_and!; [done..| |done].
      destruct Hnotes' as [->|(s & -> & _ & Hs)]; [by left|by right].
    + cbn [txn_notes]. intros s ->.
      destruct Hnotes' as [[=]|(s' & [= <-] & Hne & Hs)].
      split; [|done]. by apply cell_Ok_stripped in Hs.
Qed.


Lemma parsers_report_only_overlong_fields_witness :
  ∃ description,
    cell discover_headers discover_long_row "description" = Ok description ∧
    200 < length description.
Proof.
  refine (proj2 (proj2 (proj1 (parsers_report_only_overlong_fields
            decimal_float simple_strptime discover_headers 2 discover_long_row
            2 [(f_description, StringTooLong 200)]) (or_introl _)))).
  vm_compute. reflexivity.
Defined.

(** ** Cost-center names of parsed rows *)


(** X17. The cost-center name of a parsed row. A Discover row has the
    trimmed Category cell, as it is written, and ["Uncategorized"] when the
    cell is blank. A CashCanvas row has the trimmed Cost Center cell, except
    that a blank cell and the word "uncategorized" in any letter case give
    no name, for which validation holds ["Uncategorized"]. In both cases the
    validated name is not empty and is trimmed. *)
Theorem parsed_cost_center_names
    (py_float : pystr → option Q) (strptime : pystr → pystr → option date)
    (headers : pydict pystr pystr) (row_num : nat) (row : csv_row)
    (t : TxnData) :
  (discover_row py_float strptime headers row_num row = Ok t →
   ∃ category,
     cell headers row "category" = Ok category ∧
     txn_cost_center_name t
     = Some (if decide (category = []) then Uncategorized else category) ∧
     default_cost_center (txn_cost_center_name t)
     = (if decide (category = []) then Uncategorized else category)) ∧
  (cashcanvas_row py_float strptime headers row_num row = Ok t →
   ∃ cc,
     cell headers row "cost_center" = Ok cc ∧
     txn_cost_center_name t
     = (if decide (cc = [] ∨ PyStr.lower cc = lit "uncategorized")
        then None else Some cc) ∧
     default_cost_center (txn_cost_center_name t)
     = (if decide (cc = [] ∨ PyStr.lower cc = lit "uncategorized")
        then Uncategorized else cc)).
Proof.
  split; intros H.
  - unfold discover_row in H. bind_inv H. injection H as <-.
    cbn [txn_cost_center_name].
    match goal with
    | H : cell headers row "category" = Ok ?c |- _ =>
        exists c; pose proof (cell_Ok_stripped _ _ _ _ H) as Hs;
        split; [exact H|]; destruct c as [|x c]
    end.
    + by destruct (decide _).
    + destruct (decide _) as [|_]; [done|]. cbn [PyStr.truthy]. split; [done|].
      rewrite default_cost_center_spec. change (default [] (Some ?s)) with s.
      by rewrite Hs.
  - unfold cashcanvas_row in H. bind_inv H. injection H as <-.
    cbn [txn_cost_center_name].
    match goal with
    | H : cell headers row "cost_center" = Ok ?c |- _ =>
        exists c; pose proof (cell_Ok_stripped _ _ _ _ H) as Hs;
        split; [exact H|]; destruct c as [|x c]
    end.
    + destruct (decide _) as [_|Hd]; [done|]. exfalso. apply Hd. by left.
    + cbn [PyStr.truthy andb]. case_bool_decide as Hl.
      * destruct (decide _) as [_|Hd]; [done|]. exfalso. apply Hd. by right.
      * destruct (decide _) as [[|]|_]; [done..|]. split; [done|].
        rewrite default_cost_center_spec. change (default [] (Some ?s)) with s.
        by rewrite Hs.
Qed.

Lemma parsed_cost_center_names_witness :
  ∃ cc,
    cell cashcanvas_headers cashcanvas_capitals_row "cost_center" = Ok cc ∧
    None = (if decide (cc = [] ∨ PyStr.lower cc = lit "uncategorized")
            then None else Some cc) ∧
    default_cost_center None
    = (if decide (cc = [] ∨ PyStr.lower cc = lit "uncategorized")
       then Uncategorized else cc).
Proof.
  refine (proj2 (parsed_cost_center_names decimal_float simple_strptime
                   cashcanvas_headers 2 cashcanvas_capitals_row
                   {| txn_date := Date 2024 1 2; txn_description := lit "Dinner";
                      txn_cost_center_name := None;
                      txn_spend_category_names := [];
                      txn_amount := - (4200 # 100); txn_account := lit "Discover";
                      txn_notes := None |}) _).
  vm_compute. reflexivity.
Defined.

(** The same word in a Discover row is kept as it is written. *)
Example discover_keeps_the_letter_case :
  (txn_cost_center_name <$>
     match discover_row decimal_float simple_strptime discover_headers 2
             discover_capitals_row with
     | Ok t => Some t
     | Err _ => None
     end)
  = Some (Some (lit "UNCATEGORIZED")).
Proof. vm_compute. reflexivity. Qed.


(** ** Filters *)

Section filter_facts.
Variable ilike : pystr → pystr → bool.

Lemma filter_stage {A} (P : A → Prop) `{∀ x, Decision (P x)} (q : list A) :
  (∀ t, t ∈ filter P q ↔ t ∈ q ∧ P t) ∧ filter P q `sublist_of` q.
Proof.
  split; [|apply sublist_filter]. intros t. rewrite list_elem_of_filter. tauto.
Qed.

Lemma Exists_elem_of {A} (P : A → Prop) (l : list A) :
  Exists P l ↔ ∃ x, x ∈ l ∧ P x.
Proof. apply Exists_exists. Qed.

End filter_facts.

(** X18. [get_transactions] returns the rows of the table that meet every
    criterion that is given and not empty, in the order of the table and
    each as often as the table holds it; an empty search text, an empty list
    of ids or of accounts, the single id 0 and an empty account name
    restrict nothing, the bounds of dates and amounts are inclusive, and
    without criteria the whole table is returned. [build_filter_query],
    which the paginated endpoint uses, yields the same rows. *)
Theorem filters_keep_the_matching_rows
    (ilike : pystr → pystr → bool) (session : list TransactionRow) (f : Filters) :
  build_filter_query ilike session f = get_transactions ilike session f ∧
  (∀ t : TransactionRow,
     t ∈ get_transactions ilike session f ↔ t ∈ session ∧ meets ilike f t) ∧
  get_transactions ilike session f `sublist_of` session ∧
  get_transactions ilike session no_filters = session.
Proof.
  cut ((∀ t : TransactionRow,
          t ∈ get_transactions ilike session f ↔ t ∈ session ∧ meets ilike f t) ∧
       get_transactions ilike session f `sublist_of` session).
  { intros [Hm Hs]. split_and!; done. }
  unfold get_transactions, meets.
  destruct f as [search cc sc account start_date end_date min_amount max_amount].
  cbn [f_search f_cost_center_ids f_spend_category_ids f_filter_account
       f_start_date f_end_date f_min_amount f_max_amount].
  cbn zeta.
  set (q1 := match search with
             | Some s => if PyStr.truthy s then filter _ session else session
             | None => session
             end).
  assert ((∀ t : TransactionRow, t ∈ q1 ↔ t ∈ session ∧
                  ∀ s, search = Some s → s ≠ [] →
                       ilike (t_description t) ([percent] ++ s ++ [percent]) = true) ∧
          q1 `sublist_of` session) as [M1 S1].
  { unfold q1. destruct search as [[|c s]|]; cbn [PyStr.truthy].
    - split; [|done]. intros t. split; [|tauto]. intros Ht. split; [done|].
      by intros s [= <-].
    - destruct (filter_stage
                  (λ t : TransactionRow,
                     ilike (t_description t) ([percent] ++ (c :: s) ++ [percent]))
                  session) as [Hm Hs].
      split; [|done]. intros t. rewrite Hm. split.
      + intros [? Ht]. split; [done|]. intros s' [= <-] _. by destruct (ilike _ _).
      + intros [? Ht]. split; [done|]. by rewrite Ht.
    - split; [|done]. intros t. split; [|tauto]. by intros Ht. }
  clearbody q1.
  set (q2 := match cc with
             | Some ids => if truthy_ids cc then filter _ q1 else q1
             | None => q1
             end).
  assert ((∀ t : TransactionRow, t ∈ q2 ↔ t ∈ q1 ∧
                  ∀ ids, cc = Some ids → ids ≠ inl 0%Z → ids ≠ inr [] →
                         cost_center_id t ∈ as_list ids) ∧
          q2 `sublist_of` q1) as [M2 S2].
  { unfold q2. destruct cc as [[i|[|x l]]|]; cbn [truthy_ids];
      try destruct (Z.eqb_spec i 0) as [->|Hi]; cbn [negb];
      rewrite ?bool_decide_true by done; rewrite ?bool_decide_false by (by intros ?);
      try (split; [|done]; intros t; split; [|tauto]; intros Ht; split; [done|];
           by intros ids [= <-]).
    - destruct (filter_stage (λ t : TransactionRow, cost_center_id t ∈ as_list (inl i))
                  q1) as [Hm Hs].
      split; [|done]. intros t. rewrite Hm. split.
      + intros [? Ht]. split; [done|]. by intros ids [= <-].
      + intros [? Ht]. split; [done|]. apply Ht; [done|by intros [= ->]|done].
    - destruct (filter_stage
                  (λ t : TransactionRow, cost_center_id t ∈ as_list (inr (x :: l)))
                  q1) as [Hm Hs].
      split; [|done]. intros t. rewrite Hm. split.
      + intros [? Ht]. split; [done|]. by intros ids [= <-].
      + intros [? Ht]. split; [done|]. by apply Ht. }
  clearbody q2.
  set (q3 := match sc with
             | Some ids => if truthy_ids sc then filter _ q2 else q2
             | None => q2
             end).
  assert ((∀ t : TransactionRow, t ∈ q3 ↔ t ∈ q2 ∧
                  ∀ ids, sc = Some ids → ids ≠ inl 0%Z → ids ≠ inr [] →
                         ∃ cat, cat ∈ t_spend_categories t ∧
                                sc_id cat ∈ as_list ids) ∧
          q3 `sublist_of` q2) as [M3 S3].
  { unfold q3. destruct sc as [[i|[|x l]]|]; cbn [truthy_ids];
      try destruct (Z.eqb_spec i 0) as [->|Hi]; cbn [negb];
      rewrite ?bool_decide_true by done; rewrite ?bool_decide_false by (by intros ?);
      try (split; [|done]; intros t; split; [|tauto]; intros Ht; split; [done|];
           by intros ids [= <-]).
    - destruct (filter_stage
                  (λ t : TransactionRow,
                     Exists (λ cat, sc_id cat ∈ as_list (inl i)) (t_spend_categories t))
                  q2) as [Hm Hs].
      split; [|done]. intros t. rewrite Hm, Exists_elem_of. split.
      + intros [? Ht]. split; [done|]. by intros ids [= <-].
      + intros [? Ht]. split; [done|]. apply Ht; [done|by intros [= ->]|done].
    - destruct (filter_stage
                  (λ t : TransactionRow,
                     Exists (λ cat, sc_id cat ∈ as_list (inr (x :: l)))
                       (t_spend_categories t))
                  q2) as [Hm Hs].
      split; [|done]. intros t. rewrite Hm, Exists_elem_of. split.
      + intros [? Ht]. split; [done|]. by intros ids [= <-].
      + intros [? Ht]. split; [done|]. by apply Ht. }
  clearbody q3.
  set (q4 := match account with
             | Some names => if truthy_names account then filter _ q3 else q3
             | None => q3
             end).
  assert ((∀ t : TransactionRow, t ∈ q4 ↔ t ∈ q3 ∧
                  ∀ names, account = Some names → names ≠ inl [] → names ≠ inr [] →
                           row_account t ∈ as_list names) ∧
          q4 `sublist_of` q3) as [M4 S4].
  { unfold q4. destruct account as [[[|c s]|[|x l]]|];
      cbn [truthy_names PyStr.truthy];
      rewrite ?bool_decide_true by done; rewrite ?bool_decide_false by (by intros ?);
      try (split; [|done]; intros t; split; [|tauto]; intros Ht; split; [done|];
           by intros ids [= <-]).
    - destruct (filter_stage
                  (λ t : TransactionRow, row_account t ∈ as_list (inl (c :: s)))
                  q3) as [Hm Hs].
      split; [|done]. intros t. rewrite Hm. split.
      + intros [? Ht]. split; [done|]. by intros ids [= <-].
      + intros [? Ht]. split; [done|]. by apply Ht.
    - destruct (filter_stage
                  (λ t : TransactionRow, row_account t ∈ as_list (inr (x :: l)))
                  q3) as [Hm Hs].
      split; [|done]. intros t. rewrite Hm. split.
      + intros [? Ht]. split; [done|]. by intros ids [= <-].
      + intros [? Ht]. split; [done|]. by apply Ht. }
  clearbody q4.
  set (q5 := match start_date with Some d => filter _ q4 | None => q4 end).
  assert ((∀ t : TransactionRow, t ∈ q5 ↔ t ∈ q4 ∧
                  ∀ d, start_date = Some d → date_ltb (t_date t) d = false) ∧
          q5 `sublist_of` q4) as [M5 S5].
  { unfold q5. destruct start_date as [d|].
    - destruct (filter_stage (λ t : TransactionRow, date_ltb (t_date t) d = false) q4)
        as [Hm Hs].
      split; [|done]. intros t. rewrite Hm. split.
      + intros [? Ht]. split; [done|]. by intros ? [= <-].
      + intros [? Ht]. split; [done|]. by apply Ht.
    - split; [|done]. intros t. split; [|tauto]. by intros Ht. }
  clearbody q5.
  set (q6 := match end_date with Some d => filter _ q5 | None => q5 end).
  assert ((∀ t : TransactionRow, t ∈ q6 ↔ t ∈ q5 ∧
                  ∀ d, end_date = Some d → date_ltb d (t_date t) = false) ∧
          q6 `sublist_of` q5) as [M6 S6].
  { unfold q6. destruct end_date as [d|].
    - destruct (filter_stage (λ t : TransactionRow, date_ltb d (t_date t) = false) q5)
        as [Hm Hs].
      split; [|done]. intros t. rewrite Hm. split.
      + intros [? Ht]. split; [done|]. by intros ? [= <-].
      + intros [? Ht]. split; [done|]. by apply Ht.
    - split; [|done]. intros t. split; [|tauto]. by intros Ht. }
  clearbody q6.
  set (q7 := match min_amount with Some x => filter _ q6 | None => q6 end).
  assert ((∀ t : TransactionRow, t ∈ q7 ↔ t ∈ q6 ∧
                  ∀ x, min_amount = Some x → (x <= t_amount t)%Q) ∧
          q7 `sublist_of` q6) as [M7 S7].
  { unfold q7. destruct min_amount as [x|].
    - destruct (filter_stage (λ t : TransactionRow, Qle_bool x (t_amount t)) q6)
        as [Hm Hs].
      split; [|done]. intros t. rewrite Hm. split.
      + intros [? Ht]. split; [done|]. intros ? [= <-]. apply Qle_bool_iff.
        by destruct (Qle_bool x (t_amount t)).
      + intros [? Ht]. split; [done|].
        by rewrite (proj2 (Qle_bool_iff _ _) (Ht x eq_refl)).
    - split; [|done]. intros t. split; [|tauto]. by intros Ht. }
  clearbody q7.
  set (q8 := match max_amount with Some x => filter _ q7 | None => q7 end).
  assert ((∀ t : TransactionRow, t ∈ q8 ↔ t ∈ q7 ∧
                  ∀ x, max_amount = Some x → (t_amount t <= x)%Q) ∧
          q8 `sublist_of` q7) as [M8 S8].
  { unfold q8. destruct max_amount as [x|].
    - destruct (filter_stage (λ t : TransactionRow, Qle_bool (t_amount t) x) q7)
        as [Hm Hs].
      split; [|done]. intros t. rewrite Hm. split.
      + intros [? Ht]. split; [done|]. intros ? [= <-]. apply Qle_bool_iff.
        by destruct (Qle_bool (t_amount t) x).
      + intros [? Ht]. split; [done|].
        by rewrite (proj2 (Qle_bool_iff _ _) (Ht x eq_refl)).
    - split; [|done]. intros t. split; [|tauto]. by intros Ht. }
  clearbody q8.
  split.
  - intros t. rewrite M8, M7, M6, M5, M4, M3, M2, M1. tauto.
  - by rewrite S8, S7, S6, S5, S4, S3, S2.
Qed.

(** The id 0 given alone is falsy, so it does not restrict the rows. *)
Example zero_id_restricts_nothing (ilike : pystr → pystr → bool)
    (session : list TransactionRow) :
  get_transactions ilike session
    {| f_search := Some []; f_cost_center_ids := Some (inl 0%Z);
       f_spend_category_ids := Some (inr []); f_filter_account := Some (inl []);
       f_start_date := None; f_end_date := None;
       f_min_amount := None; f_max_amount := None |}
  = session.
Proof. done. Qed.


(** ** Creating a transaction *)





(** ** Deleting a transaction *)

Lemma filter_all {A} (P : A → Prop) `{∀ x, Decision (P x)} (l : list A) :
  Forall P l → filter P l = l.
Proof.
  induction 1 as [|x l Hx _ IH]; [done|].
  by rewrite filter_cons_True, IH by done.
Qed.

Lemma cleanup_cost_center_spec (db : Database) (id : Z) :
  let db' := _cleanup_orphaned_cost_center db id in
  db_transactions db' = db_transactions db ∧
  db_spend_categories db' = db_spend_categories db ∧
  db_cost_centers db'
  = filter (λ c, ¬ (cc_id c = id ∧ transactions_of_cost_center db id = []))
      (db_cost_centers db).
Proof.
  unfold _cleanup_orphaned_cost_center.
  destruct (List.find _ (db_cost_centers db)) as [c0|] eqn:Hfind.
  - apply find_some in Hfind as [_ Hc0%bool_decide_eq_true]. rewrite Hc0.
    destruct (transactions_of_cost_center db id) as [|t ts] eqn:Hu.
    + cbn [db_transactions db_spend_categories db_cost_centers].
      split_and!; [done..|]. apply list_filter_iff. intros c. tauto.
    + split_and!; [done..|]. symmetry. apply filter_all, Forall_forall.
      intros c _ [_ [=]].
  - split_and!; [done..|]. symmetry. apply filter_all, Forall_forall.
    intros c Hc [Hid _]. apply list_elem_of_In in Hc.
    apply (find_none _ _ Hfind) in Hc. cbn in Hc.
    by rewrite bool_decide_true in Hc.
Qed.

Lemma cleanup_spend_categories_spec (db : Database) (olds : list SpendCategory) :
  let db' := _cleanup_orphaned_spend_categories db olds in
  db_transactions db' = db_transactions db ∧
  db_cost_centers db' = db_cost_centers db ∧
  db_spend_categories db'
  = filter (λ c, ¬ (sc_id c ∈ sc_id <$> olds ∧
                    transactions_of_spend_category db (sc_id c) = []))
      (db_spend_categories db).
Proof.
  revert db. induction olds as [|old olds IH]; intros db.
  - cbn. split_and!; [done..|]. symmetry. apply filter_all, Forall_forall.
    intros c _ [Hc _]. by apply elem_of_nil in Hc.
  - unfold _cleanup_orphaned_spend_categories. cbn [foldl].
    set (db1 := if bool_decide _ then _ else db).
    fold (_cleanup_orphaned_spend_categories db1 olds).
    assert (db_transactions db1 = db_transactions db ∧
            db_cost_centers db1 = db_cost_centers db ∧
            db_spend_categories db1
            = filter (λ c, ¬ (sc_id c = sc_id old ∧
                              transactions_of_spend_category db (sc_id c) = []))
                (db_spend_categories db)) as (T1 & C1 & S1).
    { unfold db1. case_bool_decide as Hin.
      - destruct (transactions_of_spend_category db (sc_id old)) as [|t ts] eqn:Hu.
        + cbn [db_transactions db_spend_categories db_cost_centers].
          split_and!; [done..|]. apply list_filter_iff. intros c. split.
          * intros Hc [? _]. done.
          * intros Hc Hid. apply Hc. split; [done|]. by rewrite Hid.
        + split_and!; [done..|]. symmetry. apply filter_all, Forall_forall.
          intros c _ [Hid Hnil]. rewrite Hid in Hnil. congruence.
      - split_and!; [done..|]. symmetry. apply filter_all, Forall_forall.
        intros c Hc [Hid _]. apply Hin. rewrite <- Hid.
        by apply list_elem_of_fmap_2. }
    destruct (IH db1) as (T2 & C2 & S2). cbn zeta in T2, C2, S2.
    rewrite T2, C2, S2, T1, C1, S1. split_and!; [done..|].
    rewrite list_filter_filter. apply list_filter_iff. intros c.
    assert (transactions_of_spend_category db1 (sc_id c)
            = transactions_of_spend_category db (sc_id c)) as ->
      by (unfold transactions_of_spend_category; by rewrite T1).
    rewrite fmap_cons, elem_of_cons. tauto.
Qed.

Lemma filter_nonempty {A} (P : A → Prop) `{∀ x, Decision (P x)} (l : list A) :
  filter P l ≠ [] → ∃ x, x ∈ l ∧ P x.
Proof.
  destruct (filter P l) as [|x xs] eqn:Hf; [done|]. intros _.
  assert (x ∈ filter P l) as Hx by (rewrite Hf; left).
  apply list_elem_of_filter in Hx as [? ?]. eauto.
Qed.

Lemma find_id_Some (l : list TransactionRow) (tx_id : Z) :
  tx_id ∈ t_id <$> (row_transaction <$> l) →
  ∃ tx, List.find (λ t : TransactionRow, bool_decide (t_id t = tx_id)) l = Some tx ∧
        tx ∈ l ∧ t_id tx = tx_id.
Proof.
  intros (t0 & Hid & (t & -> & Ht)%list_elem_of_fmap)%list_elem_of_fmap.
  destruct (List.find _ l) as [tx|] eqn:Hfind.
  - apply find_some in Hfind as [Hin Htx%bool_decide_eq_true].
    exists tx. by rewrite list_elem_of_In.
  - apply list_elem_of_In in Ht. apply (find_none _ _ Hfind) in Ht. cbn in Ht.
    by rewrite bool_decide_true in Ht.
Qed.

Lemma find_id_None (l : list TransactionRow) (tx_id : Z) :
  tx_id ∉ t_id <$> (row_transaction <$> l) →
  List.find (λ t : TransactionRow, bool_decide (t_id t = tx_id)) l = None.
Proof.
  intros Hid. destruct (List.find _ l) as [tx|] eqn:Hfind; [|done].
  apply find_some in Hfind as [Hin Htx%bool_decide_eq_true]. exfalso.
  apply Hid. rewrite <- Htx. apply list_elem_of_fmap_2, list_elem_of_fmap_2.
  by apply list_elem_of_In.
Qed.

(** X20. [delete_transaction] returns [False] and changes nothing when no
    transaction has the id. Otherwise it returns [True], removes the
    transaction and nothing else from the table of transactions, and removes
    from the two other tables at most rows that the transaction referred to.
    On a database in which the ids of the transactions are unique and every
    reference holds, the references still hold afterwards, and if no cost
    center and no spend category was without a transaction before, none is
    afterwards: the cleanup removes exactly what the deletion has
    orphaned. *)
Theorem delete_transaction_cleans_up (db : Database) (tx_id : Z) :
  let r := delete_transaction db tx_id in
  (tx_id ∉ t_id <$> (row_transaction <$> db_transactions db) → r = (db, false)) ∧
  (tx_id ∈ t_id <$> (row_transaction <$> db_transactions db) →
   r.2 = true ∧
   db_transactions r.1
   = filter (λ t : TransactionRow, t_id t ≠ tx_id) (db_transactions db) ∧
   db_cost_centers r.1 `sublist_of` db_cost_centers db ∧
   db_spend_categories r.1 `sublist_of` db_spend_categories db ∧
   (well_formed db →
    well_formed r.1 ∧ (no_orphans db → no_orphans r.1))).
Proof.
  intros r. split.
  { intros Hid. unfold r, delete_transaction. by rewrite find_id_None. }
  intros (tx & Hfind & Htx & Hid)%find_id_Some.
  unfold r, delete_transaction. rewrite Hfind. cbn [fst snd]. rewrite Hid.
  set (db1 := {| db_cost_centers := db_cost_centers db;
                 db_spend_categories := db_spend_categories db;
                 db_transactions :=
                   filter (λ t : TransactionRow, t_id t ≠ tx_id)
                     (db_transactions db) |}).
  set (db2 := if bool_decide (cost_center_id tx ≠ 0%Z)
              then _cleanup_orphaned_cost_center db1 (cost_center_id tx)
              else db1).
  destruct (cleanup_spend_categories_spec db2 (t_spend_categories tx))
    as (T3 & C3 & S3). cbn zeta in T3, C3, S3.
  set (db3 := _cleanup_orphaned_spend_categories db2 (t_spend_categories tx)) in *.
  assert (db_transactions db2 = db_transactions db1 ∧
          db_spend_categories db2 = db_spend_categories db ∧
          db_cost_centers db2
          = filter (λ c, ¬ (cost_center_id tx ≠ 0%Z ∧ cc_id c = cost_center_id tx ∧
                            transactions_of_cost_center db1 (cost_center_id tx) = []))
              (db_cost_centers db)) as (T2 & S2 & C2).
  { unfold db2. case_bool_decide as H0.
    - destruct (cleanup_cost_center_spec db1 (cost_center_id tx)) as (T & S & C).
      cbn zeta in T, S, C. rewrite T, S, C. split_and!; [done..|].
      apply list_filter_iff. intros c. tauto.
    - split_and!; [done..|]. symmetry. apply filter_all, Forall_forall.
      intros c _ [? _]. done. }
  assert (∀ id, transactions_of_spend_category db2 id
                = transactions_of_spend_category db1 id) as U2
    by (intros id; unfold transactions_of_spend_category; by rewrite T2).
  rewrite T3, C3, S3, T2, C2, S2.
  split_and!; [done|done|apply sublist_filter..|].
  intros (Hnd & H0 & Href).
  assert (∀ t : TransactionRow,
            t ∈ db_transactions db1 ↔ t ∈ db_transactions db ∧ t_id t ≠ tx_id)
    as Hdb1.
  { intros t. unfold db1. cbn [db_transactions]. rewrite list_elem_of_filter.
    tauto. }
  assert (∀ t : TransactionRow, t ∈ db_transactions db → t_id t = tx_id → t = tx)
    as Hkey.
  { intros t Ht Ht'. rewrite <- list_fmap_compose in Hnd.
    apply (NoDup_fmap_eq (t_id ∘ row_transaction) (db_transactions db));
      [done..|]. cbn. congruence. }
  split.
  - unfold well_formed. rewrite T3, C3, S3, T2, C2, S2. split_and!.
    + refine (sublist_NoDup _ _ Hnd _).
      apply fmap_sublist, fmap_sublist, sublist_filter.
    + intros (c & Hc0 & [_ Hc]%list_elem_of_filter)%list_elem_of_fmap.
      apply H0. rewrite Hc0. by apply list_elem_of_fmap_2.
    + intros t Ht. pose proof Ht as [Ht0 Hne]%Hdb1.
      destruct (Href t Ht0) as [Hcc Hcats]. split.
      * apply list_elem_of_fmap in Hcc as (c & Hc & Hin).
        rewrite Hc. apply list_elem_of_fmap_2, list_elem_of_filter.
        split; [|done]. intros (_ & Hc' & Hnil).
        assert (t ∈ transactions_of_cost_center db1 (cost_center_id tx)) as Hu.
        { apply list_elem_of_filter. split; [congruence|done]. }
        rewrite Hnil in Hu. by apply elem_of_nil in Hu.
      * intros cat Hcat.
        destruct (proj1 (list_elem_of_fmap _ _ _) (Hcats cat Hcat))
          as (c & Hc & Hin).
        rewrite Hc. apply list_elem_of_fmap_2, list_elem_of_filter.
        split; [|done]. intros (_ & Hnil). rewrite U2 in Hnil.
        assert (t ∈ transactions_of_spend_category db1 (sc_id c)) as Hu.
        { apply list_elem_of_filter. split; [|done].
          rewrite <- Hc. by apply list_elem_of_fmap_2. }
        rewrite Hnil in Hu. by apply elem_of_nil in Hu.
  - intros [Hoc Hos]. split.
    + intros c. rewrite C3, C2. intros [Hkeep Hc]%list_elem_of_filter.
      unfold transactions_of_cost_center. rewrite T3, T2.
      fold (transactions_of_cost_center db1 (cc_id c)).
      destruct (filter_nonempty _ _ (Hoc c Hc)) as (t & Ht & Hcc).
      destruct (decide (t_id t = tx_id)) as [Heq|Hne].
      * apply (Hkey t Ht) in Heq. subst t. rewrite <- Hcc.
        intros Hnil. apply Hkeep. split_and!; [|done..].
        rewrite Hcc. intros H0'. apply H0. rewrite <- H0'.
        by apply list_elem_of_fmap_2.
      * intros Hnil.
        assert (t ∈ transactions_of_cost_center db1 (cc_id c)) as Hu.
        { apply list_elem_of_filter. split; [done|]. by apply Hdb1. }
        rewrite Hnil in Hu. by apply elem_of_nil in Hu.
    + intros c. rewrite S3, S2. intros [Hkeep Hc]%list_elem_of_filter.
      rewrite U2 in Hkeep.
      unfold transactions_of_spend_category. rewrite T3, T2.
      fold (transactions_of_spend_category db1 (sc_id c)).
      destruct (filter_nonempty _ _ (Hos c Hc)) as (t & Ht & Hcat).
      destruct (decide (t_id t = tx_id)) as [Heq|Hne].
      * apply (Hkey t Ht) in Heq. subst t. intros Hnil. by apply Hkeep.
      * intros Hnil.
        assert (t ∈ transactions_of_spend_category db1 (sc_id c)) as Hu.
        { apply list_elem_of_filter. split; [done|]. by apply Hdb1. }
        rewrite Hnil in Hu. by apply elem_of_nil in Hu.
Qed.


Lemma delete_transaction_cleans_up_witness :
  (delete_transaction sample_db 1).2 = true ∧
  db_transactions (delete_transaction sample_db 1).1
  = filter (λ t : TransactionRow, t_id t ≠ 1%Z) (db_transactions sample_db).
Proof.
  destruct (proj2 (delete_transaction_cleans_up sample_db 1)) as (H1 & H2 & _).
  - vm_compute. apply list_elem_of_here.
  - by split.
Defined.

(** Deleting the only transaction of a cost center and of a spend category
    removes both. *)
Example delete_removes_the_orphans :
  db_cost_centers (delete_transaction sample_db 1).1 = [cc_pay] ∧
  db_spend_categories (delete_transaction sample_db 1).1 = [] ∧
  delete_transaction sample_db 3 = (sample_db, false).
Proof. vm_compute. done. Qed.

(** ** The failures of [parse_csv] *)







(** ** Allowed origins *)

Lemma split_char_aux_parts (sep : char) (cur s : pystr) :
  sep ∉ cur → Forall (λ part, sep ∉ part) (PyStr.split_char_aux sep cur s).
Proof.
  revert cur. induction s as [|c s IH]; intros cur Hcur; cbn [PyStr.split_char_aux].
  - by apply Forall_singleton.
  - destruct (decide (c = sep)) as [->|Hc].
    + constructor; [done|]. apply IH, not_elem_of_nil.
    + apply IH. rewrite elem_of_app, list_elem_of_singleton. by intros [?| ->].
Qed.

Lemma lstrip_subseteq (s : pystr) : PyStr.lstrip s ⊆ s.
Proof.
  induction s as [|c s IH]; [done|]. cbn [PyStr.lstrip].
  destruct (PyStr.isspace c); [|done]. intros x Hx. right. by apply IH.
Qed.

Lemma strip_subseteq (s : pystr) : PyStr.strip s ⊆ s.
Proof.
  unfold PyStr.strip, PyStr.rstrip. intros x Hx.
  apply lstrip_subseteq. apply list_elem_of_In, in_rev, list_elem_of_In in Hx.
  apply lstrip_subseteq in Hx. by apply list_elem_of_In, in_rev, list_elem_of_In.
Qed.

(** X22. In production the allowed origins are the comma-separated pieces
    of [ALLOWED_ORIGINS], trimmed and without the blank ones, in order: none
    is empty, none has surrounding whitespace or a comma, and there is none
    at all when the variable is not set or holds only commas and whitespace.
    In every other environment, also when [ENVIRONMENT] is not set, they are
    the two local development origins, whatever [ALLOWED_ORIGINS] holds. *)
Theorem allowed_origins_are_trimmed_pieces
    (environment raw_origins : option pystr) :
  (environment = Some (lit "production") →
   allowed_origins environment raw_origins
   = trimmed_nonblank (PyStr.split_char 44%N (default [] raw_origins)) ∧
   Forall (λ origin, canonical_name origin ∧ 44%N ∉ origin)
     (allowed_origins environment raw_origins) ∧
   allowed_origins environment None = []) ∧
  (environment ≠ Some (lit "production") →
   allowed_origins environment raw_origins
   = [lit "http://localhost:5173"; lit "http://127.0.0.1:5173"]).
Proof.
  split.
  - intros ->. unfold allowed_origins.
    change (default (lit "development") (Some (lit "production")))
      with (lit "production").
    rewrite decide_True by done. rewrite cleaned_is_trimmed_nonblank.
    split_and!; [done| |done].
    apply Forall_forall. intros origin Ho.
    split.
    { by apply (proj1 (Forall_forall _ _)
                  (trimmed_nonblank_canonical
                     (PyStr.split_char 44%N (default [] raw_origins)))). }
    apply elem_of_trimmed_nonblank in Ho as (_ & piece & Hpiece & ->).
    intros Hc%strip_subseteq.
    pose proof (split_char_aux_parts 44%N [] (default [] raw_origins)
                  (not_elem_of_nil _)) as Hparts.
    by apply (proj1 (Forall_forall _ _) Hparts piece).
  - intros He. unfold allowed_origins. destruct environment as [env|].
    + change (default (lit "development") (Some env)) with env.
      rewrite decide_False; [done|]. by intros ->.
    + done.
Qed.

Lemma allowed_origins_are_trimmed_pieces_witness :
  allowed_origins (Some (lit "production"))
    (Some (lit " https://a.example , ,https://b.example"))
  = trimmed_nonblank
      (PyStr.split_char 44%N
         (default [] (Some (lit " https://a.example , ,https://b.example")))).
Proof.
  exact (proj1 (proj1 (allowed_origins_are_trimmed_pieces
                         (Some (lit "production"))
                         (Some (lit " https://a.example , ,https://b.example")))
                  eq_refl)).
Defined.

Example allowed_origins_of_a_list :
  allowed_origins (Some (lit "production"))
    (Some (lit " https://a.example , ,https://b.example"))
  = [lit "https://a.example"; lit "https://b.example"].
Proof. vm_compute. reflexivity. Qed.
